(** * The HSDM estimation driver (hlm/lacombe_mcintyre/sdm/model.py)

    A shallow embedding of the module: its module-level list [SAMPLERS],
    the class [Base_HSDM] (construction, set-up of data, configuration,
    truncation bounds and starting values, the sampling loop and one draw)
    and the class [HSDM] that validates the input.

    Python objects are values of [value]; a namespace ([NS]) is a finite map
    from attribute names to values; Python floats and numpy's float64 are
    binary64 numbers ([PrimFloat.float]).  Methods are computations in a
    state-and-exception monad [Py] whose state holds the object under
    construction ([self]), the list objects of the module, the calls made to
    the collaborators, what was printed, and the random stream. *)

From Stdlib Require Import ZArith String List Floats.PrimFloat Uint63.
From stdpp Require Import gmap strings list pretty.

Set Warnings "-inexact-float".
#[local] Open Scope string_scope.
#[local] Open Scope list_scope.
#[local] Open Scope Z_scope.

(** ** Python data *)

(** The exceptions this module can end with. [LibraryError] stands for
    whatever a collaborator raises by itself. *)
Inductive exn : Type :=
| NameError (name : string)
| AttributeError (attr : string)
| KeyError (key : string)
| TypeError (what : string)
| ValueError (what : string)
| ZeroDivisionError
| UserWarning (msg : string)
| LibraryError (what : string).

Inductive result (A : Type) : Type :=
| Ok (a : A)
| Raise (e : exn).
Arguments Ok {A} a.
Arguments Raise {A} e.

(** A two-dimensional array: its shape and its entries, row after row. *)
Record ndarray : Type := { shape : nat * nat; data : list float }.

Inductive value : Type :=
| VNone
| VBool (b : bool)
| VInt (z : Z)
| VFloat (f : float)                   (* a Python float *)
| VFloat64 (f : float)                 (* a numpy.float64 scalar *)
| VStr (s : string)
| VPair (a b : value)                 (* a tuple of two *)
| VArray (a : ndarray)                 (* numpy.ndarray *)
| VSparse (a : ndarray)                (* scipy.sparse matrix *)
| VWeights (n : Z) (sparse : ndarray)  (* pysal W, with its attributes n and sparse *)
| VObject (name : string).             (* any other object *)

(** [float(z)] for the integers a dimension can be (below 2^63 in size). *)
Definition float_of_Z (z : Z) : float :=
  if z <? 0 then PrimFloat.opp (PrimFloat.of_uint63 (Uint63.of_Z (- z)))
  else PrimFloat.of_uint63 (Uint63.of_Z z).

Inductive binop : Type := Add | Sub | Mul | TrueDiv.

Definition int_op (op : binop) (x y : Z) : result value :=
  match op with
  | Add => Ok (VInt (x + y))
  | Sub => Ok (VInt (x - y))
  | Mul => Ok (VInt (x * y))
  | TrueDiv =>      (* from __future__ import division *)
      if y =? 0 then Raise ZeroDivisionError
      else Ok (VFloat (PrimFloat.div (float_of_Z x) (float_of_Z y)))
  end.

Definition float_op (op : binop) (x y : float) : float :=
  match op with
  | Add => PrimFloat.add x y
  | Sub => PrimFloat.sub x y
  | Mul => PrimFloat.mul x y
  | TrueDiv => PrimFloat.div x y
  end.

Definition is_zero (y : float) : bool := PrimFloat.eqb y 0%float.

(** An integer, a bool being one (True is 1, False is 0). *)
Definition as_int (v : value) : option Z :=
  match v with
  | VInt z => Some z
  | VBool b => Some (Z.b2z b)
  | _ => None
  end.

(** A number as a float, and whether it is numpy's. *)
Definition as_float (v : value) : option (float * bool) :=
  match v with
  | VInt z => Some (float_of_Z z, false)
  | VBool b => Some (float_of_Z (Z.b2z b), false)
  | VFloat f => Some (f, false)
  | VFloat64 f => Some (f, true)
  | _ => None
  end.

(** The result of [a op b] on numbers.  Python's own floats raise
    [ZeroDivisionError]; as soon as one operand is a numpy.float64 numpy's
    division is used, which returns an infinity or a nan (with a warning) and
    raises nothing.  Other operands are left to [arrays]. *)
Definition py_binop (arrays : binop -> value -> value -> result value)
    (op : binop) (a b : value) : result value :=
  match as_int a, as_int b with
  | Some x, Some y => int_op op x y
  | _, _ =>
      match as_float a, as_float b with
      | Some (x, nx), Some (y, ny) =>
          if nx || ny then Ok (VFloat64 (float_op op x y))
          else match op with
               | TrueDiv => if is_zero y then Raise ZeroDivisionError
                            else Ok (VFloat (PrimFloat.div x y))
               | _ => Ok (VFloat (float_op op x y))
               end
      | _, _ => arrays op a b
      end
  end.

(** [v > z] for an integer literal [z] (Python 3: no order between a number
    and None, a string or another object). *)
Definition py_gt (v : value) (z : Z) : result bool :=
  match v with
  | VBool b => Ok (Z.b2z b >? z)
  | VInt x => Ok (x >? z)
  | VFloat f | VFloat64 f => Ok (PrimFloat.ltb (float_of_Z z) f)
  | _ => Raise (TypeError ">")
  end.

(** Attributes of values. *)
Definition attr_shape (v : value) : result (Z * Z) :=
  match v with
  | VArray a | VSparse a => Ok (Z.of_nat (fst (shape a)), Z.of_nat (snd (shape a)))
  | _ => Raise (AttributeError "shape")
  end.

Definition attr_n (v : value) : result Z :=
  match v with
  | VWeights n _ => Ok n
  | _ => Raise (AttributeError "n")
  end.

Definition attr_sparse (v : value) : result value :=
  match v with
  | VWeights _ a => Ok (VSparse a)
  | _ => Raise (AttributeError "sparse")
  end.

(** numpy's constructors of constant arrays. *)
Definition dim (v : value) : result nat :=
  match v with
  | VInt z => if z <? 0 then Raise (ValueError "negative dimensions are not allowed")
              else Ok (Z.to_nat z)
  | VBool b => Ok (Nat.b2n b)
  | _ => Raise (TypeError "an integer is required")
  end.

Definition zeros (r c : nat) : ndarray :=
  {| shape := (r, c); data := repeat 0%float (r * c) |}.

Definition eye (n : nat) : ndarray :=
  {| shape := (n, n);
     data := flat_map (fun i => map (fun j => if Nat.eqb i j then 1%float else 0%float)
                                    (seq 0 n)) (seq 0 n) |}.

Definition np_zeros (r c : value) : result value :=
  match dim r with
  | Raise e => Raise e
  | Ok r' => match dim c with
             | Raise e => Raise e
             | Ok c' => Ok (VArray (zeros r' c'))
             end
  end.

Definition np_identity (n : value) : result value :=
  match dim n with
  | Raise e => Raise e
  | Ok n' => Ok (VArray (eye n'))
  end.

Definition np_eye : value -> result value := np_identity.

(** ** Namespaces *)

(** [NS]: an object whose attributes are the entries of its [__dict__]. *)
Abbreviation NS := (gmap string value).

(** [ns.update(d)] for the entries [d] in their order. *)
Definition ns_update {V : Type} (d : list (string * V)) (ns : gmap string V) : gmap string V :=
  fold_left (fun m kv => <[kv.1 := kv.2]> m) d ns.

(** [d.pop(k, default)]: the value and what is left of [d]. *)
Definition dict_pop (k : string) (default : value) (d : NS) : value * NS :=
  (match d !! k with Some v => v | None => default end, delete k d).

(** ** The configuration namespaces *)

Record rho_configs : Type := {
  jump : value; ar_low : value; ar_hi : value; proposal : value;
  adapt_step : value; rejected : value; accepted : value;
  max_adapt : value;
  adapt : option value }.          (* None until line 95 or 97 assigns it *)

Record configs_ns : Type := { truncate : value; Rho : rho_configs }.

(** ** The estimator object

    An attribute that has not been assigned yet is [None]; reading it raises
    [AttributeError].  [traced_params] holds a reference to a list object. *)

Definition loc := positive.

Record estimator : Type := {
  W : option value;
  M : option value;
  _verbose : option value;
  state : option NS;
  trace : option (gmap string (list value));
  traced_params : option loc;
  configs : option configs_ns;
  cycles : option value }.

Definition new_object : estimator :=
  {| W := None; M := None; _verbose := None; state := None; trace := None;
     traced_params := None; configs := None; cycles := None |}.

Definition set_W (v : value) (o : estimator) : estimator :=
  {| W := Some v; M := M o; _verbose := _verbose o; state := state o; trace := trace o;
     traced_params := traced_params o; configs := configs o; cycles := cycles o |}.
Definition set_M (v : value) (o : estimator) : estimator :=
  {| W := W o; M := Some v; _verbose := _verbose o; state := state o; trace := trace o;
     traced_params := traced_params o; configs := configs o; cycles := cycles o |}.
Definition set__verbose (v : value) (o : estimator) : estimator :=
  {| W := W o; M := M o; _verbose := Some v; state := state o; trace := trace o;
     traced_params := traced_params o; configs := configs o; cycles := cycles o |}.
Definition set_state (s : NS) (o : estimator) : estimator :=
  {| W := W o; M := M o; _verbose := _verbose o; state := Some s; trace := trace o;
     traced_params := traced_params o; configs := configs o; cycles := cycles o |}.
Definition set_trace (t : option (gmap string (list value))) (o : estimator) : estimator :=
  {| W := W o; M := M o; _verbose := _verbose o; state := state o; trace := t;
     traced_params := traced_params o; configs := configs o; cycles := cycles o |}.
Definition set_traced_params (l : loc) (o : estimator) : estimator :=
  {| W := W o; M := M o; _verbose := _verbose o; state := state o; trace := trace o;
     traced_params := Some l; configs := configs o; cycles := cycles o |}.
Definition set_configs (c : configs_ns) (o : estimator) : estimator :=
  {| W := W o; M := M o; _verbose := _verbose o; state := state o; trace := trace o;
     traced_params := traced_params o; configs := Some c; cycles := cycles o |}.
Definition set_cycles (v : value) (o : estimator) : estimator :=
  {| W := W o; M := M o; _verbose := _verbose o; state := state o; trace := trace o;
     traced_params := traced_params o; configs := configs o; cycles := Some v |}.

(** ** The machine: what a method can read and change *)

Inductive event : Type :=
| Called (f : string)       (* a call of a collaborator of the repository *)
| Printed (line : string).  (* a line written by print *)

(** numpy's global random stream: the numbers it yields and how many were
    taken. *)
Record RandomState : Type := { stream : nat -> float; position : nat }.

Record machine : Type := {
  self : estimator;                 (* the object the running method is bound to *)
  lists : gmap loc (list string);   (* the list objects that hold parameter names *)
  events : list event;              (* oldest first *)
  random : RandomState }.

Definition Py (A : Type) : Type := machine -> result A * machine.

Definition ret {A : Type} (a : A) : Py A := fun m => (Ok a, m).

Definition raise {A : Type} (e : exn) : Py A := fun m => (Raise e, m).

Definition bind {A B : Type} (c : Py A) (k : A -> Py B) : Py B :=
  fun m => match c m with
           | (Ok a, m') => k a m'
           | (Raise e, m') => (Raise e, m')
           end.

Notation "'let*' x ':=' c 'in' k" := (bind c (fun x => k))
  (at level 10, x name, c at level 100, k at level 200, only parsing).
Notation "'let*' ' p ':=' c 'in' k" := (bind c (fun x => match x with p => k end))
  (at level 10, p pattern, c at level 100, k at level 200, only parsing).
Notation "c1 ';;;' c2" := (bind c1 (fun _ => c2))
  (at level 100, c2 at level 200, right associativity, only parsing).

Definition lift {A : Type} (r : result A) : Py A := fun m => (r, m).

Definition with_self (f : estimator -> estimator) : Py unit :=
  fun m => (Ok tt, {| self := f (self m); lists := lists m;
                      events := events m; random := random m |}).

Definition record (e : event) : Py unit :=
  fun m => (Ok tt, {| self := self m; lists := lists m;
                      events := events m ++ [e]; random := random m |}).

Definition print (line : string) : Py unit := record (Printed line).

(** [self.name], for an attribute read through the projection [proj]. *)
Definition attr {A : Type} (name : string) (proj : estimator -> option A) : Py A :=
  fun m => match proj (self m) with
           | Some a => (Ok a, m)
           | None => (Raise (AttributeError name), m)
           end.

(** [self.state.k] and [self.state.update(d)]. *)
Definition state_attr (k : string) : Py value :=
  let* st := attr "state" state in
  match st !! k with
  | Some v => ret v
  | None => raise (AttributeError k)
  end.

Definition state_update (d : list (string * value)) : Py unit :=
  let* st := attr "state" state in
  with_self (set_state (ns_update d st)).

(** The contents of a list object, and [l.extend(names)]. *)
Definition list_contents (l : loc) : Py (list string) :=
  fun m => match lists m !! l with
           | Some xs => (Ok xs, m)
           | None => (Raise (TypeError "not a list"), m)
           end.

Definition names_of (v : value) : result (list string) :=
  match v with
  | VPair (VStr a) (VStr b) => Ok [a; b]
  | VStr s => Ok ((fun c => String c EmptyString) <$> list_ascii_of_string s)
  | _ => Raise (TypeError "object is not iterable")
  end.

Definition list_extend (l : loc) (v : value) : Py unit :=
  let* xs := list_contents l in
  let* names := lift (names_of v) in
  fun m => (Ok tt, {| self := self m; lists := <[l := xs ++ names]> (lists m);
                      events := events m; random := random m |}).

Fixpoint for_each {A : Type} (l : list A) (body : A -> Py unit) : Py unit :=
  match l with
  | [] => ret tt
  | x :: l' => body x ;;; for_each l' body
  end.

(** ** The module's global names *)

(** The names the module binds (lines 1 to 16, and its two classes). *)
Definition module_names : list string :=
  ["division"; "types"; "np"; "stats"; "spar"; "la"; "Warn"; "sphstack"; "spdot";
   "sample"; "verify"; "speigen_range"; "splogdet"; "NS"; "SAMPLERS";
   "Base_HSDM"; "HSDM"].

(** The built-in names: Python's built-in functions and constants, and the
    exceptions this module names. *)
Definition builtin_names : list string :=
  ["abs"; "all"; "any"; "ascii"; "bin"; "bool"; "bytearray"; "bytes"; "callable";
   "chr"; "classmethod"; "compile"; "complex"; "delattr"; "dict"; "dir"; "divmod";
   "enumerate"; "eval"; "exec"; "filter"; "float"; "format"; "frozenset"; "getattr";
   "globals"; "hasattr"; "hash"; "help"; "hex"; "id"; "input"; "int"; "isinstance";
   "issubclass"; "iter"; "len"; "list"; "locals"; "map"; "max"; "memoryview"; "min";
   "next"; "object"; "oct"; "open"; "ord"; "pow"; "print"; "property"; "range";
   "repr"; "reversed"; "round"; "set"; "setattr"; "slice"; "sorted"; "staticmethod";
   "str"; "sum"; "super"; "tuple"; "type"; "vars"; "zip"; "__import__";
   "None"; "True"; "False"; "Exception"; "AssertionError"; "UserWarning";
   "__name__"; "__doc__"; "__file__"; "__builtins__"].

(** Reading a name that is not local: the module's globals, then the
    built-ins, else NameError. *)
Definition load_name (name : string) : Py value :=
  if bool_decide (name ∈ module_names ++ builtin_names)
  then ret (VObject name)
  else raise (NameError name).

(** Line 16: the list object the module binds to SAMPLERS. *)
Definition SAMPLERS : loc := 1%positive.

Definition SAMPLERS_at_import : list string :=
  ["Alphas"; "Betas"; "Sigma2"; "Tau2"; "Gammas"; "Rho"].

(** The machine once the module is imported. *)
Definition module_import (rs : RandomState) : machine :=
  {| self := new_object; lists := {[ SAMPLERS := SAMPLERS_at_import ]};
     events := []; random := rs |}.

(** ** The collaborators

    numpy, scipy and pysal, and the modules of the repository this file
    imports from (verify, utils, sample): each is a function that returns or
    raises.  [sample] is handed the estimator and the random stream and
    leaves both as it pleases. *)
Record collaborators : Type := {
  np_binop : binop -> value -> value -> result value;   (* +, -, *, / on arrays *)
  np_dot : value -> value -> result value;
  np_T : value -> result value;                         (* a.T *)
  spar_csc_matrix : value -> result value;
  spdot : value -> value -> result value;
  speigen_range : value -> result (value * value);
  verify_weights : value -> value -> value -> result (value * value);
  verify_Delta_members : value -> value -> value -> value -> result (value * value);
  verify_covariates : value -> value -> result value;
  sample : estimator -> RandomState -> result unit * (estimator * RandomState) }.

(** [cls(...)]: a new object, initialised by [init], is the result. *)
Definition new (init : Py unit) : Py estimator :=
  with_self (fun _ => new_object) ;;;
  init ;;;
  fun m => (Ok (self m), m).

(** A call of a collaborator of the repository. *)
Definition call {A : Type} (f : string) (r : result A) : Py A :=
  record (Called f) ;;; lift r.

(** ** class Base_HSDM *)

Module Base_HSDM.
Section Methods.
Variable C : collaborators.

Definition op : binop -> value -> value -> result value := py_binop (np_binop C).

(** [_setup_data], lines 45 to 70. *)
Definition _setup_data (hypers : NS) : Py NS :=
  let* N := state_attr "N" in
  let* In := lift (np_identity N) in
  let* J := state_attr "J" in
  let* Ij := lift (np_identity J) in
  let '(Sigma2_s0, hypers) := dict_pop "Sigma2_s0" (VFloat 0.001) hypers in
  let '(Sigma2_v0, hypers) := dict_pop "Sigma2_v0" (VFloat 0.001) hypers in
  let* p := state_attr "p" in
  let* eye_p := lift (np_eye p) in
  let* cov0 := lift (op Mul eye_p (VFloat 0.001)) in
  let '(Betas_cov0, hypers) := dict_pop "Betas_cov0" cov0 hypers in
  let* p := state_attr "p" in
  let* mean0 := lift (np_zeros p (VInt 1)) in
  let '(Betas_mean0, hypers) := dict_pop "Betas_mean0" mean0 hypers in
  let '(Tau2_s0, hypers) := dict_pop "Tau2_s0" (VFloat 0.001) hypers in
  let '(Tau2_v0, hypers) := dict_pop "Tau2_v0" (VFloat 0.001) hypers in
  let* q := state_attr "q" in
  let* eye_q := lift (np_eye q) in
  let* cov0 := lift (op Mul eye_q (VFloat 0.001)) in
  let '(Gammas_cov0, hypers) := dict_pop "Gammas_cov0" cov0 hypers in
  let* q := state_attr "q" in
  let* mean0 := lift (np_zeros q (VInt 1)) in
  let '(Gammas_mean0, hypers) := dict_pop "Gammas_mean0" mean0 hypers in
  let* Betas_covm := lift (np_dot C Betas_cov0 Betas_mean0) in
  let* Gammas_covm := lift (np_dot C Gammas_cov0 Gammas_mean0) in
  let* Tau2_prod := lift (np_dot C Tau2_s0 Tau2_v0) in
  let* Sigma2_prod := lift (np_dot C Sigma2_s0 Sigma2_v0) in
  let* X := state_attr "X" in
  let* Xt := lift (np_T C X) in
  let* X := state_attr "X" in
  let* XtX := lift (np_dot C Xt X) in
  let* Z := state_attr "Z" in
  let* Zt := lift (np_T C Z) in
  let* Z := state_attr "Z" in
  let* ZtZ := lift (np_dot C Zt Z) in
  let* Delta := state_attr "Delta" in
  let* Deltat := lift (np_T C Delta) in
  let* Delta := state_attr "Delta" in
  let* DeltatDelta := lift (np_dot C Deltat Delta) in
  (* every local but hypers and self *)
  state_update
    [("In", In); ("Ij", Ij); ("Sigma2_s0", Sigma2_s0); ("Sigma2_v0", Sigma2_v0);
     ("Betas_cov0", Betas_cov0); ("Betas_mean0", Betas_mean0);
     ("Tau2_s0", Tau2_s0); ("Tau2_v0", Tau2_v0);
     ("Gammas_cov0", Gammas_cov0); ("Gammas_mean0", Gammas_mean0);
     ("Betas_covm", Betas_covm); ("Gammas_covm", Gammas_covm);
     ("Tau2_prod", Tau2_prod); ("Sigma2_prod", Sigma2_prod);
     ("XtX", XtX); ("ZtZ", ZtZ); ("DeltatDelta", DeltatDelta)] ;;;
  ret hypers.

(** A keyword parameter with a default, bound from the keywords of the call. *)
Definition keyword (name : string) (default : value) (kw : NS) : value :=
  match kw !! name with Some v => v | None => default end.

(** [_setup_configs], lines 72 to 97; keywords it does not name land in
    [**kw] and are dropped. *)
Definition _setup_configs (kw : NS) : Py unit :=
  let truncate := keyword "truncate" (VStr "eigs") kw in
  let tuning := keyword "tuning" (VInt 0) kw in
  let rho_jump := keyword "rho_jump" (VFloat 0.5) kw in
  let rho_ar_low := keyword "rho_ar_low" (VFloat 0.4) kw in
  let rho_ar_hi := keyword "rho_ar_hi" (VFloat 0.6) kw in
  let rho_proposal := keyword "rho_proposal" (VObject "scipy.stats.norm") kw in
  let rho_adapt_step := keyword "rho_adapt_step" (VFloat 1.01) kw in
  let unset_adapt :=
    {| truncate := truncate;
       Rho := {| jump := rho_jump; ar_low := rho_ar_low; ar_hi := rho_ar_hi;
                 proposal := rho_proposal; adapt_step := rho_adapt_step;
                 rejected := VInt 0; accepted := VInt 0; max_adapt := tuning;
                 adapt := None |} |} in
  with_self (set_configs unset_adapt) ;;;
  let* positive := lift (py_gt tuning 0) in
  with_self (set_configs
    {| truncate := truncate;
       Rho := {| jump := rho_jump; ar_low := rho_ar_low; ar_hi := rho_ar_hi;
                 proposal := rho_proposal; adapt_step := rho_adapt_step;
                 rejected := VInt 0; accepted := VInt 0; max_adapt := tuning;
                 adapt := Some (VBool positive) |} |}).

(** [_setup_truncation], lines 99 to 113. *)
Definition _setup_truncation : Py unit :=
  let* M := state_attr "M" in
  let* '(M_emin, M_emax) := call "speigen_range" (speigen_range C M) in
  let* lo := lift (op TrueDiv (VFloat 1) M_emin) in
  state_update [("Rho_min", lo)] ;;;
  let* hi := lift (op TrueDiv (VFloat 1) M_emax) in
  state_update [("Rho_max", hi)].

(** [_setup_initial_values], lines 115 to 132. *)
Definition _setup_initial_values : Py unit :=
  let* p := state_attr "p" in
  let* Betas := lift (np_zeros p (VInt 1)) in
  let* q := state_attr "q" in
  let* Gammas := lift (np_zeros q (VInt 1)) in
  let* J := state_attr "J" in
  let* Alphas := lift (np_zeros J (VInt 1)) in
  let Sigma2 := VInt 2 in
  let Tau2 := VInt 2 in
  let* J := state_attr "J" in
  let* J_1 := lift (op Sub J (VInt 1)) in
  let* Rho := lift (op TrueDiv (VFloat (-1)) J_1) in
  let* Ij := state_attr "Ij" in
  let* M := state_attr "M" in
  let* RhoM := lift (op Mul Rho M) in
  let* Ij_RhoM := lift (op Sub Ij RhoM) in
  let* B := lift (spar_csc_matrix C Ij_RhoM) in
  let* Delta := state_attr "Delta" in
  let* DeltaAlphas := lift (np_dot C Delta Alphas) in
  let* X := state_attr "X" in
  let* XBetas := lift (np_dot C X Betas) in
  let* Z := state_attr "Z" in
  let* ZGammas := lift (np_dot C Z Gammas) in
  let* BZGammas := lift (spdot C B ZGammas) in
  (* every local but self *)
  state_update
    [("Betas", Betas); ("Gammas", Gammas); ("Alphas", Alphas);
     ("Sigma2", Sigma2); ("Tau2", Tau2); ("Rho", Rho); ("B", B);
     ("DeltaAlphas", DeltaAlphas); ("XBetas", XBetas); ("ZGammas", ZGammas);
     ("BZGammas", BZGammas)].

(** The call [sample(self)] of line 172: the collaborator works on the
    estimator and the random stream. *)
Definition sample_self : Py unit :=
  record (Called "sample") ;;;
  fun m => match sample C (self m) (random m) with
           | (r, (o, rs)) => (r, {| self := o; lists := lists m;
                                    events := events m; random := rs |})
           end.

(** One step of the loop of lines 173 and 174. *)
Definition trace_append (param : string) : Py unit :=
  let* tr := attr "trace" trace in
  match tr !! param with
  | None => raise (KeyError param)
  | Some l =>
      let* st := attr "state" state in
      match st !! param with
      | None => raise (KeyError param)
      | Some v => with_self (set_trace (Some (<[param := l ++ [v]]> tr)))
      end
  end.

(** [draw], lines 168 to 174. *)
Definition draw : Py unit :=
  sample_self ;;;
  let* tp := attr "traced_params" traced_params in
  let* params := list_contents tp in
  for_each params trace_append.

(** The loop of lines 155 to 159.  [n] bounds the number of turns; [sample]
    starts it at [Z.to_nat ndraws], which the loop never exhausts before its
    test fails. *)
Fixpoint while_draws (n : nat) (ndraws : Z) : Py unit :=
  match n with
  | O => ret tt
  | S n' =>
      if ndraws >? 0 then
        let* v := attr "_verbose" _verbose in
        let* chatty := lift (py_gt v 1) in
        (if chatty && (ndraws mod 100 =? 0)
         then print (pretty ndraws +:+ " Draws to go")
         else ret tt) ;;;
        draw ;;;
        while_draws n' (ndraws - 1)
      else ret tt
  end.

(** [sample], lines 134 to 166; the result is the ejected trace, or None. *)
Definition sample (ndraws : Z) (pop : bool) : Py (option (gmap string (list value))) :=
  while_draws (Z.to_nat ndraws) ndraws ;;;
  if pop then
    let* copy := load_name "copy" in
    let* tr := attr "trace" trace in
    let outdict := tr in            (* copy.deepcopy: values are copied as they are *)
    let outtrace := ns_update (map_to_list outdict) ∅ in
    attr "trace" trace ;;;
    with_self (set_trace None) ;;;
    with_self (set_trace (Some ∅)) ;;;
    ret (Some outtrace)
  else ret None.

(** [__init__], lines 24 to 43. *)
Definition __init__ (y X W M Z Delta : value) (n_samples : BinNums.Z) (_configs : NS) : Py unit :=
  let* '(N, p) := lift (attr_shape X) in
  let* '(J, _) := lift (attr_shape M) in
  let* '(_J, q) := lift (attr_shape Z) in
  with_self (set_state (ns_update
    [("X", X); ("y", y); ("W", W); ("M", M); ("Z", Z); ("Delta", Delta);
     ("N", VInt N); ("J", VInt J); ("p", VInt p); ("q", VInt q)] ∅)) ;;;
  with_self (set_trace (Some ∅)) ;;;
  with_self (set_traced_params SAMPLERS) ;;;
  let '(extras, _configs) := dict_pop "extra_tracked_params" VNone _configs in
  match extras with
  | VNone => ret tt
  | _ =>
      let* tp := attr "traced_params" traced_params in
      let* extra_tracked_params := load_name "extra_tracked_params" in
      list_extend tp extra_tracked_params
  end ;;;
  let* tp := attr "traced_params" traced_params in
  let* params := list_contents tp in
  let* tr := attr "trace" trace in
  with_self (set_trace (Some (ns_update ((fun k => (k, [])) <$> params) tr))) ;;;
  let* leftovers := _setup_data _configs in
  _setup_configs leftovers ;;;
  _setup_truncation ;;;
  _setup_initial_values ;;;
  with_self (set_cycles (VInt 0)) ;;;
  sample n_samples false ;;;
  ret tt.

End Methods.
End Base_HSDM.

(** ** class HSDM *)

Module HSDM.
Section Methods.
Variable C : collaborators.

(** The message of lines 192 and 193. *)
Definition mismatch (_N N : Z) : string :=
  "Number of lower-level observations does not match"
  +:+ " between X (" +:+ pretty _N +:+ ") and W (" +:+ pretty N +:+ ")".

(** [__init__], lines 180 to 204. *)
Definition __init__ (y X W M Z Delta membership sparse transform : value)
    (n_samples : BinNums.Z) (verbose : value) (options : NS) : Py unit :=
  let* '(W, M) := call "verify.weights" (verify_weights C W M transform) in
  with_self (set_W W) ;;;
  with_self (set_M M) ;;;
  let* N := lift (attr_n W) in
  let* J := lift (attr_n M) in
  let* '(_N, _) := lift (attr_shape X) in
  (if _N =? N then ret tt           (* try: assert _N == N *)
   else raise (UserWarning (mismatch _N N))) ;;;
  let* Wmat := lift (attr_sparse W) in
  let* Mmat := lift (attr_sparse M) in
  let* '(Delta, membership) :=
    call "verify.Delta_members" (verify_Delta_members C Delta membership (VInt N) (VInt J)) in
  let* X := call "verify.covariates" (verify_covariates C X W) in
  with_self (set__verbose verbose) ;;;
  Base_HSDM.__init__ C y X Wmat Mmat Z Delta n_samples options.

(** The keywords of a call [HSDM(y, X, W, M, ...)] and their defaults
    (lines 180 to 183). *)
Record keywords : Type := {
  kw_Z : option value; kw_Delta : option value; kw_membership : option value;
  kw_sparse : option value; kw_transform : option value;
  kw_n_samples : option BinNums.Z; kw_verbose : option value;
  kw_options : NS }.


Definition n_samples_of (kw : keywords) : BinNums.Z := default 1000 (kw_n_samples kw).

Definition HSDM (y X W M : value) (kw : keywords) : Py estimator :=
  new (__init__ y X W M
         (default VNone (kw_Z kw)) (default VNone (kw_Delta kw))
         (default VNone (kw_membership kw)) (default (VBool true) (kw_sparse kw))
         (default (VStr "r") (kw_transform kw)) (n_samples_of kw)
         (default (VBool false) (kw_verbose kw)) (kw_options kw)).

End Methods.
End HSDM.

(** ** The update sweep

    The module sample.py is not among the sources; its sweep is written
    here from sections 3, 4.3 and 4.4 of the specification. *)

Module Sweep.
Section Kernel.
Variable C : collaborators.
(** What the specification leaves open: the conjugate draw of a parameter,
    the posterior ratio of a proposed Rho against the current one, and the
    proposal scale an adaptation cycle settles on. *)
Variable conjugate : string -> NS -> RandomState -> value * RandomState.
Variable posterior_ratio : NS -> float -> float.
Variable adapted : rho_configs -> value.

(** Modelled from the spec: reading a scalar of the state or of the
    controls as a number (sections 3 and 4.4); sample.py is missing. *)
Definition number (v : value) : result float :=
  match as_float v with
  | Some (x, _) => Ok x
  | None => Raise (TypeError "a number is required")
  end.

(** Modelled from the spec: the next draw of the single shared
    pseudo-random stream (section 5); sample.py is missing. *)
Definition next_number : Py float :=
  fun m => (Ok (stream (random m) (position (random m))),
            {| self := self m; lists := lists m; events := events m;
               random := {| stream := stream (random m);
                            position := S (position (random m)) |} |}).

(** Modelled from the spec: [Rho'] is inside the open interval
    [(Rho_min, Rho_max)] (section 4.4); sample.py is missing. *)
Definition in_domain (lo hi x : float) : bool :=
  PrimFloat.ltb lo x && PrimFloat.ltb x hi.

(** Modelled from the spec: every acceptance increments [accepted],
    every rejection [rejected] (section 4.4); sample.py is missing. *)
Definition counted (v : value) : value :=
  match v with
  | VInt n => VInt (n + 1)
  | _ => v
  end.

(** Modelled from the spec: the controls after an acceptance or a
    rejection was counted (section 4.4); sample.py is missing. *)
Definition count (accept : bool) (c : configs_ns) : configs_ns :=
  let r := Rho c in
  {| truncate := truncate c;
     Rho := {| jump := jump r; ar_low := ar_low r; ar_hi := ar_hi r;
               proposal := proposal r; adapt_step := adapt_step r;
               rejected := if accept then rejected r else counted (rejected r);
               accepted := if accept then counted (accepted r) else accepted r;
               max_adapt := max_adapt r; adapt := adapt r |} |}.

(** Modelled from the spec: an adaptation cycle changes the proposal
    scale [jump] and nothing else (section 4.3); sample.py is missing. *)
Definition rescale (c : configs_ns) : configs_ns :=
  let r := Rho c in
  {| truncate := truncate c;
     Rho := {| jump := adapted r; ar_low := ar_low r; ar_hi := ar_hi r;
               proposal := proposal r; adapt_step := adapt_step r;
               rejected := rejected r; accepted := accepted r;
               max_adapt := max_adapt r; adapt := adapt r |} |}.

(** Modelled from the spec: a conjugate full-conditional draw of one of
    Alphas, Betas, Sigma2, Tau2, Gammas (section 4.4); the repository's
    sample.py is missing.  The drawn value replaces the parameter in the
    state. *)
Definition conjugate_draw (param : string) : Py unit :=
  let* st := attr "state" state in
  fun m => match conjugate param st (random m) with
           | (v, rs) => (Ok tt, {| self := set_state (<[param := v]> st) (self m);
                                   lists := lists m; events := events m; random := rs |})
           end.

(** Modelled from the spec: the recomputation rule of section 4.4, and of
    section 3 for the other derived quantities; the repository's sample.py is
    missing. *)
Definition recompute : Py unit :=
  let* Delta := state_attr "Delta" in
  let* Alphas := state_attr "Alphas" in
  let* DeltaAlphas := lift (np_dot C Delta Alphas) in
  let* X := state_attr "X" in
  let* Betas := state_attr "Betas" in
  let* XBetas := lift (np_dot C X Betas) in
  let* Z := state_attr "Z" in
  let* Gammas := state_attr "Gammas" in
  let* ZGammas := lift (np_dot C Z Gammas) in
  let* Ij := state_attr "Ij" in
  let* rho := state_attr "Rho" in
  let* M := state_attr "M" in
  let* RhoM := lift (Base_HSDM.op C Mul rho M) in
  let* Ij_RhoM := lift (Base_HSDM.op C Sub Ij RhoM) in
  let* B := lift (spar_csc_matrix C Ij_RhoM) in
  let* BZGammas := lift (spdot C B ZGammas) in
  state_update [("DeltaAlphas", DeltaAlphas); ("XBetas", XBetas);
                ("ZGammas", ZGammas); ("B", B); ("BZGammas", BZGammas)].

(** Modelled from the spec: the Metropolis step for Rho of section 4.4
    (the repository's sample.py is missing): propose
    [Rho' = Rho + jump * eps]; reject at once when [Rho'] is not inside
    [(Rho_min, Rho_max)]; else accept with probability
    [min(1, posterior_ratio)]; count the outcome. *)
Definition metropolis_Rho : Py unit :=
  let* current := state_attr "Rho" in
  let* rho := lift (number current) in
  let* cf := attr "configs" configs in
  let* scale := lift (number (jump (Rho cf))) in
  let* Rho_min := state_attr "Rho_min" in
  let* lo := lift (number Rho_min) in
  let* Rho_max := state_attr "Rho_max" in
  let* hi := lift (number Rho_max) in
  let* eps := next_number in
  let proposed := PrimFloat.add rho (PrimFloat.mul scale eps) in
  if in_domain lo hi proposed then
    let* st := attr "state" state in
    let ratio := posterior_ratio st proposed in
    let* u := next_number in
    if PrimFloat.ltb u (if PrimFloat.ltb ratio 1 then ratio else 1%float) then
      state_update [("Rho", VFloat proposed)] ;;;
      with_self (set_configs (count true cf))
    else with_self (set_configs (count false cf))
  else with_self (set_configs (count false cf)).

(** Modelled from the spec: one sweep [advance(state, configs)] over the
    tracked parameters (section 4.4), then the adaptation of the proposal
    scale (section 4.3); the repository's sample.py is missing. *)
Definition advance : Py unit :=
  for_each ["Alphas"; "Betas"; "Sigma2"; "Tau2"; "Gammas"] conjugate_draw ;;;
  metropolis_Rho ;;;
  recompute ;;;
  let* cf := attr "configs" configs in
  with_self (set_configs (rescale cf)).

End Kernel.

(** Modelled from the spec: the sweep as the collaborator the driver
    calls, [advance(state, controls)], which mutates the estimator in place
    and draws from the random stream (sections 1 and 4.4); sample.py is
    missing. *)
Definition as_sample (c : Py unit) (o : estimator) (rs : RandomState)
    : result unit * (estimator * RandomState) :=
  match c {| self := o; lists := ∅; events := []; random := rs |} with
  | (r, m) => (r, (self m, random m))
  end.

(** Modelled from the spec: the collaborators [C] with the sweep of
    section 4.4 in the place of the missing sample.py. *)
Definition with_sweep (C : collaborators)
    (conjugate : string -> NS -> RandomState -> value * RandomState)
    (posterior_ratio : NS -> float -> float) (adapted : rho_configs -> value)
    : collaborators :=
  {| np_binop := np_binop C; np_dot := np_dot C; np_T := np_T C;
     spar_csc_matrix := spar_csc_matrix C; spdot := spdot C;
     speigen_range := speigen_range C; verify_weights := verify_weights C;
     verify_Delta_members := verify_Delta_members C;
     verify_covariates := verify_covariates C;
     sample := as_sample (advance C conjugate posterior_ratio adapted) |}.

End Sweep.

(** ** Collaborators to run the estimator on small inputs

    Dense arrays with the textbook operations, the eigenvalues of a
    symmetric matrix of order one or two in closed form, and validation
    that accepts prepared weights as they are. *)

Module Reference.

Definition entry (a : ndarray) (i j : nat) : float :=
  nth (i * snd (shape a) + j)%nat (data a) 0%float.

Definition tabulate (r c : nat) (f : nat -> nat -> float) : ndarray :=
  {| shape := (r, c); data := flat_map (fun i => map (f i) (seq 0 c)) (seq 0 r) |}.

Definition transpose (a : ndarray) : ndarray :=
  tabulate (snd (shape a)) (fst (shape a)) (fun i j => entry a j i).

Definition matmul (a b : ndarray) : result ndarray :=
  if Nat.eqb (snd (shape a)) (fst (shape b)) then
    Ok (tabulate (fst (shape a)) (snd (shape b))
          (fun i j => fold_left
                        (fun acc l => PrimFloat.add acc (PrimFloat.mul (entry a i l) (entry b l j)))
                        (seq 0 (snd (shape a))) 0%float))
  else Raise (ValueError "shapes not aligned").

Definition pointwise (f : float -> float -> float) (a b : ndarray) : result ndarray :=
  if Nat.eqb (fst (shape a)) (fst (shape b)) && Nat.eqb (snd (shape a)) (snd (shape b)) then
    Ok (tabulate (fst (shape a)) (snd (shape a)) (fun i j => f (entry a i j) (entry b i j)))
  else Raise (ValueError "operands could not be broadcast together").

Definition array_of (v : value) : option ndarray :=
  match v with
  | VArray a | VSparse a => Some a
  | _ => None
  end.

Definition everywhere (f : float -> float) (a : ndarray) : ndarray :=
  {| shape := shape a; data := map f (data a) |}.

Definition binop_on_arrays (op : binop) (a b : value) : result value :=
  match array_of a, array_of b with
  | Some x, Some y =>
      match pointwise (float_op op) x y with
      | Ok z => Ok (VArray z)
      | Raise e => Raise e
      end
  | Some x, None =>
      match as_float b with
      | Some (s, _) => Ok (VArray (everywhere (fun e => float_op op e s) x))
      | None => Raise (TypeError "unsupported operand")
      end
  | None, Some y =>
      match as_float a with
      | Some (s, _) => Ok (VArray (everywhere (fun e => float_op op s e) y))
      | None => Raise (TypeError "unsupported operand")
      end
  | None, None => Raise (TypeError "unsupported operand")
  end.

Definition dot (a b : value) : result value :=
  match array_of a, array_of b with
  | Some x, Some y =>
      match matmul x y with
      | Ok z => Ok (VArray z)
      | Raise e => Raise e
      end
  | _, _ => py_binop binop_on_arrays Mul a b
  end.

Definition T (a : value) : result value :=
  match a with
  | VArray x => Ok (VArray (transpose x))
  | VSparse x => Ok (VSparse (transpose x))
  | _ => Raise (AttributeError "T")
  end.

Definition csc_matrix (a : value) : result value :=
  match array_of a with
  | Some x => Ok (VSparse x)
  | None => Raise (TypeError "no supported conversion")
  end.

(** For [[a, b], [b, d]]: [(a + d)/2 -+ sqrt(((a - d)/2)^2 + b^2)]. *)
Definition eigen_range (v : value) : result (value * value) :=
  match array_of v with
  | Some x =>
      match shape x with
      | (1, 1)%nat => Ok (VFloat64 (entry x 0 0), VFloat64 (entry x 0 0))
      | (2, 2)%nat =>
          let a := entry x 0 0 in
          let b := entry x 0 1 in
          let d := entry x 1 1 in
          let mid := PrimFloat.div (PrimFloat.add a d) 2%float in
          let half := PrimFloat.div (PrimFloat.sub a d) 2%float in
          let rad := PrimFloat.sqrt (PrimFloat.add (PrimFloat.mul half half) (PrimFloat.mul b b)) in
          Ok (VFloat64 (PrimFloat.sub mid rad), VFloat64 (PrimFloat.add mid rad))
      | _ => Raise (LibraryError "ArpackNoConvergence")
      end
  | None => Raise (TypeError "not a matrix")
  end.

Definition weights (W M transform : value) : result (value * value) :=
  match W, M with
  | VWeights _ _, VWeights _ _ => Ok (W, M)
  | _, _ => Raise (LibraryError "weights are not pysal W objects")
  end.

Definition Delta_members (Delta membership N J : value) : result (value * value) :=
  match Delta with
  | VArray _ => Ok (Delta, membership)
  | _ => Raise (LibraryError "no Delta")
  end.

Definition covariates (X W : value) : result value := Ok X.

(** A sweep that only moves Rho, to the next number of the stream. *)
Definition redraw_Rho (o : estimator) (rs : RandomState)
    : result unit * (estimator * RandomState) :=
  (Ok tt,
   (match state o with
    | Some st => set_state (<["Rho" := VFloat (stream rs (position rs))]> st) o
    | None => o
    end,
    {| stream := stream rs; position := S (position rs) |})).

Definition numerics (kernel : estimator -> RandomState -> result unit * (estimator * RandomState))
    : collaborators :=
  {| np_binop := binop_on_arrays; np_dot := dot; np_T := T;
     spar_csc_matrix := csc_matrix; spdot := dot; speigen_range := eigen_range;
     verify_weights := weights; verify_Delta_members := Delta_members;
     verify_covariates := covariates; sample := kernel |}.

(** Two groups of two units each. *)
Definition array (r c : nat) (entries : list float) : ndarray :=
  {| shape := (r, c); data := entries |}.

Definition y4 : value := VArray (array 4 1 [1; 2; 3; 4]%float).
Definition X4 : value := VArray (array 4 1 [1; 0; 1; 0]%float).
Definition W4_sparse : ndarray :=
  array 4 4 [0; 1; 0; 0;  1; 0; 0; 0;  0; 0; 0; 1;  0; 0; 1; 0]%float.
Definition W4 : value := VWeights 4 W4_sparse.
Definition M2_sparse : ndarray := array 2 2 [0; 1;  1; 0]%float.
Definition M2 : value := VWeights 2 M2_sparse.
Definition Z2 : value := VArray (array 2 1 [1; 1]%float).
Definition Delta42 : value := VArray (array 4 2 [1; 0;  1; 0;  0; 1;  0; 1]%float).

Definition keywords42 (n_samples : Z) (options : NS) : HSDM.keywords :=
  {| HSDM.kw_Z := Some Z2; HSDM.kw_Delta := Some Delta42; HSDM.kw_membership := None;
     HSDM.kw_sparse := None; HSDM.kw_transform := None;
     HSDM.kw_n_samples := Some n_samples; HSDM.kw_verbose := None;
     HSDM.kw_options := options |}.

(** A stream that keeps yielding the same number. *)
Definition constantly (x : float) : RandomState := {| stream := fun _ => x; position := 0 |}.

Definition M_double : value := VWeights 2 (array 2 2 [0; 2;  2; 0]%float).

(** Group weights with the eigenvalues -0.5 and 0.5: the bounds are -2 and
    2, and the starting value -1 of Rho for two groups is inside them. *)
Definition M_weak : value := VWeights 2 (array 2 2 [0; 0.5;  0.5; 0]%float).

(** Covariates for three units. *)
Definition X3 : value := VArray (array 3 1 [1; 0; 1]%float).

(** The collaborators above with the sweep that only moves Rho, and with
    the sweep of the specification: conjugate draws that leave each value as
    it is, a posterior ratio of one and no adaptation. *)
Definition plain : collaborators := numerics redraw_Rho.

Definition with_spec_sweep : collaborators :=
  Sweep.with_sweep plain (fun param st rs => (default VNone (st !! param), rs))
    (fun _ _ => 1%float) (fun r => jump r).

(** The module just imported, its stream yielding 0.25 for ever. *)
Definition imported : machine := module_import (constantly 0.25%float).

(** Constructions. *)
Definition built (n_samples : Z) : result estimator * machine :=
  HSDM.HSDM plain y4 X4 W4 M2 (keywords42 n_samples ∅) imported.

Definition built_with_sweep (n_samples : Z) (number : float) : result estimator * machine :=
  HSDM.HSDM with_spec_sweep y4 X4 W4 M2 (keywords42 n_samples ∅)
    (module_import (constantly number)).

Definition built_on_weak_weights (n_samples : Z) (number : float)
    : result estimator * machine :=
  HSDM.HSDM with_spec_sweep y4 X4 W4 M_weak (keywords42 n_samples ∅)
    (module_import (constantly number)).


Definition built_with_pair : result estimator * machine :=
  HSDM.HSDM plain y4 X4 W4 M2
    (keywords42 0 {[ "truncate" := VPair (VFloat (-0.5)) (VFloat 0.5) ]}) imported.

Definition built_stable : result estimator * machine :=
  HSDM.HSDM plain y4 X4 W4 M_double (keywords42 0 {[ "truncate" := VStr "stable" ]}) imported.

Definition built_with_extras : result estimator * machine :=
  HSDM.HSDM plain y4 X4 W4 M2 (keywords42 3 {[ "extra_tracked_params" := VStr "B" ]}) imported.

(** The machine a construction without draws leaves, and its state. *)
Definition ready : machine := snd (built 0).

Definition ready_state : NS := default ∅ (state (self ready)).


End Reference.

(** ** Notions the properties are stated with *)

(** [c] keeps the machine inside [I], whether it returns or raises. *)
Definition preserves {A : Type} (I : machine -> Prop) (c : Py A) : Prop :=
  forall m, I m -> I (snd (c m)).

(** How many of the events are calls of [f]. *)
Definition calls (f : string) (evs : list event) : nat :=
  length (List.filter (fun e => match e with
                                | Called g => String.eqb f g
                                | Printed _ => false
                                end) evs).

(** What line 174 does to an estimator for one parameter, and the loop of
    lines 173 and 174 for a list of them. *)
Definition appended (param : string) (o : estimator) : result estimator :=
  match trace o with
  | None => Raise (AttributeError "trace")
  | Some tr =>
      match tr !! param with
      | None => Raise (KeyError param)
      | Some l =>
          match state o with
          | None => Raise (AttributeError "state")
          | Some st =>
              match st !! param with
              | None => Raise (KeyError param)
              | Some v => Ok (set_trace (Some (<[param := l ++ [v]]> tr)) o)
              end
          end
      end
  end.

Fixpoint appended_all (params : list string) (o : estimator) : result estimator :=
  match params with
  | [] => Ok o
  | p :: ps => match appended p o with
               | Ok o' => appended_all ps o'
               | Raise e => Raise e
               end
  end.

(** The recorded sequence of a parameter, if the trace has one for it. *)
Definition recorded (param : string) (o : estimator) : option (list value) :=
  match trace o with
  | Some tr => tr !! param
  | None => None
  end.

(** The current value of a parameter, if the state holds one. *)
Definition current (param : string) (o : estimator) : option value :=
  match state o with
  | Some st => st !! param
  | None => None
  end.

(** The estimators that hold a value for each name of SAMPLERS. *)
Definition holds_SAMPLERS (o : estimator) : Prop :=
  forall p, p ∈ SAMPLERS_at_import -> is_Some (current p o).

(** The machine with another estimator in place of [self]. *)
Definition with_estimator (o : estimator) (m : machine) : machine :=
  {| self := o; lists := lists m; events := events m; random := random m |}.

(** The estimators the sweep hands back in [n] draws in a row: each sweep
    starts from what the one before left, with the tracked values
    appended. *)
Fixpoint sweeps (kernel : estimator -> RandomState -> result unit * (estimator * RandomState))
    (params : list string) (n : nat) (o : estimator) (rs : RandomState) : list estimator :=
  match n with
  | O => []
  | S n' =>
      let after := snd (kernel o rs) in
      fst after ::
      sweeps kernel params n'
        (match appended_all params (fst after) with
         | Ok o' => o'
         | Raise _ => fst after
         end) (snd after)
  end.

(** The sweep leaves alone the attributes the driver owns. *)
Definition leaves_driver_alone
    (kernel : estimator -> RandomState -> result unit * (estimator * RandomState)) : Prop :=
  forall o rs,
    trace (fst (snd (kernel o rs))) = trace o /\
    traced_params (fst (snd (kernel o rs))) = traced_params o /\
    _verbose (fst (snd (kernel o rs))) = _verbose o.

(** The contract of the sweep towards the driver, for a set [I] of
    estimators: called on one of them it returns, with one of them. *)
Definition returns_within (I : estimator -> Prop)
    (kernel : estimator -> RandomState -> result unit * (estimator * RandomState)) : Prop :=
  forall o rs, I o -> fst (kernel o rs) = Ok tt /\ I (fst (snd (kernel o rs))).

(** [I] does not look at the trace. *)
Definition blind_to_trace (I : estimator -> Prop) : Prop :=
  forall o t, I o -> I (set_trace t o).

(** The estimators of [I] hold a value for each of [params]. *)
Definition holds_each (params : list string) (I : estimator -> Prop) : Prop :=
  forall o p, I o -> p ∈ params -> is_Some (current p o).

(** A float as the Python float or the numpy.float64 it is. *)
Definition scalar (numpy : bool) (x : float) : value :=
  if numpy then VFloat64 x else VFloat x.

(** The outcome of [c] and the estimator it leaves depend on nothing but
    the estimator it starts from, and [c] leaves the rest of the machine as
    it is. *)
Definition on_self_only {A : Type} (c : Py A) : Prop :=
  forall m, exists r o,
    forall m2, self m2 = self m -> c m2 = (r, with_estimator o m2).

(** The machine once line 36 of [Base_HSDM.__init__] is done: the state
    holds the data and the dimensions, traced_params is bound to the list
    object of SAMPLERS, holding [params], and the trace has an empty
    sequence for each of them. *)
Definition after_line_36 (y X W M Z Delta : value) (N J p q : BinNums.Z)
    (params : list string) (m : machine) : machine :=
  with_estimator
    (set_trace (Some (ns_update ((fun k => (k, [])) <$> params) ∅))
       (set_traced_params SAMPLERS
          (set_trace (Some ∅)
             (set_state
                (ns_update
                   [("X", X); ("y", y); ("W", W); ("M", M); ("Z", Z); ("Delta", Delta);
                    ("N", VInt N); ("J", VInt J); ("p", VInt p); ("q", VInt q)] ∅)
                (self m))))) m.

(** [o'] has the trace of [o] and its values for the names [ks]. *)
Definition untouched (ks : list string) (o o' : estimator) : Prop :=
  trace o' = trace o /\ forall k, k ∈ ks -> current k o' = current k o.

(** None of the entries [d] is for one of the names [ks]. *)
Definition apart (ks : list string) (d : list (string * value)) : bool :=
  forallb (fun kv => negb (bool_decide (kv.1 ∈ ks))) d.

(** [v] is a float strictly between the numbers [lo] and [hi]. *)
Definition inside (lo hi v : value) : Prop :=
  exists x a b ka kb,
    v = VFloat x /\ as_float lo = Some (a, ka) /\ as_float hi = Some (b, kb) /\
    PrimFloat.ltb a x = true /\ PrimFloat.ltb x b = true.

(** The starting value of Rho for [J] groups (line 124). *)
Definition Rho_at_start (J : BinNums.Z) : value :=
  VFloat (PrimFloat.div (-1) (float_of_Z (J - 1))).

(** The estimator has [J] groups and the bounds [lo] and [hi]; its Rho,
    and every Rho it has recorded, is the starting value or inside the
    bounds. *)
Definition Rho_kept (lo hi : value) (J : BinNums.Z) (o : estimator) : Prop :=
  current "J" o = Some (VInt J) /\
  current "Rho_min" o = Some lo /\ current "Rho_max" o = Some hi /\
  (exists r, current "Rho" o = Some r /\ (r = Rho_at_start J \/ inside lo hi r)) /\
  (forall vs v, recorded "Rho" o = Some vs -> v ∈ vs ->
                v = Rho_at_start J \/ inside lo hi v).

(** The domain invariant: the estimator's Rho, and every Rho it has
    recorded, is strictly inside the bounds [lo] and [hi]. *)
Definition Rho_within (lo hi : value) (o : estimator) : Prop :=
  (exists r, current "Rho" o = Some r /\ inside lo hi r) /\
  (forall vs v, recorded "Rho" o = Some vs -> v ∈ vs -> inside lo hi v).

(** Whether a computation returned. *)
Definition completed {A : Type} (r : result A * machine) : bool :=
  match fst r with
  | Ok _ => true
  | Raise _ => false
  end.

(** What a computation returned, [d] if it raised. *)
Definition returned {A : Type} (d : A) (r : result A * machine) : A :=
  match fst r with
  | Ok a => a
  | Raise _ => d
  end.

(** [c] does the same whatever the configuration namespace holds: run
    with [cf] for configs, it ends as it ends without, but for configs. *)
Definition ignores_configs {A : Type} (c : Py A) : Prop :=
  forall m cf,
    c (with_estimator (set_configs cf (self m)) m)
    = (fst (c m), with_estimator (set_configs cf (self (snd (c m)))) (snd (c m))).

(** A property of what the set-up methods have no business with: the
    trace, the tracked parameters, the verbosity, the list objects and the
    number of sweeps called so far. *)
Definition of_the_driver
    (Q : option (gmap string (list value)) -> option loc -> option value ->
         gmap loc (list string) -> nat -> Prop) (m : machine) : Prop :=
  Q (trace (self m)) (traced_params (self m)) (_verbose (self m)) (lists m)
    (calls "sample" (events m)).

(** ** Notions for the properties the code shows beside the specification *)

(** The lines printed, oldest first. *)
Definition printed (evs : list event) : list string :=
  omap (fun e => match e with Printed line => Some line | Called _ => None end) evs.


(** The values [ndraws] has at the test of line 156 in a run of [sample]:
    ndraws, ndraws - 1, ..., 1. *)
Definition countdown (ndraws : Z) : list Z :=
  rev (Z.of_nat <$> seq 1 (Z.to_nat ndraws)).

(** The progress lines of a run of [ndraws] draws: one for each multiple
    of 100 the countdown passes. *)
Definition progress_lines (ndraws : Z) : list string :=
  (fun k => pretty k +:+ " Draws to go")
    <$> List.filter (fun k => k mod 100 =? 0) (countdown ndraws).

(** The keywords [_setup_data] pops (lines 49 to 56), those [_setup_configs]
    names (lines 74 to 77), and all the options construction reads. *)
Definition prior_keywords : list string :=
  ["Sigma2_s0"; "Sigma2_v0"; "Betas_cov0"; "Betas_mean0";
   "Tau2_s0"; "Tau2_v0"; "Gammas_cov0"; "Gammas_mean0"].

Definition config_keywords : list string :=
  ["truncate"; "tuning"; "rho_jump"; "rho_ar_low"; "rho_ar_hi"; "rho_proposal";
   "rho_adapt_step"].

Definition known_options : list string :=
  "extra_tracked_params" :: prior_keywords ++ config_keywords.

(** The parameters [HSDM.__init__] names (lines 180 to 182): a keyword of
    a call that is none of them lands in [**options]. *)
Definition HSDM_parameters : list string :=
  ["self"; "y"; "X"; "W"; "M"; "Z"; "Delta"; "membership"; "sparse"; "transform";
   "n_samples"; "verbose"].

(** The keywords of a call with one more option, [k=v]. *)
Definition with_option (k : string) (v : value) (kw : HSDM.keywords) : HSDM.keywords :=
  {| HSDM.kw_Z := HSDM.kw_Z kw; HSDM.kw_Delta := HSDM.kw_Delta kw;
     HSDM.kw_membership := HSDM.kw_membership kw; HSDM.kw_sparse := HSDM.kw_sparse kw;
     HSDM.kw_transform := HSDM.kw_transform kw; HSDM.kw_n_samples := HSDM.kw_n_samples kw;
     HSDM.kw_verbose := HSDM.kw_verbose kw;
     HSDM.kw_options := <[k := v]> (HSDM.kw_options kw) |}.

(** An outcome with [f] applied to what was returned. *)
Definition returning {A B : Type} (f : A -> B) (r : result A * machine) : result B * machine :=
  match r with
  | (Ok a, m) => (Ok (f a), m)
  | (Raise e, m) => (Raise e, m)
  end.

(** The names [_setup_data] assigns in the state (line 67), and those
    lines 29 and 30 assign. *)
Definition data_innovations : list string :=
  ["In"; "Ij"; "Sigma2_s0"; "Sigma2_v0"; "Betas_cov0"; "Betas_mean0"; "Tau2_s0"; "Tau2_v0";
   "Gammas_cov0"; "Gammas_mean0"; "Betas_covm"; "Gammas_covm"; "Tau2_prod"; "Sigma2_prod";
   "XtX"; "ZtZ"; "DeltatDelta"].

Definition data_names : list string :=
  ["X"; "y"; "W"; "M"; "Z"; "Delta"; "N"; "J"; "p"; "q"].

(** The sweep leaves the data and the dimensions in the state as they are. *)
Definition keeps_data
    (kernel : estimator -> RandomState -> result unit * (estimator * RandomState)) : Prop :=
  forall o rs k, k ∈ data_names -> current k (fst (snd (kernel o rs))) = current k o.

(** A property of what lies beside the state, the configuration and the
    trace: the verbosity, the list objects, the events and the random
    stream. *)
Definition beside_the_state
    (P : option value -> gmap loc (list string) -> list event -> RandomState -> Prop)
    (m : machine) : Prop :=
  P (_verbose (self m)) (lists m) (events m) (random m).

(** Inputs to run the estimator on: the keywords of [Reference.keywords42]
    with a verbosity, and without Z; an estimator built chatty, no draw made
    yet; the estimator of [Reference.ready] once the list object of SAMPLERS
    has been extended with two names of the state; a state with one group
    and group weights of order one; the machine at line 37 and a few
    options. *)
Definition keywords_with_verbose (verbose : value) (n_samples : Z) : HSDM.keywords :=
  {| HSDM.kw_Z := Some Reference.Z2; HSDM.kw_Delta := Some Reference.Delta42;
     HSDM.kw_membership := None; HSDM.kw_sparse := None; HSDM.kw_transform := None;
     HSDM.kw_n_samples := Some n_samples; HSDM.kw_verbose := Some verbose;
     HSDM.kw_options := ∅ |}.

Definition keywords_without_Z (n_samples : Z) : HSDM.keywords :=
  {| HSDM.kw_Z := None; HSDM.kw_Delta := Some Reference.Delta42;
     HSDM.kw_membership := None; HSDM.kw_sparse := None; HSDM.kw_transform := None;
     HSDM.kw_n_samples := Some n_samples; HSDM.kw_verbose := None;
     HSDM.kw_options := ∅ |}.

Definition ready_chatty : machine :=
  snd (HSDM.HSDM Reference.plain Reference.y4 Reference.X4 Reference.W4 Reference.M2
         (keywords_with_verbose (VInt 2) 0) Reference.imported).

Definition ready_with_more_names : machine :=
  snd (list_extend SAMPLERS (VPair (VStr "B") (VStr "XBetas")) Reference.ready).

Definition one_group : machine :=
  with_estimator
    (set_state (ns_update [("p", VInt 1); ("q", VInt 1); ("J", VInt 1)] ∅) new_object)
    Reference.imported.

Definition M1_sparse : ndarray := Reference.array 1 1 [0%float].

Definition at_line_37 : machine :=
  after_line_36 Reference.y4 Reference.X4 (VSparse Reference.W4_sparse)
    (VSparse Reference.M2_sparse) Reference.Z2 Reference.Delta42 4 2 1 1
    SAMPLERS_at_import Reference.imported.

Definition some_options : NS := {[ "Sigma2_s0" := VFloat 0.5; "tuning" := VInt 3 ]}.

(** ** The monad *)

Lemma bind_Ok {A B : Type} (c : Py A) (k : A -> Py B) (m m' : machine) (b : B) :
  bind c k m = (Ok b, m') <-> exists a m1, c m = (Ok a, m1) /\ k a m1 = (Ok b, m').
Proof.
  unfold bind. split.
  - destruct (c m) as [[a|e] m1]; intros H; [eauto | discriminate].
  - intros (a & m1 & -> & H). exact H.
Qed.

Lemma bind_then {A B : Type} (c : Py A) (k : A -> Py B) (m m1 : machine) (a : A) :
  c m = (Ok a, m1) -> bind c k m = k a m1.
Proof. unfold bind. intros ->. reflexivity. Qed.

Lemma bind_raises {A B : Type} (c : Py A) (k : A -> Py B) (m m1 : machine) (e : exn) :
  c m = (Raise e, m1) -> bind c k m = (Raise e, m1).
Proof. unfold bind. intros ->. reflexivity. Qed.

Lemma preserves_ret {A : Type} (I : machine -> Prop) (a : A) : preserves I (ret a).
Proof. intros m H. exact H. Qed.

Lemma preserves_raise {A : Type} (I : machine -> Prop) (e : exn) : preserves I (@raise A e).
Proof. intros m H. exact H. Qed.

Lemma preserves_lift {A : Type} (I : machine -> Prop) (r : result A) : preserves I (lift r).
Proof. intros m H. exact H. Qed.

Lemma preserves_attr {A : Type} (I : machine -> Prop) (name : string)
    (proj : estimator -> option A) : preserves I (attr name proj).
Proof. intros m H. unfold attr. destruct (proj (self m)); exact H. Qed.

Lemma preserves_bind {A B : Type} (I : machine -> Prop) (c : Py A) (k : A -> Py B) :
  preserves I c -> (forall a, preserves I (k a)) -> preserves I (bind c k).
Proof.
  intros Hc Hk m H. unfold bind. specialize (Hc m H).
  destruct (c m) as [[a|e] m1]; simpl in *; [apply Hk; exact Hc | exact Hc].
Qed.

Lemma preserves_for_each {A : Type} (I : machine -> Prop) (l : list A) (body : A -> Py unit) :
  (forall x, preserves I (body x)) -> preserves I (for_each l body).
Proof.
  intros Hb. induction l as [|x l IH]; simpl.
  - apply preserves_ret.
  - apply preserves_bind; [apply Hb | intros _; exact IH].
Qed.

Lemma preserves_state_attr (I : machine -> Prop) (k : string) : preserves I (state_attr k).
Proof.
  unfold state_attr. apply preserves_bind; [apply preserves_attr|].
  intros st. destruct (st !! k); [apply preserves_ret | apply preserves_raise].
Qed.

Lemma preserves_load_name (I : machine -> Prop) (name : string) : preserves I (load_name name).
Proof. unfold load_name. case_bool_decide; [apply preserves_ret | apply preserves_raise]. Qed.

(** ** What the set-up methods leave alone *)

Section Frame.
Variable C : collaborators.
Variable Q : option (gmap string (list value)) -> option loc -> option value ->
             gmap loc (list string) -> nat -> Prop.

Lemma preserves_set_state (s : NS) : preserves (of_the_driver Q) (with_self (set_state s)).
Proof. intros m H. exact H. Qed.

Lemma preserves_set_configs (c : configs_ns) :
  preserves (of_the_driver Q) (with_self (set_configs c)).
Proof. intros m H. exact H. Qed.

Lemma preserves_set_cycles (v : value) : preserves (of_the_driver Q) (with_self (set_cycles v)).
Proof. intros m H. exact H. Qed.

Lemma preserves_state_update (d : list (string * value)) :
  preserves (of_the_driver Q) (state_update d).
Proof.
  unfold state_update. apply preserves_bind; [apply preserves_attr|].
  intros st. apply preserves_set_state.
Qed.

Lemma calls_app (f : string) (evs evs' : list event) :
  calls f (evs ++ evs') = (calls f evs + calls f evs')%nat.
Proof. unfold calls. rewrite List.filter_app, length_app. reflexivity. Qed.

Lemma preserves_call {A : Type} (f : string) (r : result A) :
  f <> "sample" -> preserves (of_the_driver Q) (call f r).
Proof.
  intros Hf m H. unfold call, bind, record, lift. simpl.
  unfold of_the_driver in *. simpl. rewrite calls_app.
  assert (calls "sample" [Called f] = 0%nat) as ->.
  { unfold calls. cbn [List.filter].
    destruct (String.eqb_spec "sample" f); [congruence | reflexivity]. }
  rewrite Nat.add_0_r. exact H.
Qed.

Ltac frame :=
  repeat first
    [ apply preserves_ret | apply preserves_raise | apply preserves_lift
    | apply preserves_attr | apply preserves_state_attr | apply preserves_load_name
    | apply preserves_state_update | apply preserves_set_state
    | apply preserves_set_configs | apply preserves_set_cycles
    | apply preserves_call; discriminate
    | apply preserves_bind; [|intros ?]
    | match goal with |- preserves _ (match ?x with _ => _ end) => destruct x end ].

Lemma preserves__setup_data (hypers : NS) :
  preserves (of_the_driver Q) (Base_HSDM._setup_data C hypers).
Proof. unfold Base_HSDM._setup_data. frame. Qed.

Lemma preserves__setup_configs (kw : NS) :
  preserves (of_the_driver Q) (Base_HSDM._setup_configs kw).
Proof. unfold Base_HSDM._setup_configs. frame. Qed.

Lemma preserves__setup_truncation :
  preserves (of_the_driver Q) (Base_HSDM._setup_truncation C).
Proof. unfold Base_HSDM._setup_truncation. frame. Qed.

Lemma preserves__setup_initial_values :
  preserves (of_the_driver Q) (Base_HSDM._setup_initial_values C).
Proof. unfold Base_HSDM._setup_initial_values. frame. Qed.

End Frame.

(** ** One draw *)

Lemma with_estimator_self (m : machine) : with_estimator (self m) m = m.
Proof. destruct m; reflexivity. Qed.

Lemma trace_append_appended (param : string) (m : machine) :
  Base_HSDM.trace_append param m =
  match appended param (self m) with
  | Ok o' => (Ok tt, with_estimator o' m)
  | Raise e => (Raise e, m)
  end.
Proof.
  unfold Base_HSDM.trace_append, appended, bind, attr.
  destruct (trace (self m)) as [tr|]; [|reflexivity].
  destruct (tr !! param) as [l|]; [|reflexivity].
  destruct (state (self m)) as [st|]; [|reflexivity].
  destruct (st !! param) as [v|]; reflexivity.
Qed.

Lemma for_each_appended_all (params : list string) (m : machine) :
  (forall o', appended_all params (self m) = Ok o' ->
     for_each params Base_HSDM.trace_append m = (Ok tt, with_estimator o' m)) /\
  (forall e, appended_all params (self m) = Raise e ->
     exists m', for_each params Base_HSDM.trace_append m = (Raise e, m')).
Proof.
  revert m. induction params as [|p ps IH]; intros m; simpl.
  - split; [|discriminate]. intros o' [= <-]. unfold ret. now rewrite with_estimator_self.
  - unfold bind. rewrite trace_append_appended.
    destruct (appended p (self m)) as [o1|e1].
    + destruct (IH (with_estimator o1 m)) as [IH1 IH2]. simpl in IH1, IH2. split.
      * intros o' H. rewrite (IH1 o' H). reflexivity.
      * intros e H. destruct (IH2 e H) as [m' ->]. eauto.
    + split; [discriminate|]. intros e [= <-]. eauto.
Qed.

Lemma for_each_Ok (params : list string) (m m' : machine) :
  for_each params Base_HSDM.trace_append m = (Ok tt, m') ->
  exists o', appended_all params (self m) = Ok o' /\ m' = with_estimator o' m.
Proof.
  intros H. destruct (for_each_appended_all params m) as [H1 H2].
  destruct (appended_all params (self m)) as [o'|e].
  - exists o'. split; [reflexivity|]. rewrite (H1 o' eq_refl) in H. congruence.
  - destruct (H2 e eq_refl) as [m'' E]. rewrite E in H. discriminate.
Qed.

(** What appending changes: the recorded sequence of the parameter. *)
Lemma appended_Ok (p : string) (o o' : estimator) :
  appended p o = Ok o' ->
  exists l v, recorded p o = Some l /\ current p o = Some v /\
              recorded p o' = Some (l ++ [v]) /\
              (forall q, q <> p -> recorded q o' = recorded q o) /\
              state o' = state o /\ traced_params o' = traced_params o /\
              _verbose o' = _verbose o /\ configs o' = configs o.
Proof.
  unfold appended, recorded, current.
  destruct (trace o) as [tr|] eqn:Etr; [|discriminate].
  destruct (tr !! p) as [l|] eqn:El; [|discriminate].
  destruct (state o) as [st|] eqn:Est; [|discriminate].
  destruct (st !! p) as [v|] eqn:Ev; [|discriminate].
  intros [= <-]. exists l, v. simpl. rewrite lookup_insert_eq.
  repeat split; try assumption.
  intros q Hq. rewrite lookup_insert_ne by congruence. reflexivity.
Qed.

Lemma appended_all_Ok (params : list string) (o o' : estimator) :
  appended_all params o = Ok o' ->
  NoDup params ->
  (forall p, p ∈ params ->
     exists l v, recorded p o = Some l /\ current p o = Some v /\
                 recorded p o' = Some (l ++ [v])) /\
  (forall q, q ∉ params -> recorded q o' = recorded q o) /\
  state o' = state o /\ traced_params o' = traced_params o /\
  _verbose o' = _verbose o /\ configs o' = configs o.
Proof.
  revert o. induction params as [|p ps IH]; intros o; simpl.
  - intros [= <-] _. repeat split; try reflexivity. intros p Hp. inversion Hp.
  - destruct (appended p o) as [o1|e] eqn:E1; [|discriminate].
    intros H Hnd. apply NoDup_cons in Hnd as [Hp Hnd].
    destruct (appended_Ok _ _ _ E1) as (l & v & Hl & Hv & Hl1 & Hother & Hst & Htp & Hvb & Hc).
    destruct (IH o1 H Hnd) as (IHin & IHout & IHst & IHtp & IHv & IHc).
    assert (Hcur : forall q, current q o1 = current q o).
    { intros q. unfold current. now rewrite Hst. }
    repeat split; try congruence.
    + intros q Hq. apply elem_of_cons in Hq as [->|Hin].
      * exists l, v. rewrite (IHout p Hp). auto.
      * destruct (IHin q Hin) as (l' & v' & Hl' & Hv' & Hl'').
        exists l', v'. rewrite <- Hother, <- Hcur; [auto|].
        intros ->. contradiction.
    + intros q Hq. apply not_elem_of_cons in Hq as [Hqp Hq].
      rewrite (IHout q Hq). apply Hother. exact Hqp.
Qed.

Lemma sample_self_eq (C : collaborators) (m : machine) :
  Base_HSDM.sample_self C m =
  (fst (sample C (self m) (random m)),
   {| self := fst (snd (sample C (self m) (random m))); lists := lists m;
      events := events m ++ [Called "sample"];
      random := snd (snd (sample C (self m) (random m))) |}).
Proof.
  unfold Base_HSDM.sample_self, bind, record. simpl.
  destruct (sample C (self m) (random m)) as [r [o rs]]. reflexivity.
Qed.

Lemma draw_Ok (C : collaborators) (l : loc) (params : list string) (m m' : machine) :
  leaves_driver_alone (sample C) ->
  traced_params (self m) = Some l -> lists m !! l = Some params ->
  Base_HSDM.draw C m = (Ok tt, m') ->
  fst (sample C (self m) (random m)) = Ok tt /\
  exists o', appended_all params (fst (snd (sample C (self m) (random m)))) = Ok o' /\
             m' = {| self := o'; lists := lists m;
                     events := events m ++ [Called "sample"];
                     random := snd (snd (sample C (self m) (random m))) |}.
Proof.
  intros HK Htp Hl H. unfold Base_HSDM.draw in H.
  apply bind_Ok in H as ([] & m1 & H1 & H).
  rewrite sample_self_eq in H1. injection H1 as Hr <-. split; [exact Hr|].
  destruct (HK (self m) (random m)) as (_ & Htp' & _).
  apply bind_Ok in H as (tp & m2 & H2 & H).
  unfold attr in H2. simpl in H2. rewrite Htp', Htp in H2. injection H2 as <- <-.
  apply bind_Ok in H as (ps & m3 & H3 & H).
  unfold list_contents in H3. simpl in H3. rewrite Hl in H3. injection H3 as <- <-.
  apply for_each_Ok in H as (o' & Ho' & ->). eauto.
Qed.

Lemma draw_returns (C : collaborators) (l : loc) (params : list string) (m : machine)
    (o' : estimator) :
  fst (sample C (self m) (random m)) = Ok tt ->
  traced_params (fst (snd (sample C (self m) (random m)))) = Some l ->
  lists m !! l = Some params ->
  appended_all params (fst (snd (sample C (self m) (random m)))) = Ok o' ->
  Base_HSDM.draw C m = (Ok tt, {| self := o'; lists := lists m;
                                  events := events m ++ [Called "sample"];
                                  random := snd (snd (sample C (self m) (random m))) |}).
Proof.
  intros Hr Htp Hl Ho'. unfold Base_HSDM.draw.
  erewrite bind_then; [|rewrite sample_self_eq, Hr; reflexivity].
  erewrite bind_then; [|unfold attr; simpl; rewrite Htp; reflexivity].
  erewrite bind_then; [|unfold list_contents; simpl; rewrite Hl; reflexivity].
  destruct (for_each_appended_all params
              {| self := fst (snd (sample C (self m) (random m))); lists := lists m;
                 events := events m ++ [Called "sample"];
                 random := snd (snd (sample C (self m) (random m))) |}) as [H _].
  apply (H o' Ho').
Qed.

(** ** The loop of [sample] *)

(** The bound on the turns does not cut the loop short: started at
    [Z.to_nat ndraws] the loop obeys the equation of [while ndraws > 0]. *)
Lemma while_draws_equation (C : collaborators) (ndraws : Z) (m : machine) :
  Base_HSDM.while_draws C (Z.to_nat ndraws) ndraws m =
  (if ndraws >? 0 then
     let* v := attr "_verbose" _verbose in
     let* chatty := lift (py_gt v 1) in
     (if chatty && (ndraws mod 100 =? 0)
      then print (pretty ndraws +:+ " Draws to go")
      else ret tt) ;;;
     Base_HSDM.draw C ;;;
     Base_HSDM.while_draws C (Z.to_nat (ndraws - 1)) (ndraws - 1)
   else ret tt) m.
Proof.
  destruct (ndraws >? 0) eqn:Hk.
  - apply Z.gtb_lt in Hk.
    replace (Z.to_nat ndraws) with (S (Z.to_nat (ndraws - 1))) by lia.
    simpl. apply Z.gtb_lt in Hk. rewrite Hk. reflexivity.
  - rewrite Z.gtb_ltb, Z.ltb_ge in Hk.
    replace (Z.to_nat ndraws) with O by lia. reflexivity.
Qed.

Lemma calls_one (f : string) : calls f [Called f] = 1%nat.
Proof. unfold calls. cbn [List.filter]. now rewrite String.eqb_refl. Qed.

Lemma maybe_print (b : bool) (line : string) (m : machine) :
  exists evs, (if b then print line else ret tt) m =
              (Ok tt, {| self := self m; lists := lists m;
                         events := events m ++ evs; random := random m |}) /\
              calls "sample" evs = 0%nat.
Proof.
  destruct b.
  - exists [Printed line]. split; reflexivity.
  - exists []. rewrite app_nil_r. destruct m. split; reflexivity.
Qed.

Lemma length_sweeps kernel (params : list string) (n : nat) (o : estimator) (rs : RandomState) :
  length (sweeps kernel params n o rs) = n.
Proof. revert o rs. induction n as [|n IH]; intros o rs; simpl; [|rewrite IH]; reflexivity. Qed.

Lemma while_draws_Ok (C : collaborators) (l : loc) (params : list string) :
  leaves_driver_alone (sample C) -> NoDup params ->
  forall (n : nat) (k : Z) (m m' : machine),
    traced_params (self m) = Some l -> lists m !! l = Some params ->
    Base_HSDM.while_draws C n k m = (Ok tt, m') ->
    calls "sample" (events m') = (calls "sample" (events m) + Nat.min n (Z.to_nat k))%nat /\
    traced_params (self m') = Some l /\ lists m' = lists m /\
    forall p l0, p ∈ params -> recorded p (self m) = Some l0 ->
      exists vs, recorded p (self m') = Some (l0 ++ vs) /\
                 Some <$> vs =
                 current p <$> sweeps (sample C) params (Nat.min n (Z.to_nat k))
                                      (self m) (random m).
Proof.
  intros HK Hnd. induction n as [|n IH]; intros k m m' Htp Hl H.
  - injection H as <-. simpl. rewrite Nat.add_0_r. repeat split; try assumption.
    intros p l0 _ H0. exists []. rewrite app_nil_r. auto.
  - simpl in H. destruct (k >? 0) eqn:Hk.
    + apply Z.gtb_lt in Hk.
      assert (Hd : Nat.min (S n) (Z.to_nat k) = S (Nat.min n (Z.to_nat (k - 1)))) by lia.
      rewrite Hd. clear Hd.
      apply bind_Ok in H as (v & m1 & H1 & H).
      unfold attr in H1. destruct (_verbose (self m)); [|discriminate]. injection H1 as <- <-.
      apply bind_Ok in H as (b & m1 & H1 & H). injection H1 as _ <-.
      apply bind_Ok in H as ([] & m1 & H1 & H).
      destruct (maybe_print (b && (k mod 100 =? 0)) (pretty k +:+ " Draws to go") m)
        as (evs & E & Hevs).
      rewrite E in H1. injection H1 as <-. clear E.
      apply bind_Ok in H as ([] & m2 & H2 & H).
      eapply draw_Ok in H2 as (Hr & o' & Ho' & ->); [|exact HK|exact Htp|exact Hl].
      simpl in Hr, Ho'.
      destruct (appended_all_Ok _ _ _ Ho' Hnd) as (Hin & Hout & Hst & Htp' & _).
      destruct (HK (self m) (random m)) as (Htr1 & Htp1 & _).
      apply IH in H as (Hc & Htp2 & Hl2 & Hrec); simpl; [|congruence|exact Hl].
      simpl in Hc, Hl2, Hrec. rewrite Hc. rewrite !calls_app, Hevs, calls_one.
      repeat split; [lia|assumption|assumption|].
      intros p l0 Hp H0. destruct (Hin p Hp) as (l1 & v1 & Hl1 & Hv1 & Hl1').
      assert (l1 = l0) as ->.
      { unfold recorded in Hl1, H0. rewrite Htr1 in Hl1. congruence. }
      destruct (Hrec p (l0 ++ [v1]) Hp Hl1') as (vs & Hvs & Hmap).
      exists (v1 :: vs). split.
      * rewrite Hvs, <- app_assoc. reflexivity.
      * simpl. rewrite Ho'. f_equal; [|exact Hmap]. symmetry. exact Hv1.
    + injection H as <-.
      assert (Nat.min (S n) (Z.to_nat k) = 0)%nat as ->.
      { rewrite Z.gtb_ltb, Z.ltb_ge in Hk. lia. }
      simpl. rewrite Nat.add_0_r. repeat split; try assumption.
      intros p l0 _ H0. exists []. rewrite app_nil_r. auto.
Qed.

Lemma set_trace_twice (t t' : option (gmap string (list value))) (o : estimator) :
  set_trace t (set_trace t' o) = set_trace t o.
Proof. reflexivity. Qed.

Lemma appended_all_set_trace (params : list string) (o o' : estimator) :
  appended_all params o = Ok o' -> o' = set_trace (trace o') o.
Proof.
  revert o. induction params as [|p ps IH]; intros o; simpl.
  - intros [= <-]. destruct o; reflexivity.
  - destruct (appended p o) as [o1|e] eqn:E1; [|discriminate].
    intros H. rewrite (IH _ H). simpl.
    unfold appended in E1.
    destruct (trace o) as [tr|]; [|discriminate].
    destruct (tr !! p); [|discriminate].
    destruct (state o) as [st|]; [|discriminate].
    destruct (st !! p); [|discriminate].
    injection E1 as <-. reflexivity.
Qed.

Lemma appended_all_returns (params : list string) (o : estimator) :
  (forall p, p ∈ params -> is_Some (recorded p o) /\ is_Some (current p o)) ->
  exists o', appended_all params o = Ok o'.
Proof.
  revert o. induction params as [|p ps IH]; intros o H; simpl; [eauto|].
  destruct (H p) as [[l Hl] [v Hv]]; [left|].
  assert (E : appended p o = Ok (set_trace (Some (<[p := l ++ [v]]> (default ∅ (trace o)))) o)).
  { unfold appended. unfold recorded in Hl. unfold current in Hv.
    destruct (trace o) as [tr|]; [|discriminate]. rewrite Hl.
    destruct (state o) as [st|]; [|discriminate]. rewrite Hv. reflexivity. }
  rewrite E. apply IH. intros q Hq.
  destruct (H q) as [[lq Hlq] Hcq]; [right; exact Hq|]. split; [|exact Hcq].
  unfold recorded in *. simpl.
  destruct (decide (p = q)) as [->|Hne].
  - rewrite lookup_insert_eq. eauto.
  - rewrite lookup_insert_ne by exact Hne.
    destruct (trace o); [eauto | discriminate].
Qed.

Lemma appended_all_keeps_recorded (params : list string) (o o' : estimator) :
  appended_all params o = Ok o' ->
  forall p, is_Some (recorded p o) -> is_Some (recorded p o').
Proof.
  revert o. induction params as [|q qs IH]; intros o; simpl.
  - intros [= <-] p Hp. exact Hp.
  - destruct (appended q o) as [o1|] eqn:E1; [|discriminate].
    intros H p Hp. apply (IH _ H).
    destruct (appended_Ok _ _ _ E1) as (lq & vq & _ & _ & Hq' & Hoth & _).
    destruct (decide (p = q)) as [->|Hne]; [rewrite Hq'; eauto|].
    rewrite (Hoth p Hne). exact Hp.
Qed.

Lemma while_draws_returns (C : collaborators) (I : estimator -> Prop) (l : loc)
    (params : list string) (v : value) (b : bool) :
  leaves_driver_alone (sample C) -> returns_within I (sample C) ->
  blind_to_trace I -> holds_each params I -> py_gt v 1 = Ok b ->
  forall (n : nat) (k : Z) (m : machine),
    I (self m) -> _verbose (self m) = Some v ->
    traced_params (self m) = Some l -> lists m !! l = Some params ->
    (forall p, p ∈ params -> is_Some (recorded p (self m))) ->
    exists m', Base_HSDM.while_draws C n k m = (Ok tt, m').
Proof.
  intros HK HR HB HH Hv. induction n as [|n IH]; intros k m HI Hvb Htp Hl Hrec; simpl.
  - eexists. reflexivity.
  - destruct (k >? 0); [|eexists; reflexivity].
    erewrite bind_then; [|unfold attr; rewrite Hvb; reflexivity].
    erewrite bind_then; [|unfold lift; rewrite Hv; reflexivity].
    destruct (maybe_print (b && (k mod 100 =? 0)) (pretty k +:+ " Draws to go") m)
      as (evs & E & _).
    erewrite bind_then; [|exact E]. clear E.
    set (m1 := {| self := self m; lists := lists m; events := events m ++ evs;
                  random := random m |}).
    destruct (HR (self m) (random m) HI) as [Hr HI1].
    destruct (HK (self m) (random m)) as (Htr1 & Htp1 & Hvb1).
    destruct (appended_all_returns params (fst (snd (sample C (self m) (random m)))))
      as [o' Ho'].
    { intros p Hp. split.
      - unfold recorded. rewrite Htr1. apply (Hrec p Hp).
      - apply (HH _ p HI1 Hp). }
    erewrite bind_then;
      [|apply (draw_returns C l params m1 o'); simpl; [exact Hr|congruence|exact Hl|exact Ho']].
    assert (Hset := appended_all_set_trace _ _ _ Ho').
    assert (Htr' : forall p, p ∈ params -> is_Some (recorded p o')).
    { intros p Hp. apply (appended_all_keeps_recorded _ _ _ Ho').
      unfold recorded. rewrite Htr1. apply (Hrec p Hp). }
    apply IH; simpl.
    + rewrite Hset. apply HB. exact HI1.
    + rewrite Hset. simpl. congruence.
    + rewrite Hset. simpl. congruence.
    + exact Hl.
    + exact Htr'.
Qed.

(** ** [sample] *)

Lemma sample_keep (C : collaborators) (ndraws : Z) (m : machine) :
  Base_HSDM.sample C ndraws false m =
  match Base_HSDM.while_draws C (Z.to_nat ndraws) ndraws m with
  | (Ok _, m') => (Ok None, m')
  | (Raise e, m') => (Raise e, m')
  end.
Proof. unfold Base_HSDM.sample, bind. destruct (Base_HSDM.while_draws _ _ _ _) as [[[]|e] m']; reflexivity. Qed.

Lemma copy_is_not_defined (m : machine) : load_name "copy" m = (Raise (NameError "copy"), m).
Proof. reflexivity. Qed.

(** C6: for a non-negative [ndraws], [sample(ndraws)] (nothing ejected)
    returns None after calling the sweep exactly [ndraws] times; after each
    call it has appended the value every tracked parameter then has: the
    sequence recorded for a tracked parameter is the one recorded before
    followed by its values after the first, second, ... last sweep,
    [ndraws] values in all, whatever the trace held before; so that,
    starting from empty sequences, every recorded sequence has length
    [ndraws].  The trace has a sequence for every tracked parameter (the
    constructor sees to it); the sweep is any collaborator that returns on
    the estimators it is given, keeps them holding the tracked parameters,
    and leaves trace, traced_params and _verbose alone. *)
Theorem sample_draws_ndraws_times (C : collaborators) (I : estimator -> Prop) (l : loc)
    (params : list string) (v : value) (b : bool) (ndraws : Z) (m : machine) :
  0 <= ndraws ->
  leaves_driver_alone (sample C) -> returns_within I (sample C) ->
  blind_to_trace I -> holds_each params I -> I (self m) ->
  _verbose (self m) = Some v -> py_gt v 1 = Ok b ->
  traced_params (self m) = Some l -> lists m !! l = Some params -> NoDup params ->
  (forall p, p ∈ params -> is_Some (recorded p (self m))) ->
  exists m',
    Base_HSDM.sample C ndraws false m = (Ok None, m') /\
    calls "sample" (events m') = (calls "sample" (events m) + Z.to_nat ndraws)%nat /\
    (forall p l0, p ∈ params -> recorded p (self m) = Some l0 ->
       exists vs, recorded p (self m') = Some (l0 ++ vs) /\
                  length vs = Z.to_nat ndraws /\
                  Some <$> vs =
                  current p <$> sweeps (sample C) params (Z.to_nat ndraws)
                                       (self m) (random m)) /\
    (forall p, p ∈ params -> recorded p (self m) = Some [] ->
       exists vs, recorded p (self m') = Some vs /\ length vs = Z.to_nat ndraws).
Proof.
  intros Hn HK HR HB HH HI Hvb Hv Htp Hl Hnd Hsome.
  destruct (while_draws_returns C I l params v b HK HR HB HH Hv
              (Z.to_nat ndraws) ndraws m HI Hvb Htp Hl Hsome) as [m' Hrun].
  exists m'. rewrite sample_keep, Hrun. split; [reflexivity|].
  destruct (while_draws_Ok C l params HK Hnd _ _ _ _ Htp Hl Hrun) as (Hc & _ & _ & Hrec).
  rewrite Nat.min_id in Hc, Hrec. split; [exact Hc|].
  assert (Hgen : forall p l0, p ∈ params -> recorded p (self m) = Some l0 ->
            exists vs, recorded p (self m') = Some (l0 ++ vs) /\
                       length vs = Z.to_nat ndraws /\
                       Some <$> vs =
                       current p <$> sweeps (sample C) params (Z.to_nat ndraws)
                                            (self m) (random m)).
  { intros p l0 Hp Hl0. destruct (Hrec p l0 Hp Hl0) as (vs & Hvs & Hmap).
    exists vs. split; [exact Hvs|]. split; [|exact Hmap].
    apply (f_equal length) in Hmap. rewrite !length_fmap, length_sweeps in Hmap. exact Hmap. }
  split; [exact Hgen|].
  intros p Hp Hempty. destruct (Hgen p [] Hp Hempty) as (vs & Hvs & Hlen & _).
  exists vs. split; assumption.
Qed.

(** C7 (what the code does): [sample(ndraws, pop=True)] never returns a
    trace.  Once the draws are done it reads the name [copy], which the
    module never binds, and ends with NameError; asked for no draw at all it
    does so at once, the trace untouched. *)
Theorem sample_pop_raises_NameError :
  (forall (C : collaborators) (ndraws : Z) (m m' : machine) t,
      Base_HSDM.sample C ndraws true m <> (Ok t, m')) /\
  (forall (C : collaborators) (m : machine),
      Base_HSDM.sample C 0 true m = (Raise (NameError "copy"), m)).
Proof.
  split.
  - intros C ndraws m m' t. unfold Base_HSDM.sample, bind.
    destruct (Base_HSDM.while_draws _ _ _ _) as [[[]|e] m1]; [|discriminate].
    rewrite copy_is_not_defined. discriminate.
  - intros C m. reflexivity.
Qed.

(** ** Running the primitives *)

Lemma lift_Ok {A : Type} (r : result A) (m m1 : machine) (a : A) :
  lift r m = (Ok a, m1) -> r = Ok a /\ m1 = m.
Proof. unfold lift. intros [= -> ->]. auto. Qed.

Lemma attr_Ok {A : Type} (name : string) (proj : estimator -> option A)
    (m m1 : machine) (a : A) :
  attr name proj m = (Ok a, m1) -> proj (self m) = Some a /\ m1 = m.
Proof. unfold attr. destruct (proj (self m)); intros [= -> ->]; auto. Qed.

Lemma state_attr_Ok (k : string) (m m1 : machine) (v : value) :
  state_attr k m = (Ok v, m1) -> current k (self m) = Some v /\ m1 = m.
Proof.
  unfold state_attr, current. intros H.
  apply bind_Ok in H as (st & m2 & H1 & H). apply attr_Ok in H1 as [-> ->].
  destruct (st !! k); [|discriminate]. injection H as -> ->. auto.
Qed.

Lemma state_attr_returns (k : string) (m : machine) (v : value) :
  current k (self m) = Some v -> state_attr k m = (Ok v, m).
Proof.
  unfold state_attr, current, bind, attr. destruct (state (self m)) as [st|]; [|discriminate].
  intros ->. reflexivity.
Qed.

Lemma state_update_Ok (d : list (string * value)) (m m1 : machine) :
  state_update d m = (Ok tt, m1) ->
  exists st, state (self m) = Some st /\
             m1 = with_estimator (set_state (ns_update d st) (self m)) m.
Proof.
  unfold state_update. intros H.
  apply bind_Ok in H as (st & m2 & H1 & H). apply attr_Ok in H1 as [E ->].
  injection H as <-. eauto.
Qed.

Lemma state_update_returns (d : list (string * value)) (m : machine) (st : NS) :
  state (self m) = Some st ->
  state_update d m = (Ok tt, with_estimator (set_state (ns_update d st) (self m)) m).
Proof. unfold state_update, bind, attr. intros ->. reflexivity. Qed.

Lemma call_Ok {A : Type} (f : string) (r : result A) (m m1 : machine) (a : A) :
  call f r m = (Ok a, m1) ->
  r = Ok a /\ m1 = {| self := self m; lists := lists m;
                      events := events m ++ [Called f]; random := random m |}.
Proof. unfold call, bind, record, lift. simpl. intros [= -> <-]. auto. Qed.

Lemma call_returns {A : Type} (f : string) (r : result A) (m : machine) :
  call f r m = (r, {| self := self m; lists := lists m;
                      events := events m ++ [Called f]; random := random m |}).
Proof. reflexivity. Qed.

(** ** [_setup_truncation] *)

Lemma reciprocal (C : collaborators) (e : value) (a : float) (k : bool) :
  as_float e = Some (a, k) -> k = true \/ is_zero a = false ->
  Base_HSDM.op C TrueDiv (VFloat 1) e = Ok (scalar k (PrimFloat.div 1 a)).
Proof.
  intros He Hk. unfold Base_HSDM.op, py_binop. cbn [as_int as_float]. rewrite He.
  destruct k; [reflexivity|]. cbn [orb scalar].
  destruct Hk as [?| ->]; [discriminate | reflexivity].
Qed.

Lemma _setup_truncation_returns (C : collaborators) (m : machine) (st : NS)
    (Mv e_min e_max : value) (a b : float) (ka kb : bool) :
  state (self m) = Some st -> st !! "M" = Some Mv ->
  speigen_range C Mv = Ok (e_min, e_max) ->
  as_float e_min = Some (a, ka) -> as_float e_max = Some (b, kb) ->
  ka = true \/ is_zero a = false -> kb = true \/ is_zero b = false ->
  Base_HSDM._setup_truncation C m =
  (Ok tt,
   {| self := set_state (<["Rho_max" := scalar kb (PrimFloat.div 1 b)]>
                           (<["Rho_min" := scalar ka (PrimFloat.div 1 a)]> st)) (self m);
      lists := lists m; events := events m ++ [Called "speigen_range"];
      random := random m |}).
Proof.
  intros Hst HM He Ha Hb Hka Hkb. unfold Base_HSDM._setup_truncation.
  erewrite bind_then; [|apply state_attr_returns; unfold current; rewrite Hst; exact HM].
  erewrite bind_then; [|rewrite call_returns, He; reflexivity]. cbv beta iota.
  erewrite bind_then; [|unfold lift; rewrite (reciprocal C _ _ _ Ha Hka); reflexivity].
  erewrite bind_then; [|apply state_update_returns; exact Hst].
  erewrite bind_then; [|unfold lift; rewrite (reciprocal C _ _ _ Hb Hkb); reflexivity].
  erewrite state_update_returns; [|reflexivity]. reflexivity.
Qed.

(** C3: when the extremal eigenvalues [speigen_range] returns for M are
    both nonzero, [_setup_truncation] returns with Rho_min = 1/e_min and
    Rho_max = 1/e_max, floats of the kind the eigenvalues are. *)
Theorem truncation_bounds_are_reciprocals (C : collaborators) (m : machine) (st : NS)
    (Mv e_min e_max : value) (a b : float) (ka kb : bool) :
  state (self m) = Some st -> st !! "M" = Some Mv ->
  speigen_range C Mv = Ok (e_min, e_max) ->
  as_float e_min = Some (a, ka) -> as_float e_max = Some (b, kb) ->
  is_zero a = false -> is_zero b = false ->
  exists m',
    Base_HSDM._setup_truncation C m = (Ok tt, m') /\
    current "Rho_min" (self m') = Some (scalar ka (PrimFloat.div 1 a)) /\
    current "Rho_max" (self m') = Some (scalar kb (PrimFloat.div 1 b)).
Proof.
  intros Hst HM He Ha Hb Hza Hzb. eexists. split.
  - apply (_setup_truncation_returns C m st Mv e_min e_max a b ka kb); auto.
  - unfold current. simpl. split.
    + rewrite lookup_insert_ne by discriminate. apply lookup_insert_eq.
    + apply lookup_insert_eq.
Qed.


(** ** [_setup_initial_values] *)

Lemma on_self_only_ret {A : Type} (a : A) : on_self_only (ret a).
Proof.
  intros m. exists (Ok a), (self m). intros m2 E. unfold ret. rewrite <- E.
  now rewrite with_estimator_self.
Qed.

Lemma on_self_only_lift {A : Type} (r : result A) : on_self_only (lift r).
Proof.
  intros m. exists r, (self m). intros m2 E. unfold lift. rewrite <- E.
  now rewrite with_estimator_self.
Qed.

Lemma on_self_only_attr {A : Type} (name : string) (proj : estimator -> option A) :
  on_self_only (attr name proj).
Proof.
  intros m. exists (match proj (self m) with Some a => Ok a | None => Raise (AttributeError name) end),
    (self m).
  intros m2 E. unfold attr. rewrite E.
  destruct (proj (self m)); rewrite <- E; now rewrite with_estimator_self.
Qed.

Lemma on_self_only_with_self (f : estimator -> estimator) : on_self_only (with_self f).
Proof.
  intros m. exists (Ok tt), (f (self m)). intros m2 E. unfold with_self. rewrite E. reflexivity.
Qed.

Lemma on_self_only_bind {A B : Type} (c : Py A) (k : A -> Py B) :
  on_self_only c -> (forall a, on_self_only (k a)) -> on_self_only (bind c k).
Proof.
  intros Hc Hk m. destruct (Hc m) as (r & o & H). destruct r as [a|e].
  - destruct (Hk a (with_estimator o m)) as (r' & o' & H').
    exists r', o'. intros m2 E. unfold bind. rewrite (H m2 E).
    rewrite (H' (with_estimator o m2)); reflexivity.
  - exists (Raise e), o. intros m2 E. unfold bind. rewrite (H m2 E). reflexivity.
Qed.

Lemma on_self_only_state_attr (k : string) : on_self_only (state_attr k).
Proof.
  unfold state_attr. apply on_self_only_bind; [apply on_self_only_attr|].
  intros st. destruct (st !! k); [apply on_self_only_ret|].
  intros m. exists (Raise (AttributeError k)), (self m). intros m2 E. unfold raise.
  rewrite <- E. now rewrite with_estimator_self.
Qed.

Lemma on_self_only_state_update (d : list (string * value)) : on_self_only (state_update d).
Proof.
  unfold state_update. apply on_self_only_bind; [apply on_self_only_attr|].
  intros st. apply on_self_only_with_self.
Qed.

Lemma on_self_only__setup_initial_values (C : collaborators) :
  on_self_only (Base_HSDM._setup_initial_values C).
Proof.
  unfold Base_HSDM._setup_initial_values.
  repeat first [ apply on_self_only_state_update | apply on_self_only_state_attr
               | apply on_self_only_lift | apply on_self_only_bind; [|intros ?] ].
Qed.

Ltac run_inv H :=
  repeat match type of H with
  | bind (state_attr _) _ _ = (Ok _, _) =>
      let v := fresh "v" in let m1 := fresh "m" in let H1 := fresh "Hget" in
      apply bind_Ok in H as (v & m1 & H1 & H); apply state_attr_Ok in H1 as [H1 ->]
  | bind (lift _) _ _ = (Ok _, _) =>
      let v := fresh "v" in let m1 := fresh "m" in let H1 := fresh "Hop" in
      apply bind_Ok in H as (v & m1 & H1 & H); apply lift_Ok in H1 as [H1 ->]
  end.

Lemma np_zeros_Ok (r : Z) (v : value) :
  np_zeros (VInt r) (VInt 1) = Ok v -> v = VArray (zeros (Z.to_nat r) 1).
Proof.
  unfold np_zeros, dim. destruct (r <? 0); [discriminate|]. simpl. intros [= <-]. reflexivity.
Qed.

Lemma initial_Rho (C : collaborators) (J : Z) (J_1 rho : value) :
  Base_HSDM.op C Sub (VInt J) (VInt 1) = Ok J_1 ->
  Base_HSDM.op C TrueDiv (VFloat (-1)) J_1 = Ok rho ->
  rho = VFloat (PrimFloat.div (-1) (float_of_Z (J - 1))).
Proof.
  unfold Base_HSDM.op, py_binop. cbn [as_int int_op]. intros [= <-].
  cbn [as_int as_float orb].
  destruct (is_zero (float_of_Z (J - 1))); [discriminate|]. intros [= <-]. reflexivity.
Qed.

Lemma _setup_initial_values_Ok (C : collaborators) (m m' : machine) :
  Base_HSDM._setup_initial_values C m = (Ok tt, m') ->
  exists st pv qv Jv Betas Gammas Alphas J_1 rho B DeltaAlphas XBetas ZGammas BZGammas,
    state (self m) = Some st /\
    st !! "p" = Some pv /\ st !! "q" = Some qv /\ st !! "J" = Some Jv /\
    np_zeros pv (VInt 1) = Ok Betas /\ np_zeros qv (VInt 1) = Ok Gammas /\
    np_zeros Jv (VInt 1) = Ok Alphas /\
    Base_HSDM.op C Sub Jv (VInt 1) = Ok J_1 /\
    Base_HSDM.op C TrueDiv (VFloat (-1)) J_1 = Ok rho /\
    m' = with_estimator
           (set_state
              (ns_update
                 [("Betas", Betas); ("Gammas", Gammas); ("Alphas", Alphas);
                  ("Sigma2", VInt 2); ("Tau2", VInt 2); ("Rho", rho); ("B", B);
                  ("DeltaAlphas", DeltaAlphas); ("XBetas", XBetas);
                  ("ZGammas", ZGammas); ("BZGammas", BZGammas)] st) (self m)) m.
Proof.
  intros H. unfold Base_HSDM._setup_initial_values in H. run_inv H.
  apply state_update_Ok in H as (st & Hst & ->).
  unfold current in *. rewrite Hst in *.
  assert (v5 = v3) as -> by congruence.
  exists st, v, v1, v3, v0, v2, v4, v6, v7, v12, v14, v16, v18, v19.
  repeat split; assumption || reflexivity.
Qed.

(** C5: when [_setup_initial_values] completes it has assigned Betas the
    p-by-1, Gammas the q-by-1 and Alphas the J-by-1 array of zeros,
    Sigma2 = 2, Tau2 = 2 and Rho = -1.0/(J - 1); and it is deterministic:
    started from the same estimator on any machine (whatever the random
    stream holds) it completes with the same estimator and takes nothing
    from the stream. *)
Theorem initial_values_are_fixed (C : collaborators) (m m' : machine) (st : NS) (p q J : Z) :
  state (self m) = Some st ->
  st !! "p" = Some (VInt p) -> st !! "q" = Some (VInt q) -> st !! "J" = Some (VInt J) ->
  Base_HSDM._setup_initial_values C m = (Ok tt, m') ->
  current "Betas" (self m') = Some (VArray (zeros (Z.to_nat p) 1)) /\
  current "Gammas" (self m') = Some (VArray (zeros (Z.to_nat q) 1)) /\
  current "Alphas" (self m') = Some (VArray (zeros (Z.to_nat J) 1)) /\
  current "Sigma2" (self m') = Some (VInt 2) /\
  current "Tau2" (self m') = Some (VInt 2) /\
  current "Rho" (self m') = Some (VFloat (PrimFloat.div (-1) (float_of_Z (J - 1)))) /\
  forall m2, self m2 = self m ->
    Base_HSDM._setup_initial_values C m2 = (Ok tt, with_estimator (self m') m2).
Proof.
  intros Hst Hp Hq HJ Hrun.
  destruct (_setup_initial_values_Ok C m m' Hrun)
    as (st' & pv & qv & Jv & Betas & Gammas & Alphas & J_1 & rho & B & DA & XB & ZG & BZG &
        Hst' & Hp' & Hq' & HJ' & HB & HG & HA & HJ1 & Hrho & Hm').
  assert (st' = st) as -> by congruence.
  assert (pv = VInt p) as -> by congruence.
  assert (qv = VInt q) as -> by congruence.
  assert (Jv = VInt J) as -> by congruence.
  apply np_zeros_Ok in HB as ->. apply np_zeros_Ok in HG as ->. apply np_zeros_Ok in HA as ->.
  rewrite (initial_Rho C J J_1 rho HJ1 Hrho) in Hm'.
  split; [|split; [|split; [|split; [|split; [|split]]]]];
    try (rewrite Hm'; unfold current; simpl; simplify_map_eq; reflexivity).
  intros m2 E.
  destruct (on_self_only__setup_initial_values C m) as (r & o & Hall).
  rewrite (Hall m eq_refl) in Hrun. injection Hrun as -> <-.
  rewrite (Hall m2 E). reflexivity.
Qed.

(** ** Construction *)

Lemma extra_tracked_params_is_not_defined (m : machine) :
  load_name "extra_tracked_params" m = (Raise (NameError "extra_tracked_params"), m).
Proof. reflexivity. Qed.

Lemma Base_HSDM_init_Ok (C : collaborators) (y X W M Z Delta : value) (n : BinNums.Z)
    (cfg : NS) (m m' : machine) :
  Base_HSDM.__init__ C y X W M Z Delta n cfg m = (Ok tt, m') ->
  exists N p J c _J q params leftovers m1 m2 m3 m4,
    attr_shape X = Ok (N, p) /\ attr_shape M = Ok (J, c) /\ attr_shape Z = Ok (_J, q) /\
    default VNone (cfg !! "extra_tracked_params") = VNone /\
    lists m !! SAMPLERS = Some params /\
    Base_HSDM._setup_data C (delete "extra_tracked_params" cfg)
      (after_line_36 y X W M Z Delta N J p q params m) = (Ok leftovers, m1) /\
    Base_HSDM._setup_configs leftovers m1 = (Ok tt, m2) /\
    Base_HSDM._setup_truncation C m2 = (Ok tt, m3) /\
    Base_HSDM._setup_initial_values C m3 = (Ok tt, m4) /\
    Base_HSDM.sample C n false (with_estimator (set_cycles (VInt 0) (self m4)) m4)
    = (Ok None, m').
Proof.
  intros H. unfold Base_HSDM.__init__ in H.
  apply bind_Ok in H as ([N p] & ? & H1 & H). apply lift_Ok in H1 as [HX ->].
  apply bind_Ok in H as ([J c] & ? & H1 & H). apply lift_Ok in H1 as [HM ->].
  apply bind_Ok in H as ([_J q] & ? & H1 & H). apply lift_Ok in H1 as [HZ ->].
  apply bind_Ok in H as ([] & ? & H1 & H). injection H1 as <-.
  apply bind_Ok in H as ([] & ? & H1 & H). injection H1 as <-.
  apply bind_Ok in H as ([] & ? & H1 & H). injection H1 as <-.
  unfold dict_pop in H. cbv beta iota in H.
  apply bind_Ok in H as ([] & m0 & H1 & H).
  assert (Hextras : default VNone (cfg !! "extra_tracked_params") = VNone /\
                    m0 = {| self := set_traced_params SAMPLERS
                                      (set_trace (Some ∅)
                                         (set_state
                                            (ns_update
                                               [("X", X); ("y", y); ("W", W); ("M", M);
                                                ("Z", Z); ("Delta", Delta); ("N", VInt N);
                                                ("J", VInt J); ("p", VInt p); ("q", VInt q)] ∅)
                                            (self m)));
                            lists := lists m; events := events m; random := random m |}).
  { destruct (cfg !! "extra_tracked_params") as [[]|]; simpl in *;
      try (injection H1 as <-; split; reflexivity);
      apply bind_Ok in H1 as (? & ? & H2 & H1); apply attr_Ok in H2 as [_ ->];
      apply bind_Ok in H1 as (? & ? & H2 & H1);
      rewrite extra_tracked_params_is_not_defined in H2; discriminate. }
  destruct Hextras as [Hextras ->]. clear H1.
  apply bind_Ok in H as (tp & ? & H1 & H). apply attr_Ok in H1 as [Htp ->].
  simpl in Htp. injection Htp as <-.
  apply bind_Ok in H as (params & ? & H1 & H).
  unfold list_contents in H1. simpl in H1.
  destruct (lists m !! SAMPLERS) as [ps|] eqn:Hps; [|discriminate]. injection H1 as <- <-.
  apply bind_Ok in H as (tr & ? & H1 & H). apply attr_Ok in H1 as [Htr ->].
  simpl in Htr. injection Htr as <-.
  apply bind_Ok in H as ([] & ? & H1 & H). injection H1 as <-.
  apply bind_Ok in H as (leftovers & m1 & H1 & H).
  apply bind_Ok in H as ([] & m2 & H2 & H).
  apply bind_Ok in H as ([] & m3 & H3 & H).
  apply bind_Ok in H as ([] & m4 & H4 & H).
  apply bind_Ok in H as ([] & ? & H5 & H). injection H5 as <-.
  apply bind_Ok in H as (r & m5 & H5 & H). injection H as <-.
  assert (r = None) as ->.
  { rewrite sample_keep in H5. destruct (Base_HSDM.while_draws _ _ _ _) as [[[]|] ?];
      [injection H5 as <- _; reflexivity | discriminate]. }
  exists N, p, J, c, _J, q, ps, leftovers, m1, m2, m3, m4.
  repeat split; try assumption.
Qed.

Lemma new_Ok (init : Py unit) (m m' : machine) (o : estimator) :
  new init m = (Ok o, m') ->
  init (with_estimator new_object m) = (Ok tt, m') /\ o = self m'.
Proof.
  unfold new. intros H.
  apply bind_Ok in H as ([] & ? & H1 & H). injection H1 as <-.
  apply bind_Ok in H as ([] & ? & H1 & H). injection H as <- <-. auto.
Qed.

Lemma HSDM_init_Ok (C : collaborators)
    (y X W M Z Delta membership sparse transform : value) (n : BinNums.Z) (verbose : value)
    (options : NS) (m m' : machine) :
  HSDM.__init__ C y X W M Z Delta membership sparse transform n verbose options m
  = (Ok tt, m') ->
  exists W' M' N J p Wmat Mmat Delta' membership' X',
    verify_weights C W M transform = Ok (W', M') /\
    attr_n W' = Ok N /\ attr_n M' = Ok J /\ attr_shape X = Ok (N, p) /\
    attr_sparse W' = Ok Wmat /\ attr_sparse M' = Ok Mmat /\
    verify_Delta_members C Delta membership (VInt N) (VInt J) = Ok (Delta', membership') /\
    verify_covariates C X W' = Ok X' /\
    Base_HSDM.__init__ C y X' Wmat Mmat Z Delta' n options
      {| self := set__verbose verbose (set_M M' (set_W W' (self m)));
         lists := lists m;
         events := events m ++ [Called "verify.weights"; Called "verify.Delta_members";
                                Called "verify.covariates"];
         random := random m |} = (Ok tt, m').
Proof.
  intros H. unfold HSDM.__init__ in H.
  apply bind_Ok in H as ([W' M'] & ? & H1 & H). apply call_Ok in H1 as [HW ->].
  apply bind_Ok in H as ([] & ? & H1 & H). injection H1 as <-.
  apply bind_Ok in H as ([] & ? & H1 & H). injection H1 as <-.
  apply bind_Ok in H as (N & ? & H1 & H). apply lift_Ok in H1 as [HN ->].
  apply bind_Ok in H as (J & ? & H1 & H). apply lift_Ok in H1 as [HJ ->].
  apply bind_Ok in H as ([_N p] & ? & H1 & H). apply lift_Ok in H1 as [HX ->].
  apply bind_Ok in H as ([] & ? & H1 & H).
  destruct (_N =? N) eqn:E; [|discriminate]. apply Z.eqb_eq in E as ->. injection H1 as <-.
  apply bind_Ok in H as (Wmat & ? & H1 & H). apply lift_Ok in H1 as [HWm ->].
  apply bind_Ok in H as (Mmat & ? & H1 & H). apply lift_Ok in H1 as [HMm ->].
  apply bind_Ok in H as ([Delta' membership'] & ? & H1 & H). apply call_Ok in H1 as [HD ->].
  apply bind_Ok in H as (X' & ? & H1 & H). apply call_Ok in H1 as [HC ->].
  apply bind_Ok in H as ([] & ? & H1 & H). injection H1 as <-.
  simpl in H. rewrite <- !app_assoc in H. simpl in H.
  exists W', M', N, J, p, Wmat, Mmat, Delta', membership', X'.
  repeat split; assumption.
Qed.


(** What the set-up methods of lines 37 to 42 leave as line 36 left it. *)
Lemma from_line_36_to_sample (C : collaborators) (hypers leftovers : NS)
    (m0 m1 m2 m3 m4 : machine) :
  Base_HSDM._setup_data C hypers m0 = (Ok leftovers, m1) ->
  Base_HSDM._setup_configs leftovers m1 = (Ok tt, m2) ->
  Base_HSDM._setup_truncation C m2 = (Ok tt, m3) ->
  Base_HSDM._setup_initial_values C m3 = (Ok tt, m4) ->
  trace (self m4) = trace (self m0) /\ traced_params (self m4) = traced_params (self m0) /\
  _verbose (self m4) = _verbose (self m0) /\ lists m4 = lists m0 /\
  calls "sample" (events m4) = calls "sample" (events m0).
Proof.
  intros H1 H2 H3 H4.
  set (Q := fun t tp vb ls c =>
              t = trace (self m0) /\ tp = traced_params (self m0) /\
              vb = _verbose (self m0) /\ ls = lists m0 /\
              c = calls "sample" (events m0)).
  assert (Q0 : of_the_driver Q m0) by (repeat split).
  apply (preserves__setup_data C Q hypers) in Q0. rewrite H1 in Q0. cbn [snd] in Q0.
  apply (preserves__setup_configs Q leftovers) in Q0. rewrite H2 in Q0. cbn [snd] in Q0.
  apply (preserves__setup_truncation C Q) in Q0. rewrite H3 in Q0. cbn [snd] in Q0.
  apply (preserves__setup_initial_values C Q) in Q0. rewrite H4 in Q0. cbn [snd] in Q0.
  exact Q0.
Qed.

Lemma preserves_record_on_self (I : estimator -> Prop) (e : event) :
  preserves (fun m => I (self m)) (record e).
Proof. intros m H. exact H. Qed.

Lemma preserves_while_draws (C : collaborators) (I : machine -> Prop) :
  preserves I (Base_HSDM.draw C) -> (forall e, preserves I (record e)) ->
  forall n k, preserves I (Base_HSDM.while_draws C n k).
Proof.
  intros Hd Hr. induction n as [|n IH]; intros k; simpl; [apply preserves_ret|].
  destruct (k >? 0); [|apply preserves_ret].
  apply preserves_bind; [apply preserves_attr|]. intros v.
  apply preserves_bind; [apply preserves_lift|]. intros b.
  apply preserves_bind.
  { destruct (b && (k mod 100 =? 0)); [apply Hr | apply preserves_ret]. }
  intros _. apply preserves_bind; [exact Hd|]. intros _. apply IH.
Qed.

Lemma preserves_sample_keep (C : collaborators) (I : machine -> Prop) :
  preserves I (Base_HSDM.draw C) -> (forall e, preserves I (record e)) ->
  forall n, preserves I (Base_HSDM.sample C n false).
Proof.
  intros Hd Hr n. unfold Base_HSDM.sample.
  apply preserves_bind; [apply preserves_while_draws; assumption|].
  intros _. apply preserves_ret.
Qed.

Lemma preserves_trace_append (I : estimator -> Prop) (p : string) :
  (forall o o', I o -> appended p o = Ok o' -> I o') ->
  preserves (fun m => I (self m)) (Base_HSDM.trace_append p).
Proof.
  intros H m HI. rewrite trace_append_appended.
  destruct (appended p (self m)) as [o'|e] eqn:E; simpl; [|exact HI].
  apply (H _ _ HI E).
Qed.

Lemma preserves_draw (C : collaborators) (I : estimator -> Prop) :
  (forall o rs, I o -> I (fst (snd (sample C o rs)))) ->
  (forall p o o', I o -> appended p o = Ok o' -> I o') ->
  preserves (fun m => I (self m)) (Base_HSDM.draw C).
Proof.
  intros HK HA. unfold Base_HSDM.draw.
  apply preserves_bind.
  { intros m HI. rewrite sample_self_eq. simpl. apply HK. exact HI. }
  intros _. apply preserves_bind; [apply preserves_attr|]. intros tp.
  apply preserves_bind.
  { intros m HI. unfold list_contents. destruct (lists m !! tp); exact HI. }
  intros params. apply preserves_for_each. intros p. apply preserves_trace_append.
  intros o o'. apply HA.
Qed.

Lemma sample_keeps_lists (C : collaborators) (n : BinNums.Z) (m : machine) :
  lists (snd (Base_HSDM.sample C n false m)) = lists m.
Proof.
  revert m.
  assert (H : forall ls, preserves (fun m => lists m = ls) (Base_HSDM.sample C n false)).
  { intros ls. apply preserves_sample_keep.
    - unfold Base_HSDM.draw. apply preserves_bind.
      { intros m HI. rewrite sample_self_eq. exact HI. }
      intros _. apply preserves_bind; [apply preserves_attr|]. intros tp.
      apply preserves_bind.
      { intros m HI. unfold list_contents. destruct (lists m !! tp); exact HI. }
      intros params. apply preserves_for_each. intros p m HI.
      rewrite trace_append_appended. destruct (appended p (self m)); exact HI.
    - intros e m HI. exact HI. }
  intros m. apply (H (lists m) m). reflexivity.
Qed.

Lemma sample_keeps_traced_params (C : collaborators) (n : BinNums.Z) (m : machine) :
  leaves_driver_alone (sample C) ->
  traced_params (self (snd (Base_HSDM.sample C n false m))) = traced_params (self m).
Proof.
  intros HK.
  assert (H : forall x, preserves (fun m => traced_params (self m) = x)
                                  (Base_HSDM.sample C n false)).
  { intros x. apply preserves_sample_keep; [|intros e; apply (preserves_record_on_self (fun o => traced_params o = x))].
    apply (preserves_draw C (fun o => traced_params o = x)).
    - intros o rs <-. apply (HK o rs).
    - intros p o o' <- Ho. destruct (appended_Ok _ _ _ Ho) as (? & ? & _ & _ & _ & _ & _ & E & _).
      exact E. }
  apply (H (traced_params (self m)) m). reflexivity.
Qed.



(** C8: when X has another number of rows than W has units, construction
    ends with the UserWarning of lines 192 and 193, whose message names
    both counts; by then only the attributes W and M of the estimator are
    set: it has no state and no trace, and no sweep was called. *)
Theorem mismatch_of_X_and_W_is_refused (C : collaborators) (y X W M : value)
    (kw : HSDM.keywords) (m : machine) (W' M' : value) (N J _N p : Z) :
  verify_weights C W M (default (VStr "r") (HSDM.kw_transform kw)) = Ok (W', M') ->
  attr_n W' = Ok N -> attr_n M' = Ok J ->
  attr_shape X = Ok (_N, p) ->
  _N <> N ->
  exists m',
    HSDM.HSDM C y X W M kw m = (Raise (UserWarning (HSDM.mismatch _N N)), m') /\
    HSDM.mismatch _N N =
      "Number of lower-level observations does not match between X ("
      +:+ pretty _N +:+ ") and W (" +:+ pretty N +:+ ")" /\
    self m' = set_M M' (set_W W' new_object) /\
    state (self m') = None /\ trace (self m') = None /\
    events m' = events m ++ [Called "verify.weights"].
Proof.
  intros HW HN HJ HX Hne. eexists. split; [|split; [reflexivity|]].
  - unfold HSDM.HSDM, new.
    erewrite bind_then; [|reflexivity].
    apply bind_raises. unfold HSDM.__init__.
    erewrite bind_then; [|rewrite call_returns, HW; reflexivity]. cbv beta iota.
    erewrite bind_then; [|reflexivity].
    erewrite bind_then; [|reflexivity].
    erewrite bind_then; [|unfold lift; rewrite HN; reflexivity].
    erewrite bind_then; [|unfold lift; rewrite HJ; reflexivity].
    erewrite bind_then; [|unfold lift; rewrite HX; reflexivity]. cbv beta iota.
    apply bind_raises.
    destruct (Z.eqb_spec _N N) as [E|_]; [contradiction|]. reflexivity.
  - simpl. repeat split; reflexivity.
Qed.

Lemma Base_HSDM_init_with_extras (C : collaborators) (y X W M Z Delta : value)
    (n : BinNums.Z) (cfg : NS) (v : value) (N p J c _J q : BinNums.Z) (m : machine) :
  cfg !! "extra_tracked_params" = Some v -> v <> VNone ->
  attr_shape X = Ok (N, p) -> attr_shape M = Ok (J, c) -> attr_shape Z = Ok (_J, q) ->
  Base_HSDM.__init__ C y X W M Z Delta n cfg m =
  (Raise (NameError "extra_tracked_params"),
   with_estimator
     (set_traced_params SAMPLERS
        (set_trace (Some ∅)
           (set_state
              (ns_update
                 [("X", X); ("y", y); ("W", W); ("M", M); ("Z", Z); ("Delta", Delta);
                  ("N", VInt N); ("J", VInt J); ("p", VInt p); ("q", VInt q)] ∅)
              (self m)))) m).
Proof.
  intros Hv Hne HX HM HZ. unfold Base_HSDM.__init__.
  erewrite bind_then; [|unfold lift; rewrite HX; reflexivity]. cbv beta iota.
  erewrite bind_then; [|unfold lift; rewrite HM; reflexivity]. cbv beta iota.
  erewrite bind_then; [|unfold lift; rewrite HZ; reflexivity]. cbv beta iota.
  erewrite bind_then; [|reflexivity].
  erewrite bind_then; [|reflexivity].
  erewrite bind_then; [|reflexivity].
  unfold dict_pop. rewrite Hv. cbv beta iota.
  apply bind_raises.
  destruct v; try contradiction; reflexivity.
Qed.

Lemma HSDM_with_extras (C : collaborators) (y X W M : value) (kw : HSDM.keywords)
    (m : machine) (v W' M' Delta' membership' X' : value) (N J p N' p' _J q : BinNums.Z) :
  HSDM.kw_options kw !! "extra_tracked_params" = Some v -> v <> VNone ->
  verify_weights C W M (default (VStr "r") (HSDM.kw_transform kw)) = Ok (W', M') ->
  attr_n W' = Ok N -> attr_n M' = Ok J -> attr_shape X = Ok (N, p) ->
  verify_Delta_members C (default VNone (HSDM.kw_Delta kw))
    (default VNone (HSDM.kw_membership kw)) (VInt N) (VInt J) = Ok (Delta', membership') ->
  verify_covariates C X W' = Ok X' -> attr_shape X' = Ok (N', p') ->
  attr_shape (default VNone (HSDM.kw_Z kw)) = Ok (_J, q) ->
  exists m',
    HSDM.HSDM C y X W M kw m = (Raise (NameError "extra_tracked_params"), m') /\
    lists m' = lists m /\
    calls "sample" (events m') = calls "sample" (events m).
Proof.
  intros Hv Hne HW HN HJ HX HD HC HX' HZ.
  destruct W' as [| | | | | | | | |nW aW|]; try discriminate.
  destruct M' as [| | | | | | | | |nM aM|]; try discriminate.
  eexists. split.
  - unfold HSDM.HSDM, new.
    erewrite bind_then; [|reflexivity].
    apply bind_raises. unfold HSDM.__init__.
    erewrite bind_then; [|rewrite call_returns, HW; reflexivity]. cbv beta iota.
    erewrite bind_then; [|reflexivity].
    erewrite bind_then; [|reflexivity].
    erewrite bind_then; [|unfold lift; rewrite HN; reflexivity].
    erewrite bind_then; [|unfold lift; rewrite HJ; reflexivity].
    erewrite bind_then; [|unfold lift; rewrite HX; reflexivity]. cbv beta iota.
    erewrite bind_then; [|rewrite Z.eqb_refl; reflexivity].
    erewrite bind_then; [|reflexivity].
    erewrite bind_then; [|reflexivity].
    erewrite bind_then; [|rewrite call_returns, HD; reflexivity]. cbv beta iota.
    erewrite bind_then; [|rewrite call_returns, HC; reflexivity].
    erewrite bind_then; [|reflexivity].
    eapply Base_HSDM_init_with_extras; [exact Hv | exact Hne | exact HX' | reflexivity | exact HZ].
  - simpl. split; [reflexivity|]. rewrite <- !app_assoc, calls_app. simpl.
    replace (calls "sample" [Called "verify.weights"; Called "verify.Delta_members";
                             Called "verify.covariates"]) with 0%nat by reflexivity.
    lia.
Qed.

(** C9: an option extra_tracked_params other than None stops every
    construction.  [Base_HSDM.__init__], given its arrays, ends at line 35
    with NameError for the name extra_tracked_params, the list of SAMPLERS
    as it was; so does a call of [HSDM] whose input passes validation, no
    sweep called; and no call of [HSDM] with such an option returns an
    estimator.  An estimator that is returned tracks through the
    list object of the module itself: its traced_params is bound to the
    object SAMPLERS is bound to, and construction has made no list object of
    its own. *)
Theorem extra_tracked_params_cannot_be_given :
  (forall C y X W M (m : machine) Z Delta n cfg v N p J c _J q,
      cfg !! "extra_tracked_params" = Some v -> v <> VNone ->
      attr_shape X = Ok (N, p) -> attr_shape M = Ok (J, c) -> attr_shape Z = Ok (_J, q) ->
      exists m',
        new (Base_HSDM.__init__ C y X W M Z Delta n cfg) m
        = (Raise (NameError "extra_tracked_params"), m') /\
        lists m' = lists m /\ events m' = events m) /\
  (forall C y X W M kw (m : machine) v W' M' Delta' membership' X' N J p N' p' _J q,
      HSDM.kw_options kw !! "extra_tracked_params" = Some v -> v <> VNone ->
      verify_weights C W M (default (VStr "r") (HSDM.kw_transform kw)) = Ok (W', M') ->
      attr_n W' = Ok N -> attr_n M' = Ok J -> attr_shape X = Ok (N, p) ->
      verify_Delta_members C (default VNone (HSDM.kw_Delta kw))
        (default VNone (HSDM.kw_membership kw)) (VInt N) (VInt J)
      = Ok (Delta', membership') ->
      verify_covariates C X W' = Ok X' -> attr_shape X' = Ok (N', p') ->
      attr_shape (default VNone (HSDM.kw_Z kw)) = Ok (_J, q) ->
      exists m',
        HSDM.HSDM C y X W M kw m = (Raise (NameError "extra_tracked_params"), m') /\
        lists m' = lists m /\
        calls "sample" (events m') = calls "sample" (events m)) /\
  (forall C y X W M kw (m : machine) v,
      HSDM.kw_options kw !! "extra_tracked_params" = Some v -> v <> VNone ->
      forall o m', HSDM.HSDM C y X W M kw m <> (Ok o, m')) /\
  (forall C y X W M kw (m : machine),
      leaves_driver_alone (sample C) ->
      forall o m', HSDM.HSDM C y X W M kw m = (Ok o, m') ->
                   traced_params o = Some SAMPLERS /\ lists m' = lists m).
Proof.
  split; [|split; [|split]].
  - intros C y X W M m Z Delta n cfg v N p J c _J q Hv Hne HX HM HZ. eexists. split.
    + unfold new. erewrite bind_then; [|reflexivity]. apply bind_raises.
      apply (Base_HSDM_init_with_extras C y X W M Z Delta n cfg v N p J c _J q); assumption.
    + split; reflexivity.
  - intros C y X W M kw m v W' M' Delta' membership' X' N J p N' p' _J q.
    apply HSDM_with_extras.
  - intros C y X W M kw m v Hv Hne o m' H. unfold HSDM.HSDM in H.
    apply new_Ok in H as [H _].
    apply HSDM_init_Ok in H
      as (W' & M' & N & J & p & Wmat & Mmat & Delta' & membership' & X' &
          _ & _ & _ & _ & _ & _ & _ & _ & H).
    apply Base_HSDM_init_Ok in H
      as (? & ? & ? & ? & ? & ? & ? & ? & ? & ? & ? & ? & _ & _ & _ & Hnone & _).
    rewrite Hv in Hnone. simpl in Hnone. contradiction.
  - intros C y X W M kw m HK o m' H. unfold HSDM.HSDM in H.
    apply new_Ok in H as [H ->].
    apply HSDM_init_Ok in H
      as (W' & M' & N & J & p & Wmat & Mmat & Delta' & membership' & X' &
          _ & _ & _ & _ & _ & _ & _ & _ & H).
    apply Base_HSDM_init_Ok in H
      as (N' & p' & J' & c & _J & q & ps & leftovers & m1 & m2 & m3 & m4 &
          _ & _ & _ & _ & Hps & H1 & H2 & H3 & H4 & H5).
    destruct (from_line_36_to_sample C _ _ _ _ _ _ _ H1 H2 H3 H4)
      as (_ & Htp & _ & Hls & _).
    simpl in Htp, Hls.
    pose proof (sample_keeps_traced_params C (HSDM.n_samples_of kw)
                  (with_estimator (set_cycles (VInt 0) (self m4)) m4) HK) as Ktp.
    pose proof (sample_keeps_lists C (HSDM.n_samples_of kw)
                  (with_estimator (set_cycles (VInt 0) (self m4)) m4)) as Kls.
    rewrite H5 in Ktp, Kls. simpl in Ktp, Kls. split; congruence.
Qed.

(** ** What keeps the values of given names *)

Section Untouched.
Variable ks : list string.
Variable o0 : estimator.

Lemma untouched_refl (o : estimator) : untouched ks o o.
Proof. split; auto. Qed.

Lemma ns_update_apart (d : list (string * value)) (st : NS) (k : string) :
  apart ks d = true -> k ∈ ks -> ns_update d st !! k = st !! k.
Proof.
  unfold ns_update, apart. revert st. induction d as [|[k' v] d IH]; intros st Hd Hk; simpl.
  - reflexivity.
  - simpl in Hd. apply andb_true_iff in Hd as [Hk' Hd].
    rewrite (IH _ Hd Hk). apply lookup_insert_ne.
    intros ->. apply negb_true_iff, bool_decide_eq_false in Hk'. contradiction.
Qed.

Lemma preserves_untouched_state_update (d : list (string * value)) :
  apart ks d = true -> preserves (fun m => untouched ks o0 (self m)) (state_update d).
Proof.
  intros Hd m [Htr Hcur]. unfold state_update, bind, attr.
  destruct (state (self m)) as [st|] eqn:Hst; simpl; [|split; assumption].
  split; [exact Htr|]. intros k Hk. rewrite <- (Hcur k Hk).
  unfold current. simpl. rewrite Hst. apply ns_update_apart; assumption.
Qed.

Lemma preserves_untouched_set_configs (c : configs_ns) :
  preserves (fun m => untouched ks o0 (self m)) (with_self (set_configs c)).
Proof. intros m H. exact H. Qed.

Lemma preserves_untouched_set_cycles (v : value) :
  preserves (fun m => untouched ks o0 (self m)) (with_self (set_cycles v)).
Proof. intros m H. exact H. Qed.

Lemma preserves_untouched_call {A : Type} (f : string) (r : result A) :
  preserves (fun m => untouched ks o0 (self m)) (call f r).
Proof. intros m H. exact H. Qed.

Lemma preserves_untouched_next_number :
  preserves (fun m => untouched ks o0 (self m)) Sweep.next_number.
Proof. intros m H. exact H. Qed.

Lemma preserves_untouched_conjugate_draw conjugate (param : string) :
  param ∉ ks ->
  preserves (fun m => untouched ks o0 (self m)) (Sweep.conjugate_draw conjugate param).
Proof.
  intros Hp m [Htr Hcur]. unfold Sweep.conjugate_draw, bind, attr.
  destruct (state (self m)) as [st|] eqn:Hst; simpl; [|split; assumption].
  destruct (conjugate param st (random m)) as [v rs]. simpl.
  split; [exact Htr|]. intros k Hk. rewrite <- (Hcur k Hk).
  unfold current. simpl. rewrite Hst. apply lookup_insert_ne. intros ->. contradiction.
Qed.

End Untouched.

Ltac keeps_names :=
  repeat first
    [ apply preserves_ret | apply preserves_raise | apply preserves_lift
    | apply preserves_attr | apply preserves_state_attr | apply preserves_load_name
    | apply preserves_untouched_state_update; reflexivity
    | apply preserves_untouched_set_configs | apply preserves_untouched_set_cycles
    | apply preserves_untouched_call | apply preserves_untouched_next_number
    | apply preserves_bind; [|intros ?]
    | match goal with |- preserves _ (match ?x with _ => _ end) => destruct x end ].

Lemma _setup_data_keeps (C : collaborators) (ks : list string) (o0 : estimator) (hypers : NS) :
  apart ks [("In", VNone); ("Ij", VNone); ("Sigma2_s0", VNone); ("Sigma2_v0", VNone);
            ("Betas_cov0", VNone); ("Betas_mean0", VNone); ("Tau2_s0", VNone);
            ("Tau2_v0", VNone); ("Gammas_cov0", VNone); ("Gammas_mean0", VNone);
            ("Betas_covm", VNone); ("Gammas_covm", VNone); ("Tau2_prod", VNone);
            ("Sigma2_prod", VNone); ("XtX", VNone); ("ZtZ", VNone);
            ("DeltatDelta", VNone)] = true ->
  preserves (fun m => untouched ks o0 (self m)) (Base_HSDM._setup_data C hypers).
Proof.
  intros Hks. unfold Base_HSDM._setup_data.
  repeat first
    [ apply preserves_ret | apply preserves_lift | apply preserves_state_attr
    | apply preserves_untouched_state_update; exact Hks
    | apply preserves_bind; [|intros ?]
    | match goal with |- preserves _ (match ?x with _ => _ end) => destruct x end ].
Qed.

Lemma _setup_configs_keeps (ks : list string) (o0 : estimator) (kw : NS) :
  preserves (fun m => untouched ks o0 (self m)) (Base_HSDM._setup_configs kw).
Proof. unfold Base_HSDM._setup_configs. keeps_names. Qed.

Lemma _setup_truncation_keeps_J (C : collaborators) (o0 : estimator) :
  preserves (fun m => untouched ["J"] o0 (self m)) (Base_HSDM._setup_truncation C).
Proof. unfold Base_HSDM._setup_truncation. keeps_names. Qed.

Lemma _setup_initial_values_keeps_bounds (C : collaborators) (o0 : estimator) :
  preserves (fun m => untouched ["J"; "Rho_min"; "Rho_max"] o0 (self m))
            (Base_HSDM._setup_initial_values C).
Proof. unfold Base_HSDM._setup_initial_values. keeps_names. Qed.

(** ** Rho under the sweep of the specification *)

Lemma bind_reads {A B : Type} (G : machine -> Prop) (c : Py A) (k : A -> Py B) (m : machine) :
  snd (c m) = m -> G m -> (forall a, c m = (Ok a, m) -> G (snd (k a m))) ->
  G (snd (bind c k m)).
Proof.
  intros Hc HG Hk. unfold bind. destruct (c m) as [[a|e] m1]; simpl in *; subst; auto.
Qed.

Lemma state_attr_reads (k : string) (m : machine) : snd (state_attr k m) = m.
Proof.
  unfold state_attr, bind, attr. destruct (state (self m)) as [st|]; [|reflexivity].
  destruct (st !! k); reflexivity.
Qed.

Lemma attr_reads {A : Type} (name : string) (proj : estimator -> option A) (m : machine) :
  snd (attr name proj m) = m.
Proof. unfold attr. destruct (proj (self m)); reflexivity. Qed.

Lemma number_Ok (v : value) (x : float) :
  Sweep.number v = Ok x -> exists k, as_float v = Some (x, k).
Proof.
  unfold Sweep.number. destruct (as_float v) as [[y k]|]; [|discriminate].
  intros [= <-]. eauto.
Qed.

Lemma Rho_kept_untouched (lo hi : value) (J : Z) (o o' : estimator) :
  untouched ["J"; "Rho_min"; "Rho_max"; "Rho"] o o' ->
  Rho_kept lo hi J o -> Rho_kept lo hi J o'.
Proof.
  intros [Htr Hcur] (HJ & Hlo & Hhi & Hrho & Hrec).
  unfold Rho_kept.
  rewrite (Hcur "J"), (Hcur "Rho_min"), (Hcur "Rho_max"), (Hcur "Rho")
    by (apply list_elem_of_In; simpl; tauto).
  repeat split; try assumption.
  unfold recorded. rewrite Htr. exact Hrec.
Qed.

Lemma preserves_Rho_kept {A : Type} (lo hi : value) (J : Z) (c : Py A) :
  (forall o0, preserves (fun m => untouched ["J"; "Rho_min"; "Rho_max"; "Rho"] o0 (self m)) c) ->
  preserves (fun m => Rho_kept lo hi J (self m)) c.
Proof.
  intros H m HI. apply (Rho_kept_untouched lo hi J (self m)); [|exact HI].
  apply (H (self m) m). apply untouched_refl.
Qed.

Section Sweep_keeps_Rho.
Variable C : collaborators.
Variable conjugate : string -> NS -> RandomState -> value * RandomState.
Variable posterior_ratio : NS -> float -> float.
Variable adapted : rho_configs -> value.
Variables lo hi : value.
Variable J : Z.

Lemma metropolis_Rho_keeps :
  preserves (fun m => Rho_kept lo hi J (self m)) (Sweep.metropolis_Rho posterior_ratio).
Proof.
  intros m HI. unfold Sweep.metropolis_Rho.
  apply bind_reads; [apply state_attr_reads | exact HI | intros v0 _].
  apply bind_reads; [reflexivity | exact HI | intros rho _].
  apply bind_reads; [apply attr_reads | exact HI | intros cf _].
  apply bind_reads; [reflexivity | exact HI | intros scale _].
  apply bind_reads; [apply state_attr_reads | exact HI | intros vmin Emin].
  apply state_attr_Ok in Emin as [Emin _].
  apply bind_reads; [reflexivity | exact HI | intros a Ea].
  apply lift_Ok in Ea as [Ea _]. apply number_Ok in Ea as [ka Ea].
  apply bind_reads; [apply state_attr_reads | exact HI | intros vmax Emax].
  apply state_attr_Ok in Emax as [Emax _].
  apply bind_reads; [reflexivity | exact HI | intros b Eb].
  apply lift_Ok in Eb as [Eb _]. apply number_Ok in Eb as [kb Eb].
  assert (vmin = lo) as -> by (destruct HI as (_ & Hlo & _); congruence).
  assert (vmax = hi) as -> by (destruct HI as (_ & _ & Hhi & _); congruence).
  unfold bind at 1. unfold Sweep.next_number at 1. cbv beta iota.
  set (eps := stream (random m) (position (random m))).
  set (x := PrimFloat.add rho (PrimFloat.mul scale eps)).
  destruct (Sweep.in_domain a b x) eqn:Hdom; [|exact HI].
  apply andb_true_iff in Hdom as [Hax Hxb].
  unfold bind at 1. unfold attr at 1. cbn [self].
  destruct (state (self m)) as [st|] eqn:Hst; [|exact HI].
  cbv beta iota. unfold bind at 1. unfold Sweep.next_number at 1. cbv beta iota.
  match goal with |- context [if ?t then _ else _] => destruct t end; [|exact HI].
  erewrite bind_then; [|apply state_update_returns; exact Hst].
  destruct HI as (HJ & Hlo & Hhi & Hrho & Hrec).
  unfold Rho_kept, current, recorded in *. simpl. rewrite Hst in *.
  rewrite !lookup_insert_ne by discriminate. rewrite lookup_insert_eq.
  repeat split; try assumption.
  exists (VFloat x). split; [reflexivity|]. right.
  exists x, a, b, ka, kb. repeat split; assumption.
Qed.

Lemma advance_keeps :
  preserves (fun m => Rho_kept lo hi J (self m))
            (Sweep.advance C conjugate posterior_ratio adapted).
Proof.
  unfold Sweep.advance. apply preserves_bind.
  { simpl. repeat (apply preserves_bind; [|intros _]); try apply preserves_ret;
      apply preserves_Rho_kept; intros o0;
      apply preserves_untouched_conjugate_draw;
      intros H; apply list_elem_of_In in H; simpl in H; intuition discriminate. }
  intros _. apply preserves_bind; [apply metropolis_Rho_keeps|].
  intros _. apply preserves_bind.
  { apply preserves_Rho_kept. intros o0. unfold Sweep.recompute. keeps_names. }
  intros _. apply preserves_Rho_kept. intros o0. keeps_names.
Qed.

Lemma sweep_keeps (o : estimator) (rs : RandomState) :
  Rho_kept lo hi J o ->
  Rho_kept lo hi J
    (fst (snd (sample (Sweep.with_sweep C conjugate posterior_ratio adapted) o rs))).
Proof.
  intros HI. simpl. unfold Sweep.as_sample.
  pose proof (advance_keeps {| self := o; lists := ∅; events := []; random := rs |} HI) as H.
  destruct (Sweep.advance C conjugate posterior_ratio adapted _) as [r m']. exact H.
Qed.

Lemma appended_keeps (p : string) (o o' : estimator) :
  Rho_kept lo hi J o -> appended p o = Ok o' -> Rho_kept lo hi J o'.
Proof.
  intros (HJ & Hlo & Hhi & (r & Hr & Hok) & Hrec) H.
  destruct (appended_Ok _ _ _ H) as (l & v & Hl & Hv & Hl' & Hother & Hst & _).
  unfold Rho_kept, current in *. rewrite Hst.
  repeat split; try assumption; [eauto|].
  intros vs w Hvs Hw.
  destruct (decide (p = "Rho")) as [->|Hne].
  - rewrite Hl' in Hvs. injection Hvs as <-.
    apply elem_of_app in Hw as [Hw|Hw]; [apply (Hrec l w Hl Hw)|].
    apply list_elem_of_singleton in Hw as ->. congruence.
  - rewrite Hother in Hvs by congruence. apply (Hrec vs w Hvs Hw).
Qed.

Lemma sample_keeps_Rho (n : Z) :
  preserves (fun m => Rho_kept lo hi J (self m))
    (Base_HSDM.sample (Sweep.with_sweep C conjugate posterior_ratio adapted) n false).
Proof.
  apply preserves_sample_keep.
  - apply (preserves_draw _ (Rho_kept lo hi J)).
    + intros o rs. apply sweep_keeps.
    + intros p o o'. apply appended_keeps.
  - intros e. apply (preserves_record_on_self (Rho_kept lo hi J)).
Qed.

End Sweep_keeps_Rho.

Lemma _setup_truncation_Ok (C : collaborators) (m m' : machine) :
  Base_HSDM._setup_truncation C m = (Ok tt, m') ->
  exists lo hi, current "Rho_min" (self m') = Some lo /\ current "Rho_max" (self m') = Some hi.
Proof.
  intros H. unfold Base_HSDM._setup_truncation in H. run_inv H.
  apply bind_Ok in H as ([e_min e_max] & ? & H1 & H). apply call_Ok in H1 as [_ ->].
  run_inv H.
  apply bind_Ok in H as ([] & ? & H1 & H). apply state_update_Ok in H1 as (st & Hst & ->).
  run_inv H.
  apply state_update_Ok in H as (st' & Hst' & ->).
  simpl in Hst, Hst'. injection Hst' as <-.
  exists v0, v1. unfold current. simpl. split.
  - rewrite lookup_insert_ne by discriminate. apply lookup_insert_eq.
  - apply lookup_insert_eq.
Qed.

Lemma ns_update_empty_only (params : list string) (p : string) (vs : list value)
    (acc : gmap string (list value)) :
  ns_update ((fun k => (k, [])) <$> params) acc !! p = Some vs ->
  acc !! p = Some vs \/ vs = [].
Proof.
  unfold ns_update. revert acc. induction params as [|k ks IH]; intros acc H; simpl in H.
  - left. exact H.
  - apply IH in H as [H|H]; [|right; exact H].
    destruct (decide (k = p)) as [->|Hne].
    + rewrite lookup_insert_eq in H. right. congruence.
    + rewrite lookup_insert_ne in H by exact Hne. left. exact H.
Qed.

(** Where Rho stands when the set-up is done and sampling is about to
    start. *)
Lemma Rho_kept_before_sampling (C : collaborators) (y X W M Z Delta : value)
    (N J p q : BinNums.Z) (params : list string) (hypers leftovers : NS)
    (m m1 m2 m3 m4 : machine) :
  Base_HSDM._setup_data C hypers (after_line_36 y X W M Z Delta N J p q params m)
  = (Ok leftovers, m1) ->
  Base_HSDM._setup_configs leftovers m1 = (Ok tt, m2) ->
  Base_HSDM._setup_truncation C m2 = (Ok tt, m3) ->
  Base_HSDM._setup_initial_values C m3 = (Ok tt, m4) ->
  exists lo hi, Rho_kept lo hi J (self m4).
Proof.
  intros H1 H2 H3 H4.
  set (m0 := after_line_36 y X W M Z Delta N J p q params m) in *.
  assert (HJ0 : current "J" (self m0) = Some (VInt J)) by reflexivity.
  pose proof (_setup_data_keeps C ["J"] (self m0) hypers eq_refl m0 (untouched_refl _ _)) as K1.
  rewrite H1 in K1. cbn [snd] in K1.
  pose proof (_setup_configs_keeps ["J"] (self m0) leftovers m1 K1) as K2.
  rewrite H2 in K2. cbn [snd] in K2.
  pose proof (_setup_truncation_keeps_J C (self m0) m2 K2) as K3.
  rewrite H3 in K3. cbn [snd] in K3.
  assert (HJ3 : current "J" (self m3) = Some (VInt J)).
  { destruct K3 as [_ K3]. rewrite K3; [exact HJ0 | apply list_elem_of_In; simpl; tauto]. }
  destruct (_setup_truncation_Ok C m2 m3 H3) as (lo & hi & Hlo & Hhi).
  pose proof (_setup_initial_values_keeps_bounds C (self m3) m3 (untouched_refl _ _)) as K4.
  rewrite H4 in K4. cbn [snd] in K4. destruct K4 as [_ K4].
  destruct (from_line_36_to_sample C _ _ _ _ _ _ _ H1 H2 H3 H4) as (Htr & _).
  destruct (_setup_initial_values_Ok C m3 m4 H4)
    as (st & pv & qv & Jv & Betas & Gammas & Alphas & J_1 & rho & B & DA & XB & ZG & BZG &
        Hst & _ & _ & HJv & _ & _ & _ & HJ1 & Hrho & Hm4).
  assert (Jv = VInt J) as ->.
  { unfold current in HJ3. rewrite Hst in HJ3. congruence. }
  rewrite (initial_Rho C J J_1 rho HJ1 Hrho) in Hm4.
  exists lo, hi. unfold Rho_kept.
  rewrite (K4 "J"), (K4 "Rho_min"), (K4 "Rho_max") by (apply list_elem_of_In; simpl; tauto).
  repeat split; try assumption.
  - exists (Rho_at_start J). split; [|left; reflexivity].
    rewrite Hm4. unfold current. simpl. simplify_map_eq. reflexivity.
  - intros vs v Hvs Hv. unfold recorded in Hvs. rewrite Htr in Hvs. simpl in Hvs.
    apply ns_update_empty_only in Hvs as [Hvs| ->]; [|inversion Hv].
    rewrite lookup_empty in Hvs. discriminate.
Qed.

(** C1, as amended: with the sweep of the specification, when construction
    has returned (its draws completed) the estimator has the bounds Rho_min
    and Rho_max that [_setup_truncation] stored; its Rho, and every Rho it
    recorded at the end of a draw, is either still the starting value
    -1.0/(J - 1) or strictly inside (Rho_min, Rho_max); and so it remains,
    under the same bounds, after any further call of [sample], for any
    number of draws.  So whenever the starting value is itself strictly
    inside the bounds, the Rho of the estimator and every Rho it has
    recorded is strictly inside them, at the return of the construction and
    after any further draws. *)
Theorem Rho_inside_bounds_or_at_start (C : collaborators)
    (conjugate : string -> NS -> RandomState -> value * RandomState)
    (posterior_ratio : NS -> float -> float) (adapted : rho_configs -> value)
    (y X W M : value) (kw : HSDM.keywords) (m m' : machine) (o : estimator) :
  HSDM.HSDM (Sweep.with_sweep C conjugate posterior_ratio adapted) y X W M kw m = (Ok o, m') ->
  exists lo hi J,
    Rho_kept lo hi J o /\
    (forall n,
      Rho_kept lo hi J
        (self (snd (Base_HSDM.sample (Sweep.with_sweep C conjugate posterior_ratio adapted)
                      n false m')))) /\
    (inside lo hi (Rho_at_start J) ->
     Rho_within lo hi o /\
     forall n,
       Rho_within lo hi
         (self (snd (Base_HSDM.sample (Sweep.with_sweep C conjugate posterior_ratio adapted)
                       n false m')))).
Proof.
  intros H. unfold HSDM.HSDM in H. apply new_Ok in H as [H ->].
  apply HSDM_init_Ok in H
    as (W' & M' & N & J & p & Wmat & Mmat & Delta' & membership' & X' &
        _ & _ & _ & _ & _ & _ & _ & _ & H).
  apply Base_HSDM_init_Ok in H
    as (N' & p' & J' & c & _J & q & ps & leftovers & m1 & m2 & m3 & m4 &
        _ & _ & _ & _ & _ & H1 & H2 & H3 & H4 & H5).
  edestruct Rho_kept_before_sampling as (lo & hi & HI);
    [exact H1 | exact H2 | exact H3 | exact H4 |].
  exists lo, hi, J'.
  assert (HI' : Rho_kept lo hi J' (self m')).
  { pose proof (sample_keeps_Rho C conjugate posterior_ratio adapted lo hi J'
                  (HSDM.n_samples_of kw)
                  (with_estimator (set_cycles (VInt 0) (self m4)) m4) HI) as K.
    rewrite H5 in K. exact K. }
  assert (Hall : forall n,
             Rho_kept lo hi J'
               (self (snd (Base_HSDM.sample
                             (Sweep.with_sweep C conjugate posterior_ratio adapted)
                             n false m')))).
  { intros n.
    apply (sample_keeps_Rho C conjugate posterior_ratio adapted lo hi J' n m' HI'). }
  split; [exact HI'|]. split; [exact Hall|].
  intros Hstart.
  assert (Hwithin : forall o', Rho_kept lo hi J' o' -> Rho_within lo hi o').
  { intros o' (_ & _ & _ & (r & Hr & Hcase) & Hrec). split.
    - exists r. split; [exact Hr|]. destruct Hcase as [->|Hin]; assumption.
    - intros vs v Hvs Hv. destruct (Hrec vs v Hvs Hv) as [->|Hin]; assumption. }
  split; [apply Hwithin; exact HI'|]. intros n. apply Hwithin, Hall.
Qed.

(** ** The properties on small inputs *)

Lemma SAMPLERS_at_import_NoDup : NoDup SAMPLERS_at_import.
Proof. apply (bool_decide_eq_true_1 (NoDup SAMPLERS_at_import)). vm_compute. reflexivity. Qed.

Lemma redraw_Rho_leaves_driver_alone : leaves_driver_alone Reference.redraw_Rho.
Proof. intros o rs. unfold Reference.redraw_Rho. simpl. destruct (state o); auto. Qed.

Lemma completed_returned {A : Type} (d : A) (r : result A * machine) :
  completed r = true -> r = (Ok (returned d r), snd r).
Proof. destruct r as [[a|e] m]; [reflexivity | discriminate]. Qed.

Lemma ignores_configs_lift {A : Type} (r : result A) : ignores_configs (lift r).
Proof. intros m cf. reflexivity. Qed.

Lemma ignores_configs_bind {A B : Type} (c : Py A) (k : A -> Py B) :
  ignores_configs c -> (forall a, ignores_configs (k a)) -> ignores_configs (bind c k).
Proof.
  intros Hc Hk m cf. unfold bind. rewrite (Hc m cf).
  destruct (c m) as [[a|e] m1]; simpl; [|reflexivity].
  rewrite (Hk a m1 cf). destruct (k a m1) as [r m2]. reflexivity.
Qed.

Lemma ignores_configs_state_attr (k : string) : ignores_configs (state_attr k).
Proof.
  intros m cf. unfold state_attr, bind, attr. simpl.
  destruct (state (self m)) as [st|]; [|reflexivity].
  destruct (st !! k); reflexivity.
Qed.

Lemma ignores_configs_state_update (d : list (string * value)) :
  ignores_configs (state_update d).
Proof.
  intros m cf. unfold state_update, bind, attr. simpl.
  destruct (state (self m)) as [st|]; reflexivity.
Qed.

Lemma ignores_configs_call {A : Type} (f : string) (r : result A) :
  ignores_configs (call f r).
Proof. intros m cf. unfold call, bind, record, lift. simpl. destruct r; reflexivity. Qed.

Lemma _setup_truncation_ignores_configs (C : collaborators) :
  ignores_configs (Base_HSDM._setup_truncation C).
Proof.
  unfold Base_HSDM._setup_truncation.
  repeat first
    [ apply ignores_configs_state_update | apply ignores_configs_state_attr
    | apply ignores_configs_lift | apply ignores_configs_call
    | apply ignores_configs_bind; [|intros ?]
    | match goal with |- ignores_configs (match ?x with _ => _ end) => destruct x end ].
Qed.

(** C2 (what the code does): the option truncate is stored and never read.
    [_setup_truncation] does the same whatever the configuration holds.
    With truncate=(-0.5, 0.5) and the weights [[0, 1], [1, 0]] construction
    completes with the reciprocals -1 and 1 of the eigenvalues for bounds,
    not the pair given; with truncate='stable' and the weights
    [[0, 2], [2, 0]] the bounds are -0.5 and 0.5, not -1 and 1. *)
Theorem truncate_is_never_read :
  (forall C : collaborators, ignores_configs (Base_HSDM._setup_truncation C)) /\
  (completed Reference.built_with_pair = true /\
   truncate <$> configs (returned new_object Reference.built_with_pair)
   = Some (VPair (VFloat (-0.5)) (VFloat 0.5)) /\
   current "Rho_min" (returned new_object Reference.built_with_pair) = Some (VFloat64 (-1)) /\
   current "Rho_max" (returned new_object Reference.built_with_pair) = Some (VFloat64 1)) /\
  (completed Reference.built_stable = true /\
   truncate <$> configs (returned new_object Reference.built_stable) = Some (VStr "stable") /\
   current "Rho_min" (returned new_object Reference.built_stable) = Some (VFloat64 (-0.5)) /\
   current "Rho_max" (returned new_object Reference.built_stable) = Some (VFloat64 0.5)).
Proof.
  split; [exact _setup_truncation_ignores_configs|].
  repeat split; reflexivity.
Qed.

(** C1: the theorem on two groups of two units whose group weights have
    the eigenvalues -0.5 and 0.5, three draws of the sweep of the
    specification, the stream yielding 0.25: the bounds are -2 and 2, the
    starting value -1 is inside them, and so is every Rho of the run and of
    any further draws. *)
Lemma Rho_inside_bounds_or_at_start_witness :
  completed (Reference.built_on_weak_weights 3 0.25%float) = true /\
  inside (VFloat64 (-2)) (VFloat64 2) (Rho_at_start 2) /\
  Rho_within (VFloat64 (-2)) (VFloat64 2)
    (returned new_object (Reference.built_on_weak_weights 3 0.25%float)) /\
  forall n,
    Rho_within (VFloat64 (-2)) (VFloat64 2)
      (self (snd (Base_HSDM.sample Reference.with_spec_sweep n false
                    (snd (Reference.built_on_weak_weights 3 0.25%float))))).
Proof.
  assert (Hrun : completed (Reference.built_on_weak_weights 3 0.25%float) = true)
    by reflexivity.
  assert (Hstart : inside (VFloat64 (-2)) (VFloat64 2) (Rho_at_start 2)).
  { exists (-1)%float, (-2)%float, 2%float, true, true. repeat split; reflexivity. }
  assert (HJ : current "J" (returned new_object (Reference.built_on_weak_weights 3 0.25%float))
               = Some (VInt 2)) by reflexivity.
  assert (Hlo : current "Rho_min"
                  (returned new_object (Reference.built_on_weak_weights 3 0.25%float))
                = Some (VFloat64 (-2))) by reflexivity.
  assert (Hhi : current "Rho_max"
                  (returned new_object (Reference.built_on_weak_weights 3 0.25%float))
                = Some (VFloat64 2)) by reflexivity.
  split; [exact Hrun|]. split; [exact Hstart|].
  destruct (Rho_inside_bounds_or_at_start Reference.plain _ _ _ _ _ _ _ _ _ _ _
              (completed_returned new_object
                 (Reference.built_on_weak_weights 3 0.25%float) Hrun))
    as (lo & hi & J & (HJ' & Hlo' & Hhi' & _) & _ & Hin).
  rewrite HJ in HJ'. rewrite Hlo in Hlo'. rewrite Hhi in Hhi'.
  injection HJ' as <-. injection Hlo' as <-. injection Hhi' as <-.
  exact (Hin Hstart).
Defined.

(** C1, the claim as it stands fails: with two groups the starting value
    -1.0/(2 - 1) is the lower bound 1/(-1) itself.  The stream yielding -1,
    the first proposal -1.5 falls outside the bounds and is rejected, so the
    one completed draw ends, and is recorded, with Rho = Rho_min: not
    inside the bounds. *)
Lemma Rho_on_its_lower_bound_after_a_draw :
  completed (Reference.built_with_sweep 1 (-1)%float) = true /\
  calls "sample" (events (snd (Reference.built_with_sweep 1 (-1)%float))) = 1%nat /\
  current "J" (returned new_object (Reference.built_with_sweep 1 (-1)%float))
  = Some (VInt 2) /\
  current "Rho_min" (returned new_object (Reference.built_with_sweep 1 (-1)%float))
  = Some (VFloat64 (-1)) /\
  current "Rho_max" (returned new_object (Reference.built_with_sweep 1 (-1)%float))
  = Some (VFloat64 1) /\
  recorded "Rho" (returned new_object (Reference.built_with_sweep 1 (-1)%float))
  = Some [VFloat (-1)] /\
  PrimFloat.ltb (-1) (-1) = false /\
  ~ inside (VFloat64 (-1)) (VFloat64 1) (VFloat (-1)).
Proof.
  repeat split; try reflexivity.
  intros (x & a & b & ka & kb & Hx & Ha & Hb & Hax & Hxb).
  injection Hx as <-. injection Ha as <- _. discriminate Hax.
Qed.

(** C3: the theorem on the weights [[0, 1], [1, 0]], whose eigenvalues are
    -1 and 1. *)
Lemma truncation_bounds_are_reciprocals_witness :
  speigen_range Reference.plain (VSparse Reference.M2_sparse)
  = Ok (VFloat64 (-1), VFloat64 1) /\
  exists m',
    Base_HSDM._setup_truncation Reference.plain Reference.ready = (Ok tt, m') /\
    current "Rho_min" (self m') = Some (VFloat64 (-1)) /\
    current "Rho_max" (self m') = Some (VFloat64 1).
Proof.
  assert (Hst : state (self Reference.ready) = Some Reference.ready_state) by reflexivity.
  assert (HM : Reference.ready_state !! "M"
               = Some (VSparse Reference.M2_sparse)) by reflexivity.
  assert (He : speigen_range Reference.plain
                 (VSparse Reference.M2_sparse)
               = Ok (VFloat64 (-1), VFloat64 1)) by reflexivity.
  split; [exact He|].
  exact (truncation_bounds_are_reciprocals Reference.plain Reference.ready
           Reference.ready_state (VSparse Reference.M2_sparse)
           (VFloat64 (-1)) (VFloat64 1) (-1)%float 1%float true true
           Hst HM He eq_refl eq_refl eq_refl eq_refl).
Defined.



(** C5: the theorem on two groups of two units with one covariate at each
    level. *)
Lemma initial_values_are_fixed_witness :
  current "Betas"
    (self (snd (Base_HSDM._setup_initial_values Reference.plain Reference.ready)))
  = Some (VArray (zeros 1 1)) /\
  current "Gammas"
    (self (snd (Base_HSDM._setup_initial_values Reference.plain Reference.ready)))
  = Some (VArray (zeros 1 1)) /\
  current "Alphas"
    (self (snd (Base_HSDM._setup_initial_values Reference.plain Reference.ready)))
  = Some (VArray (zeros 2 1)) /\
  current "Sigma2"
    (self (snd (Base_HSDM._setup_initial_values Reference.plain Reference.ready)))
  = Some (VInt 2) /\
  current "Tau2"
    (self (snd (Base_HSDM._setup_initial_values Reference.plain Reference.ready)))
  = Some (VInt 2) /\
  current "Rho"
    (self (snd (Base_HSDM._setup_initial_values Reference.plain Reference.ready)))
  = Some (VFloat (PrimFloat.div (-1) (float_of_Z (2 - 1)))) /\
  forall m2, self m2 = self Reference.ready ->
    Base_HSDM._setup_initial_values Reference.plain m2
    = (Ok tt,
       with_estimator
         (self (snd (Base_HSDM._setup_initial_values Reference.plain Reference.ready))) m2).
Proof.
  assert (Hst : state (self Reference.ready) = Some Reference.ready_state) by reflexivity.
  assert (Hp : Reference.ready_state !! "p" = Some (VInt 1)) by reflexivity.
  assert (Hq : Reference.ready_state !! "q" = Some (VInt 1)) by reflexivity.
  assert (HJ : Reference.ready_state !! "J" = Some (VInt 2)) by reflexivity.
  assert (Hrun : Base_HSDM._setup_initial_values Reference.plain Reference.ready
                 = (Ok tt, snd (Base_HSDM._setup_initial_values Reference.plain
                                  Reference.ready))).
  { apply (completed_returned tt). reflexivity. }
  exact (initial_values_are_fixed Reference.plain Reference.ready
           (snd (Base_HSDM._setup_initial_values Reference.plain Reference.ready))
           Reference.ready_state 1 1 2 Hst Hp Hq HJ Hrun).
Defined.

Lemma among_SAMPLERS (P : string -> Prop) :
  P "Alphas" -> P "Betas" -> P "Sigma2" -> P "Tau2" -> P "Gammas" -> P "Rho" ->
  forall p, p ∈ SAMPLERS_at_import -> P p.
Proof.
  intros H1 H2 H3 H4 H5 H6 p Hp. unfold SAMPLERS_at_import in Hp.
  repeat (apply elem_of_cons in Hp as [->|Hp]; [assumption|]). inversion Hp.
Qed.

Lemma redraw_Rho_returns_within : returns_within holds_SAMPLERS Reference.redraw_Rho.
Proof.
  intros o rs H. split; [reflexivity|]. intros p Hp. destruct (H p Hp) as [v Hv].
  unfold Reference.redraw_Rho, current in *. simpl.
  destruct (state o) as [st|]; [|discriminate]. simpl.
  destruct (decide (p = "Rho")) as [->|Hne].
  - rewrite lookup_insert_eq. eauto.
  - rewrite lookup_insert_ne by congruence. eauto.
Qed.

Lemma ready_holds_SAMPLERS : holds_SAMPLERS (self Reference.ready).
Proof.
  refine (among_SAMPLERS (fun p => is_Some (current p (self Reference.ready))) _ _ _ _ _ _);
    match goal with |- is_Some ?x => apply (bool_decide_eq_true_1 (is_Some x)) end;
    reflexivity.
Qed.

Lemma ready_has_recorded_nothing (p : string) :
  p ∈ SAMPLERS_at_import -> recorded p (self Reference.ready) = Some [].
Proof.
  revert p.
  refine (among_SAMPLERS (fun p => recorded p (self Reference.ready) = Some []) _ _ _ _ _ _);
    reflexivity.
Qed.

Lemma drawn_holds_SAMPLERS : holds_SAMPLERS (self (snd (Reference.built 2))).
Proof.
  refine (among_SAMPLERS (fun p => is_Some (current p (self (snd (Reference.built 2)))))
            _ _ _ _ _ _);
    match goal with |- is_Some ?x => apply (bool_decide_eq_true_1 (is_Some x)) end;
    reflexivity.
Qed.

Lemma drawn_has_recorded (p : string) :
  p ∈ SAMPLERS_at_import -> is_Some (recorded p (self (snd (Reference.built 2)))).
Proof.
  revert p.
  refine (among_SAMPLERS (fun p => is_Some (recorded p (self (snd (Reference.built 2)))))
            _ _ _ _ _ _);
    match goal with |- is_Some ?x => apply (bool_decide_eq_true_1 (is_Some x)) end;
    reflexivity.
Qed.

(** C6: the theorem on an estimator built with two draws, whose trace
    holds two values for each parameter, for three more draws of the sweep
    that moves Rho to the next number of the stream. *)
Lemma sample_draws_ndraws_times_witness :
  exists m',
    Base_HSDM.sample Reference.plain 3 false (snd (Reference.built 2)) = (Ok None, m') /\
    calls "sample" (events m')
    = (calls "sample" (events (snd (Reference.built 2))) + Z.to_nat 3)%nat /\
    (forall p l0, p ∈ SAMPLERS_at_import ->
       recorded p (self (snd (Reference.built 2))) = Some l0 ->
       exists vs, recorded p (self m') = Some (l0 ++ vs) /\
                  length vs = Z.to_nat 3 /\
                  Some <$> vs =
                  current p <$> sweeps (sample Reference.plain) SAMPLERS_at_import (Z.to_nat 3)
                                       (self (snd (Reference.built 2)))
                                       (random (snd (Reference.built 2)))) /\
    (forall p, p ∈ SAMPLERS_at_import ->
       recorded p (self (snd (Reference.built 2))) = Some [] ->
       exists vs, recorded p (self m') = Some vs /\ length vs = Z.to_nat 3).
Proof.
  assert (Hn : 0 <= 3) by lia.
  assert (Hv : _verbose (self (snd (Reference.built 2))) = Some (VBool false)) by reflexivity.
  assert (Hgt : py_gt (VBool false) 1 = Ok false) by reflexivity.
  assert (Htp : traced_params (self (snd (Reference.built 2))) = Some SAMPLERS)
    by reflexivity.
  assert (Hl : lists (snd (Reference.built 2)) !! SAMPLERS = Some SAMPLERS_at_import)
    by reflexivity.
  exact (sample_draws_ndraws_times Reference.plain holds_SAMPLERS SAMPLERS
           SAMPLERS_at_import (VBool false) false 3 (snd (Reference.built 2))
           Hn redraw_Rho_leaves_driver_alone redraw_Rho_returns_within
           (fun o t H => H) (fun o p H Hp => H p Hp) drawn_holds_SAMPLERS
           Hv Hgt Htp Hl SAMPLERS_at_import_NoDup drawn_has_recorded).
Defined.

(** C8: the theorem on covariates for three units and weights for four. *)
Lemma mismatch_of_X_and_W_is_refused_witness :
  HSDM.mismatch 3 4
  = "Number of lower-level observations does not match between X (3) and W (4)" /\
  exists m',
    HSDM.HSDM Reference.plain Reference.y4 Reference.X3 Reference.W4 Reference.M2
      (Reference.keywords42 0 ∅) Reference.imported
    = (Raise (UserWarning (HSDM.mismatch 3 4)), m') /\
    HSDM.mismatch 3 4 =
      "Number of lower-level observations does not match between X ("
      +:+ pretty 3 +:+ ") and W (" +:+ pretty 4 +:+ ")" /\
    self m' = set_M Reference.M2 (set_W Reference.W4 new_object) /\
    state (self m') = None /\ trace (self m') = None /\
    events m' = events Reference.imported ++ [Called "verify.weights"].
Proof.
  assert (Hne : 3 <> 4) by discriminate.
  split; [reflexivity|].
  exact (mismatch_of_X_and_W_is_refused Reference.plain Reference.y4 Reference.X3
           Reference.W4 Reference.M2 (Reference.keywords42 0 ∅) Reference.imported
           Reference.W4 Reference.M2 4 2 3 1 eq_refl eq_refl eq_refl eq_refl Hne).
Defined.

(** C9: the theorem on two groups of two units, with
    extra_tracked_params='B' and without it. *)
Lemma extra_tracked_params_cannot_be_given_witness :
  (exists m',
      new (Base_HSDM.__init__ Reference.plain Reference.y4 Reference.X4
             (VSparse Reference.W4_sparse) (VSparse Reference.M2_sparse)
             Reference.Z2 Reference.Delta42 3 {[ "extra_tracked_params" := VStr "B" ]})
          Reference.imported
      = (Raise (NameError "extra_tracked_params"), m') /\
      lists m' = lists Reference.imported /\ events m' = events Reference.imported) /\
  (exists m',
      Reference.built_with_extras = (Raise (NameError "extra_tracked_params"), m') /\
      lists m' = lists Reference.imported /\
      calls "sample" (events m') = calls "sample" (events Reference.imported)) /\
  (forall o m', Reference.built_with_extras <> (Ok o, m')) /\
  (traced_params (returned new_object (Reference.built 3)) = Some SAMPLERS /\
   lists (snd (Reference.built 3)) = lists Reference.imported).
Proof.
  assert (Hv : ({[ "extra_tracked_params" := VStr "B" ]} : NS) !! "extra_tracked_params"
               = Some (VStr "B")) by reflexivity.
  assert (Hne : VStr "B" <> VNone) by discriminate.
  assert (Hrun : completed (Reference.built 3) = true) by reflexivity.
  destruct extra_tracked_params_cannot_be_given as (P1 & P1' & P2 & P3).
  split; [|split; [|split]].
  - exact (P1 Reference.plain Reference.y4 Reference.X4 (VSparse Reference.W4_sparse)
              (VSparse Reference.M2_sparse) Reference.imported
              Reference.Z2 Reference.Delta42 3 {[ "extra_tracked_params" := VStr "B" ]}
              (VStr "B") 4 1 2 2 2 1 Hv Hne eq_refl eq_refl eq_refl).
  - exact (P1' Reference.plain Reference.y4 Reference.X4 Reference.W4 Reference.M2
              (Reference.keywords42 3 {[ "extra_tracked_params" := VStr "B" ]})
              Reference.imported (VStr "B") Reference.W4 Reference.M2 Reference.Delta42
              VNone Reference.X4 4 2 1 4 1 2 1
              Hv Hne eq_refl eq_refl eq_refl eq_refl eq_refl eq_refl eq_refl eq_refl).
  - exact (P2 Reference.plain Reference.y4 Reference.X4 Reference.W4 Reference.M2
              (Reference.keywords42 3 {[ "extra_tracked_params" := VStr "B" ]})
              Reference.imported (VStr "B") Hv Hne).
  - exact (P3 Reference.plain Reference.y4 Reference.X4 Reference.W4 Reference.M2
              (Reference.keywords42 3 ∅) Reference.imported redraw_Rho_leaves_driver_alone
              (returned new_object (Reference.built 3)) (snd (Reference.built 3))
              (completed_returned new_object (Reference.built 3) Hrun)).
Defined.


(** * Further properties of the driver

    What the code shows beside the specification: how construction and
    sampling end on the edges of their input, what they leave alone, and
    how runs of [sample] compose. *)

(** ** More on the monad *)

Lemma bind_ext {A B : Type} (c : Py A) (k1 k2 : A -> Py B) (m : machine) :
  (forall a m1, c m = (Ok a, m1) -> k1 a m1 = k2 a m1) -> bind c k1 m = bind c k2 m.
Proof.
  intros H. unfold bind. destruct (c m) as [[a|e] m1]; [apply H|]; reflexivity.
Qed.

Lemma bind_ext_l {A B : Type} (c1 c2 : Py A) (k : A -> Py B) (m : machine) :
  c1 m = c2 m -> bind c1 k m = bind c2 k m.
Proof. unfold bind. intros ->. reflexivity. Qed.

Lemma bind_assoc {A B D : Type} (c : Py A) (k1 : A -> Py B) (k2 : B -> Py D) (m : machine) :
  bind (bind c k1) k2 m = bind c (fun a => bind (k1 a) k2) m.
Proof. unfold bind. destruct (c m) as [[a|e] m1]; reflexivity. Qed.

Lemma bind_returning {A B B' : Type} (f : B' -> B) (c : Py A) (k1 : A -> Py B)
    (k2 : A -> Py B') (m : machine) :
  (forall a m1, c m = (Ok a, m1) -> k1 a m1 = returning f (k2 a m1)) ->
  bind c k1 m = returning f (bind c k2 m).
Proof.
  intros H. unfold bind. destruct (c m) as [[a|e] m1]; [apply H|]; reflexivity.
Qed.

Lemma bind_of_returning {A A' B : Type} (f : A' -> A) (c1 : Py A) (c2 : Py A')
    (k : A -> Py B) (m : machine) :
  c1 m = returning f (c2 m) -> bind c1 k m = bind c2 (fun a => k (f a)) m.
Proof. unfold bind. intros ->. destruct (c2 m) as [[a|e] m1]; reflexivity. Qed.

Lemma preserves_list_contents (I : machine -> Prop) (l : loc) : preserves I (list_contents l).
Proof. intros m H. unfold list_contents. destruct (lists m !! l); exact H. Qed.

Lemma printed_app (evs evs' : list event) : printed (evs ++ evs') = printed evs ++ printed evs'.
Proof. apply omap_app. Qed.


(** ** What the set-up methods leave beside the state *)

Section Beside.
Variable C : collaborators.
Variable P : option value -> gmap loc (list string) -> list event -> RandomState -> Prop.

Lemma preserves_beside_state_update (d : list (string * value)) :
  preserves (beside_the_state P) (state_update d).
Proof.
  unfold state_update. apply preserves_bind; [apply preserves_attr|].
  intros st m H. exact H.
Qed.

Lemma preserves_beside__setup_data (hypers : NS) :
  preserves (beside_the_state P) (Base_HSDM._setup_data C hypers).
Proof.
  unfold Base_HSDM._setup_data.
  repeat first
    [ apply preserves_ret | apply preserves_lift | apply preserves_state_attr
    | apply preserves_beside_state_update
    | apply preserves_bind; [|intros ?]
    | match goal with |- preserves _ (match ?x with _ => _ end) => destruct x end ].
Qed.

Lemma preserves_beside__setup_configs (kw : NS) :
  preserves (beside_the_state P) (Base_HSDM._setup_configs kw).
Proof.
  unfold Base_HSDM._setup_configs.
  apply preserves_bind; [intros m H; exact H|]. intros _.
  apply preserves_bind; [apply preserves_lift|]. intros b m H. exact H.
Qed.

Lemma preserves_beside__setup_initial_values :
  preserves (beside_the_state P) (Base_HSDM._setup_initial_values C).
Proof.
  unfold Base_HSDM._setup_initial_values.
  repeat first
    [ apply preserves_ret | apply preserves_lift | apply preserves_state_attr
    | apply preserves_beside_state_update
    | apply preserves_bind; [|intros ?] ].
Qed.

Lemma preserves_beside_call {A : Type} (f : string) (r : result A) :
  (forall vb ls evs rs, P vb ls evs rs -> P vb ls (evs ++ [Called f]) rs) ->
  preserves (beside_the_state P) (call f r).
Proof. intros HP m H. apply HP. exact H. Qed.

Lemma preserves_beside__setup_truncation :
  (forall vb ls evs rs, P vb ls evs rs -> P vb ls (evs ++ [Called "speigen_range"]) rs) ->
  preserves (beside_the_state P) (Base_HSDM._setup_truncation C).
Proof.
  intros HP. unfold Base_HSDM._setup_truncation.
  apply preserves_bind; [apply preserves_state_attr|]. intros Mv.
  apply preserves_bind; [apply preserves_beside_call; exact HP|]. intros [e_min e_max].
  repeat first
    [ apply preserves_lift | apply preserves_beside_state_update
    | apply preserves_bind; [|intros ?] ].
Qed.

End Beside.

(** ** Construction without Z *)

Lemma Base_HSDM_init_without_Z (C : collaborators) (y X W Delta : value) (a : ndarray)
    (n : BinNums.Z) (cfg : NS) (m : machine) :
  Base_HSDM.__init__ C y X W (VSparse a) VNone Delta n cfg m
  = (Raise (AttributeError "shape"), m).
Proof.
  unfold Base_HSDM.__init__, bind, lift. destruct (attr_shape X) as [[N p]|e] eqn:E.
  - reflexivity.
  - destruct X; try discriminate; injection E as <-; reflexivity.
Qed.

(** X1: a call of [HSDM] that gives no Z (the default of line 180 is
    None) never returns an estimator: Z is handed on as it is, and line 28
    reads its shape.  When the input passes validation the call ends there
    with AttributeError for [shape], the three validations called, and the
    estimator without state and trace: no set-up was done and no sweep
    called. *)
Theorem HSDM_without_Z_is_refused (C : collaborators) (y X W M : value)
    (kw : HSDM.keywords) (m : machine) :
  default VNone (HSDM.kw_Z kw) = VNone ->
  (forall o m', HSDM.HSDM C y X W M kw m <> (Ok o, m')) /\
  (forall W' M' N J p Delta' membership' X',
     verify_weights C W M (default (VStr "r") (HSDM.kw_transform kw)) = Ok (W', M') ->
     attr_n W' = Ok N -> attr_n M' = Ok J -> attr_shape X = Ok (N, p) ->
     verify_Delta_members C (default VNone (HSDM.kw_Delta kw))
       (default VNone (HSDM.kw_membership kw)) (VInt N) (VInt J) = Ok (Delta', membership') ->
     verify_covariates C X W' = Ok X' ->
     exists m',
       HSDM.HSDM C y X W M kw m = (Raise (AttributeError "shape"), m') /\
       state (self m') = None /\ trace (self m') = None /\
       events m' = events m ++ [Called "verify.weights"; Called "verify.Delta_members";
                                Called "verify.covariates"]).
Proof.
  intros HZ. split.
  - intros o m' H. unfold HSDM.HSDM in H. apply new_Ok in H as [H _].
    apply HSDM_init_Ok in H
      as (W' & M' & N & J & p & Wmat & Mmat & Delta' & membership' & X' &
          _ & _ & _ & _ & _ & _ & _ & _ & H).
    apply Base_HSDM_init_Ok in H
      as (N' & p' & J' & c & _J & q & ps & leftovers & m1 & m2 & m3 & m4 &
          _ & _ & HZ' & _).
    rewrite HZ in HZ'. discriminate.
  - intros W' M' N J p Delta' membership' X' HW HN HJ HX HD HC.
    destruct W' as [| | | | | | | | |nW aW|]; try discriminate.
    destruct M' as [| | | | | | | | |nM aM|]; try discriminate.
    eexists. split.
    + unfold HSDM.HSDM, new.
      erewrite bind_then; [|reflexivity].
      apply bind_raises. unfold HSDM.__init__.
      erewrite bind_then; [|rewrite call_returns, HW; reflexivity]. cbv beta iota.
      erewrite bind_then; [|reflexivity].
      erewrite bind_then; [|reflexivity].
      erewrite bind_then; [|unfold lift; rewrite HN; reflexivity].
      erewrite bind_then; [|unfold lift; rewrite HJ; reflexivity].
      erewrite bind_then; [|unfold lift; rewrite HX; reflexivity]. cbv beta iota.
      erewrite bind_then; [|rewrite Z.eqb_refl; reflexivity].
      erewrite bind_then; [|reflexivity].
      erewrite bind_then; [|reflexivity].
      erewrite bind_then; [|rewrite call_returns, HD; reflexivity]. cbv beta iota.
      erewrite bind_then; [|rewrite call_returns, HC; reflexivity].
      erewrite bind_then; [|reflexivity].
      rewrite HZ. apply Base_HSDM_init_without_Z.
    + simpl. rewrite <- !app_assoc. repeat split; reflexivity.
Qed.

(** X1: the theorem on the four units in two groups, Z left out. *)
Lemma HSDM_without_Z_is_refused_witness :
  default VNone (HSDM.kw_Z (keywords_without_Z 3)) = VNone /\
  fst (HSDM.HSDM Reference.plain Reference.y4 Reference.X4 Reference.W4 Reference.M2
         (keywords_without_Z 3) Reference.imported)
  = Raise (AttributeError "shape") /\
  forall o m',
    HSDM.HSDM Reference.plain Reference.y4 Reference.X4 Reference.W4 Reference.M2
      (keywords_without_Z 3) Reference.imported <> (Ok o, m').
Proof.
  assert (HZ : default VNone (HSDM.kw_Z (keywords_without_Z 3)) = VNone) by reflexivity.
  destruct (HSDM_without_Z_is_refused Reference.plain Reference.y4 Reference.X4
              Reference.W4 Reference.M2 (keywords_without_Z 3) Reference.imported HZ)
    as [Hnever Hraise].
  assert (HW : verify_weights Reference.plain Reference.W4 Reference.M2
                 (default (VStr "r") (HSDM.kw_transform (keywords_without_Z 3)))
               = Ok (Reference.W4, Reference.M2)) by reflexivity.
  assert (HN : attr_n Reference.W4 = Ok 4) by reflexivity.
  assert (HJ : attr_n Reference.M2 = Ok 2) by reflexivity.
  assert (HX : attr_shape Reference.X4 = Ok (4, 1)) by reflexivity.
  assert (HD : verify_Delta_members Reference.plain
                 (default VNone (HSDM.kw_Delta (keywords_without_Z 3)))
                 (default VNone (HSDM.kw_membership (keywords_without_Z 3)))
                 (VInt 4) (VInt 2) = Ok (Reference.Delta42, VNone)) by reflexivity.
  assert (HC : verify_covariates Reference.plain Reference.X4 Reference.W4
               = Ok Reference.X4) by reflexivity.
  destruct (Hraise _ _ _ _ _ _ _ _ HW HN HJ HX HD HC) as (m' & Hrun & _).
  split; [exact HZ|]. split; [rewrite Hrun; reflexivity | exact Hnever].
Defined.

(** ** [Base_HSDM] on its own *)

Lemma while_draws_without_verbose (C : collaborators) (n : nat) (k : Z) (m : machine) :
  _verbose (self m) = None ->
  Base_HSDM.while_draws C n k m =
  match n with
  | O => (Ok tt, m)
  | S _ => if k >? 0 then (Raise (AttributeError "_verbose"), m) else (Ok tt, m)
  end.
Proof.
  intros H. destruct n as [|n]; [reflexivity|]. simpl.
  destruct (k >? 0); [|reflexivity].
  unfold bind at 1. unfold attr. rewrite H. reflexivity.
Qed.

Lemma sample_without_verbose (C : collaborators) (n : Z) (pop : bool) (m : machine) :
  0 < n -> _verbose (self m) = None ->
  Base_HSDM.sample C n pop m = (Raise (AttributeError "_verbose"), m).
Proof.
  intros Hn H. unfold Base_HSDM.sample. apply bind_raises.
  rewrite (while_draws_without_verbose C _ _ _ H).
  destruct (Z.to_nat n) eqn:E; [lia|].
  destruct (Z.gtb_spec n 0); [reflexivity | lia].
Qed.

Lemma sample_without_verbose_stays (C : collaborators) (n : Z) (m : machine) :
  _verbose (self m) = None -> snd (Base_HSDM.sample C n false m) = m.
Proof.
  intros H. rewrite sample_keep, (while_draws_without_verbose C _ _ _ H).
  destruct (Z.to_nat n); [reflexivity|]. destruct (n >? 0); reflexivity.
Qed.

(** Without _verbose no sweep is ever called. *)
Lemma Base_HSDM_init_without_verbose (C : collaborators) (y X W M Z Delta : value)
    (n : BinNums.Z) (cfg : NS) (c0 : nat) :
  preserves (of_the_driver (fun _ _ vb _ c => vb = None /\ c = c0))
            (Base_HSDM.__init__ C y X W M Z Delta n cfg).
Proof.
  unfold Base_HSDM.__init__.
  apply preserves_bind; [apply preserves_lift|]. intros [N p].
  apply preserves_bind; [apply preserves_lift|]. intros [J c].
  apply preserves_bind; [apply preserves_lift|]. intros [_J q].
  apply preserves_bind; [intros m H; exact H|]. intros _.
  apply preserves_bind; [intros m H; exact H|]. intros _.
  apply preserves_bind; [intros m H; exact H|]. intros _.
  unfold dict_pop. cbv beta iota.
  apply preserves_bind.
  { destruct (match cfg !! "extra_tracked_params" with Some v => v | None => VNone end);
      try apply preserves_ret;
      (apply preserves_bind; [apply preserves_attr|]; intros tp;
       apply preserves_bind; [apply preserves_load_name|]; intros v;
       unfold list_extend;
       apply preserves_bind; [apply preserves_list_contents|]; intros xs;
       apply preserves_bind; [apply preserves_lift|]; intros names;
       intros m H; exact H). }
  intros _.
  apply preserves_bind; [apply preserves_attr|]. intros tp.
  apply preserves_bind; [apply preserves_list_contents|]. intros params.
  apply preserves_bind; [apply preserves_attr|]. intros tr.
  apply preserves_bind; [intros m H; exact H|]. intros _.
  apply preserves_bind; [apply preserves__setup_data|]. intros leftovers.
  apply preserves_bind; [apply preserves__setup_configs|]. intros _.
  apply preserves_bind; [apply preserves__setup_truncation|]. intros _.
  apply preserves_bind; [apply preserves__setup_initial_values|]. intros _.
  apply preserves_bind; [intros m H; exact H|]. intros _.
  apply preserves_bind; [|intros ?; apply preserves_ret].
  intros m [Hv Hc]. rewrite sample_without_verbose_stays by exact Hv. split; assumption.
Qed.

(** X2: [Base_HSDM] never assigns _verbose (only [HSDM.__init__] does, at
    line 201), and the loop of [sample] reads it at line 156 before every
    draw.  So an estimator made from [Base_HSDM] itself never calls the
    sweep; asked for a positive number of draws its construction does not
    return; and [sample] on an estimator without _verbose, for a positive
    number of draws, ends at once with AttributeError, the estimator as it
    was. *)
Theorem Base_HSDM_alone_makes_no_draw (C : collaborators) (y X W M Z Delta : value)
    (n : BinNums.Z) (cfg : NS) (m : machine) :
  calls "sample" (events (snd (new (Base_HSDM.__init__ C y X W M Z Delta n cfg) m)))
  = calls "sample" (events m) /\
  (0 < n -> forall o m', new (Base_HSDM.__init__ C y X W M Z Delta n cfg) m <> (Ok o, m')) /\
  (0 < n -> forall pop m0, _verbose (self m0) = None ->
     Base_HSDM.sample C n pop m0 = (Raise (AttributeError "_verbose"), m0)).
Proof.
  split; [|split].
  - pose proof (Base_HSDM_init_without_verbose C y X W M Z Delta n cfg
                  (calls "sample" (events m)) (with_estimator new_object m)) as H.
    unfold new, bind at 1. cbn [with_self].
    change {| self := new_object; lists := lists m; events := events m; random := random m |}
      with (with_estimator new_object m).
    unfold bind.
    destruct (Base_HSDM.__init__ C y X W M Z Delta n cfg (with_estimator new_object m))
      as [[[]|e] m1]; apply H; split; reflexivity.
  - intros Hn o m' H. apply new_Ok in H as [H _].
    apply Base_HSDM_init_Ok in H
      as (N & p & J & c & _J & q & ps & leftovers & m1 & m2 & m3 & m4 &
          _ & _ & _ & _ & _ & H1 & H2 & H3 & H4 & H5).
    destruct (from_line_36_to_sample C _ _ _ _ _ _ _ H1 H2 H3 H4) as (_ & _ & Hv & _).
    rewrite sample_without_verbose in H5; [discriminate | exact Hn | exact Hv].
  - intros Hn pop m0 Hv. apply sample_without_verbose; assumption.
Qed.

(** X2: the theorem on the four units in two groups, five draws asked
    for: the set-up is done, and the first turn of the loop ends the
    construction. *)
Lemma Base_HSDM_alone_makes_no_draw_witness :
  0 < 5 /\
  fst (new (Base_HSDM.__init__ Reference.plain Reference.y4 Reference.X4
              (VSparse Reference.W4_sparse) (VSparse Reference.M2_sparse)
              Reference.Z2 Reference.Delta42 5 ∅) Reference.imported)
  = Raise (AttributeError "_verbose") /\
  (forall o m',
     new (Base_HSDM.__init__ Reference.plain Reference.y4 Reference.X4
            (VSparse Reference.W4_sparse) (VSparse Reference.M2_sparse)
            Reference.Z2 Reference.Delta42 5 ∅) Reference.imported <> (Ok o, m')) /\
  calls "sample"
    (events (snd (new (Base_HSDM.__init__ Reference.plain Reference.y4 Reference.X4
                         (VSparse Reference.W4_sparse) (VSparse Reference.M2_sparse)
                         Reference.Z2 Reference.Delta42 5 ∅) Reference.imported)))
  = 0%nat.
Proof.
  assert (H5 : 0 < 5) by lia.
  destruct (Base_HSDM_alone_makes_no_draw Reference.plain Reference.y4 Reference.X4
              (VSparse Reference.W4_sparse) (VSparse Reference.M2_sparse)
              Reference.Z2 Reference.Delta42 5 ∅ Reference.imported)
    as (Hcalls & Hnever & _).
  split; [exact H5|]. split; [reflexivity|]. split; [exact (Hnever H5) | exact Hcalls].
Defined.

(** ** The options of a call *)

Lemma _setup_data_passes_on (C : collaborators) (k : string) (v : value) (hypers : NS)
    (m : machine) :
  k ∉ prior_keywords ->
  Base_HSDM._setup_data C (<[k := v]> hypers) m
  = returning (insert k v) (Base_HSDM._setup_data C hypers m).
Proof.
  intros Hk.
  assert (Hne : forall k', k' ∈ prior_keywords -> k <> k').
  { intros k' Hk' ->. contradiction. }
  unfold Base_HSDM._setup_data, dict_pop. cbv beta iota zeta.
  repeat first
    [ rewrite lookup_insert_ne by (apply Hne, list_elem_of_In; simpl; tauto)
    | rewrite delete_insert_ne by (apply not_eq_sym, Hne, list_elem_of_In; simpl; tauto) ].
  repeat (apply bind_returning; intros ? ? _).
  reflexivity.
Qed.

Lemma _setup_configs_drops (k : string) (v : value) (kw : NS) :
  k ∉ config_keywords ->
  Base_HSDM._setup_configs (<[k := v]> kw) = Base_HSDM._setup_configs kw.
Proof.
  intros Hk.
  assert (Hne : forall k', k' ∈ config_keywords -> k <> k').
  { intros k' Hk' ->. contradiction. }
  unfold Base_HSDM._setup_configs, Base_HSDM.keyword.
  rewrite !lookup_insert_ne by (apply Hne, list_elem_of_In; simpl; tauto).
  reflexivity.
Qed.

Lemma Base_HSDM_init_drops (C : collaborators) (y X W M Z Delta : value) (n : BinNums.Z)
    (cfg : NS) (k : string) (v : value) (m : machine) :
  k ∉ known_options ->
  Base_HSDM.__init__ C y X W M Z Delta n (<[k := v]> cfg) m
  = Base_HSDM.__init__ C y X W M Z Delta n cfg m.
Proof.
  intros Hk.
  assert (H0 : k <> "extra_tracked_params").
  { intros ->. apply Hk. left. }
  assert (H1 : k ∉ prior_keywords).
  { intros H. apply Hk. right. apply elem_of_app. left. exact H. }
  assert (H2 : k ∉ config_keywords).
  { intros H. apply Hk. right. apply elem_of_app. right. exact H. }
  unfold Base_HSDM.__init__, dict_pop. cbv beta iota zeta.
  rewrite lookup_insert_ne by exact H0.
  rewrite delete_insert_ne by (apply not_eq_sym; exact H0).
  apply bind_ext; intros [N p] ? _.
  apply bind_ext; intros [J c] ? _.
  apply bind_ext; intros [_J q] ? _.
  do 8 (apply bind_ext; intros ? ? _).
  match goal with |- bind _ _ ?mx = _ => generalize mx end. intros mx.
  rewrite (bind_of_returning (insert k v) _ _ _ _ (_setup_data_passes_on C k v _ mx H1)).
  apply bind_ext; intros leftovers ? _.
  rewrite _setup_configs_drops by exact H2. reflexivity.
Qed.

(** X3: an option whose name is none of the sixteen that construction
    reads (extra_tracked_params, the eight priors of [_setup_data], the
    seven keywords of [_setup_configs]) is dropped without a word:
    [_setup_data] hands it on, and [_setup_configs] takes it into its
    [**kw], which it never looks at.  The call does what it does without
    the option, to the same outcome and the same estimator; so does
    [Base_HSDM.__init__]. *)
Theorem unknown_options_are_dropped (C : collaborators) (y X W M : value)
    (kw : HSDM.keywords) (k : string) (v : value) (m : machine) :
  k ∉ HSDM_parameters -> k ∉ known_options ->
  HSDM.HSDM C y X W M (with_option k v kw) m = HSDM.HSDM C y X W M kw m /\
  (forall Z Delta n cfg,
     Base_HSDM.__init__ C y X W M Z Delta n (<[k := v]> cfg) m
     = Base_HSDM.__init__ C y X W M Z Delta n cfg m).
Proof.
  intros _ Hk. split.
  - unfold HSDM.HSDM, new. apply bind_ext; intros ? ? _.
    apply bind_ext_l. unfold HSDM.__init__.
    apply bind_ext; intros [W' M'] ? _.
    do 4 (apply bind_ext; intros ? ? _).
    apply bind_ext; intros [_N p] ? _.
    do 3 (apply bind_ext; intros ? ? _).
    apply bind_ext; intros [Delta' membership'] ? _.
    do 2 (apply bind_ext; intros ? ? _).
    apply Base_HSDM_init_drops. exact Hk.
  - intros Z Delta n cfg. apply Base_HSDM_init_drops. exact Hk.
Qed.

(** X3: the theorem on a misspelt rho_jump. *)
Lemma unknown_options_are_dropped_witness :
  ("rho_jmup" ∉ HSDM_parameters) /\ ("rho_jmup" ∉ known_options) /\
  HSDM.HSDM Reference.plain Reference.y4 Reference.X4 Reference.W4 Reference.M2
    (with_option "rho_jmup" (VFloat 0.1) (Reference.keywords42 3 ∅)) Reference.imported
  = HSDM.HSDM Reference.plain Reference.y4 Reference.X4 Reference.W4 Reference.M2
      (Reference.keywords42 3 ∅) Reference.imported.
Proof.
  assert (H1 : "rho_jmup" ∉ HSDM_parameters).
  { rewrite list_elem_of_In. simpl. intuition discriminate. }
  assert (H2 : "rho_jmup" ∉ known_options).
  { rewrite list_elem_of_In. simpl. intuition discriminate. }
  split; [exact H1|]. split; [exact H2|].
  apply (unknown_options_are_dropped Reference.plain Reference.y4 Reference.X4 Reference.W4
           Reference.M2 (Reference.keywords42 3 ∅) "rho_jmup" (VFloat 0.1)
           Reference.imported H1 H2).
Defined.

(** ** [_setup_data] *)

Lemma ns_update_other {V : Type} (d : list (string * V)) (ns : gmap string V) (k : string) :
  k ∉ d.*1 -> ns_update d ns !! k = ns !! k.
Proof.
  unfold ns_update. revert ns. induction d as [|[k' v] d IH]; intros ns Hk; simpl.
  - reflexivity.
  - rewrite fmap_cons in Hk. apply not_elem_of_cons in Hk as [Hne Hk].
    rewrite (IH _ Hk). apply lookup_insert_ne. intros ->. apply Hne. reflexivity.
Qed.

(** X4: when [_setup_data] returns, what it hands back is the keywords
    it was given less the eight priors it pops, the others as they were; a
    prior that was given is in the state as given; a scale or a degree of
    freedom that was not is 0.001, and a mean that was not is the p-by-1
    (q-by-1) array of zeros; every name of the state but the seventeen it
    assigns is as it was, and so is everything of the machine but the
    state. *)
Theorem _setup_data_takes_its_priors (C : collaborators) (hypers leftovers : NS)
    (m m' : machine) :
  Base_HSDM._setup_data C hypers m = (Ok leftovers, m') ->
  (forall k, leftovers !! k = if bool_decide (k ∈ prior_keywords) then None else hypers !! k) /\
  (forall k x, k ∈ prior_keywords -> hypers !! k = Some x -> current k (self m') = Some x) /\
  (forall k, k ∈ ["Sigma2_s0"; "Sigma2_v0"; "Tau2_s0"; "Tau2_v0"] -> hypers !! k = None ->
     current k (self m') = Some (VFloat 0.001)) /\
  (hypers !! "Betas_mean0" = None ->
     exists p mean0, current "p" (self m) = Some p /\ np_zeros p (VInt 1) = Ok mean0 /\
                     current "Betas_mean0" (self m') = Some mean0) /\
  (hypers !! "Gammas_mean0" = None ->
     exists q mean0, current "q" (self m) = Some q /\ np_zeros q (VInt 1) = Ok mean0 /\
                     current "Gammas_mean0" (self m') = Some mean0) /\
  (forall k, k ∉ data_innovations -> current k (self m') = current k (self m)) /\
  (exists st', m' = with_estimator (set_state st' (self m)) m).
Proof.
  intros H. unfold Base_HSDM._setup_data, dict_pop in H. cbv beta iota zeta in H.
  run_inv H.
  apply bind_Ok in H as ([] & m1 & H1 & H). injection H as <- <-.
  apply state_update_Ok in H1 as (st & Hst & ->).
  split; [|split; [|split; [|split; [|split; [|split]]]]].
  - intros k. case_bool_decide as Hk.
    + apply list_elem_of_In in Hk. simpl in Hk.
      repeat (destruct Hk as [<-|Hk];
              [rewrite ?lookup_delete_ne by discriminate; apply lookup_delete_eq|]).
      contradiction.
    + rewrite !lookup_delete_ne; [reflexivity|..];
        intros <-; apply Hk, list_elem_of_In; simpl; tauto.
  - intros k x Hk Hv. unfold current. cbn [self with_estimator state set_state].
    unfold ns_update. cbn [fold_left fst snd].
    apply list_elem_of_In in Hk. simpl in Hk.
    repeat (destruct Hk as [<-|Hk];
            [rewrite ?lookup_insert_ne by discriminate; rewrite lookup_insert_eq;
             rewrite ?lookup_delete_ne by discriminate; rewrite Hv; reflexivity|]).
    contradiction.
  - intros k Hk Hv. unfold current. cbn [self with_estimator state set_state].
    unfold ns_update. cbn [fold_left fst snd].
    apply list_elem_of_In in Hk. simpl in Hk.
    repeat (destruct Hk as [<-|Hk];
            [rewrite ?lookup_insert_ne by discriminate; rewrite lookup_insert_eq;
             rewrite ?lookup_delete_ne by discriminate; rewrite Hv; reflexivity|]).
    contradiction.
  - intros Hv. exists v6, v7. split; [exact Hget2|]. split; [exact Hop3|].
    unfold current. cbn [self with_estimator state set_state].
    unfold ns_update. cbn [fold_left fst snd].
    rewrite ?lookup_insert_ne by discriminate; rewrite lookup_insert_eq;
      rewrite ?lookup_delete_ne by discriminate; rewrite Hv; reflexivity.
  - intros Hv. exists v11, v12. split; [exact Hget4|]. split; [exact Hop6|].
    unfold current. cbn [self with_estimator state set_state].
    unfold ns_update. cbn [fold_left fst snd].
    rewrite ?lookup_insert_ne by discriminate; rewrite lookup_insert_eq;
      rewrite ?lookup_delete_ne by discriminate; rewrite Hv; reflexivity.
  - intros k Hk. unfold current. cbn [self with_estimator state set_state]. rewrite Hst.
    apply ns_update_other. exact Hk.
  - eexists. reflexivity.
Qed.

(** X4: the theorem at line 37 of a construction on the four units in two
    groups, given a scale for Sigma2 and a tuning: the scale is stored, its
    degrees of freedom get the default, and the tuning is handed on. *)
Lemma _setup_data_takes_its_priors_witness :
  completed (Base_HSDM._setup_data Reference.plain some_options at_line_37) = true /\
  returned ∅ (Base_HSDM._setup_data Reference.plain some_options at_line_37) !! "tuning"
  = Some (VInt 3) /\
  returned ∅ (Base_HSDM._setup_data Reference.plain some_options at_line_37) !! "Sigma2_s0"
  = None /\
  current "Sigma2_s0" (self (snd (Base_HSDM._setup_data Reference.plain some_options at_line_37)))
  = Some (VFloat 0.5) /\
  current "Sigma2_v0" (self (snd (Base_HSDM._setup_data Reference.plain some_options at_line_37)))
  = Some (VFloat 0.001) /\
  current "X" (self (snd (Base_HSDM._setup_data Reference.plain some_options at_line_37)))
  = Some Reference.X4.
Proof.
  assert (Hc : completed (Base_HSDM._setup_data Reference.plain some_options at_line_37)
               = true) by reflexivity.
  pose proof (completed_returned ∅ _ Hc) as Hrun.
  destruct (_setup_data_takes_its_priors Reference.plain some_options _ at_line_37 _ Hrun)
    as (Hleft & Hgiven & Hdefault & _ & _ & Hother & _).
  split; [exact Hc|]. split; [|split; [|split; [|split]]].
  - rewrite (Hleft "tuning"). reflexivity.
  - rewrite (Hleft "Sigma2_s0"). reflexivity.
  - apply Hgiven; [apply list_elem_of_In; simpl; tauto | reflexivity].
  - apply Hdefault; [apply list_elem_of_In; simpl; tauto | reflexivity].
  - rewrite Hother; [reflexivity|].
    rewrite list_elem_of_In. simpl. intuition discriminate.
Defined.

(** ** One group *)

Lemma np_zeros_returns (r : Z) :
  0 <= r -> np_zeros (VInt r) (VInt 1) = Ok (VArray (zeros (Z.to_nat r) 1)).
Proof.
  intros H. unfold np_zeros, dim. destruct (Z.ltb_spec r 0); [lia|]. reflexivity.
Qed.

Lemma _setup_initial_values_one_group (C : collaborators) (m : machine) (st : NS) (p q : Z) :
  state (self m) = Some st ->
  st !! "p" = Some (VInt p) -> 0 <= p -> st !! "q" = Some (VInt q) -> 0 <= q ->
  st !! "J" = Some (VInt 1) ->
  Base_HSDM._setup_initial_values C m = (Raise ZeroDivisionError, m).
Proof.
  intros Hst Hp Hp0 Hq Hq0 HJ.
  assert (Hcur : forall k v, st !! k = Some v -> state_attr k m = (Ok v, m)).
  { intros k v Hk. apply state_attr_returns. unfold current. rewrite Hst. exact Hk. }
  unfold Base_HSDM._setup_initial_values.
  erewrite bind_then; [|apply Hcur; exact Hp].
  erewrite bind_then; [|unfold lift; rewrite np_zeros_returns by exact Hp0; reflexivity].
  erewrite bind_then; [|apply Hcur; exact Hq].
  erewrite bind_then; [|unfold lift; rewrite np_zeros_returns by exact Hq0; reflexivity].
  erewrite bind_then; [|apply Hcur; exact HJ].
  erewrite bind_then; [|reflexivity].
  erewrite bind_then; [|apply Hcur; exact HJ].
  erewrite bind_then; [|reflexivity].
  apply bind_raises. reflexivity.
Qed.

Lemma one_group_never_starts (C : collaborators) (m m' : machine) :
  current "J" (self m) = Some (VInt 1) ->
  Base_HSDM._setup_initial_values C m <> (Ok tt, m').
Proof.
  intros HJ H.
  destruct (_setup_initial_values_Ok C m m' H)
    as (st & pv & qv & Jv & Betas & Gammas & Alphas & J_1 & rho & B & DA & XB & ZG & BZG &
        Hst & _ & _ & HJv & _ & _ & _ & HJ1 & Hrho & _).
  unfold current in HJ. rewrite Hst in HJ.
  assert (Jv = VInt 1) as -> by congruence.
  unfold Base_HSDM.op, py_binop in HJ1. cbn [as_int int_op] in HJ1.
  injection HJ1 as <-. discriminate Hrho.
Qed.

(** X5: with a single group the starting value of Rho cannot be
    computed: line 124 divides -1.0 by J - 1 = 0.  On a state with J = 1
    (and dimensions p and q that are integers, not negative)
    [_setup_initial_values] ends with ZeroDivisionError and assigns
    nothing; and [Base_HSDM.__init__] never returns when M has one row. *)
Theorem one_group_divides_by_zero (C : collaborators) :
  (forall (m : machine) (st : NS) (p q : Z),
     state (self m) = Some st ->
     st !! "p" = Some (VInt p) -> 0 <= p -> st !! "q" = Some (VInt q) -> 0 <= q ->
     st !! "J" = Some (VInt 1) ->
     Base_HSDM._setup_initial_values C m = (Raise ZeroDivisionError, m)) /\
  (forall (y X W M Z Delta : value) (n : BinNums.Z) (cfg : NS) (c : BinNums.Z)
          (m m' : machine),
     attr_shape M = Ok (1, c) ->
     Base_HSDM.__init__ C y X W M Z Delta n cfg m <> (Ok tt, m')).
Proof.
  split.
  - intros m st p q. apply _setup_initial_values_one_group.
  - intros y X W M Z Delta n cfg c m m' HM H.
    apply Base_HSDM_init_Ok in H
      as (N & p & J & c' & _J & q & ps & leftovers & m1 & m2 & m3 & m4 &
          _ & HM' & _ & _ & _ & H1 & H2 & H3 & H4 & _).
    assert (J = 1) as -> by congruence.
    set (m0 := after_line_36 y X W M Z Delta N 1 p q ps m) in *.
    pose proof (_setup_data_keeps C ["J"] (self m0) (delete "extra_tracked_params" cfg)
                  eq_refl m0 (untouched_refl _ _)) as K1.
    rewrite H1 in K1. cbn [snd] in K1.
    pose proof (_setup_configs_keeps ["J"] (self m0) leftovers m1 K1) as K2.
    rewrite H2 in K2. cbn [snd] in K2.
    pose proof (_setup_truncation_keeps_J C (self m0) m2 K2) as K3.
    rewrite H3 in K3. cbn [snd] in K3.
    apply (one_group_never_starts C m3 m4); [|exact H4].
    destruct K3 as [_ K3]. rewrite K3; [reflexivity | apply list_elem_of_In; simpl; tauto].
Qed.

(** X5: the theorem on a state with p = q = J = 1, and on group weights
    of order one. *)
Lemma one_group_divides_by_zero_witness :
  Base_HSDM._setup_initial_values Reference.plain one_group
  = (Raise ZeroDivisionError, one_group) /\
  attr_shape (VSparse M1_sparse) = Ok (1, 1) /\
  forall m',
    Base_HSDM.__init__ Reference.plain Reference.y4 Reference.X4
      (VSparse Reference.W4_sparse) (VSparse M1_sparse) Reference.Z2 Reference.Delta42
      3 ∅ Reference.imported <> (Ok tt, m').
Proof.
  destruct (one_group_divides_by_zero Reference.plain) as [Hraise Hnever].
  assert (Hst : state (self one_group) = Some (default ∅ (state (self one_group))))
    by reflexivity.
  assert (Hp : default ∅ (state (self one_group)) !! "p" = Some (VInt 1)) by reflexivity.
  assert (Hq : default ∅ (state (self one_group)) !! "q" = Some (VInt 1)) by reflexivity.
  assert (HJ : default ∅ (state (self one_group)) !! "J" = Some (VInt 1)) by reflexivity.
  assert (H01 : 0 <= 1) by lia.
  assert (HM : attr_shape (VSparse M1_sparse) = Ok (1, 1)) by reflexivity.
  split; [exact (Hraise one_group _ 1 1 Hst Hp H01 Hq H01 HJ)|]. split; [exact HM|].
  intros m'. apply (Hnever _ _ _ _ _ _ _ _ 1 _ m' HM).
Defined.

(** ** What one draw and the loop add to the events *)

(** One draw is one call of the sweep, made first, whatever comes of it. *)
Lemma draw_events (C : collaborators) (m : machine) :
  events (snd (Base_HSDM.draw C m)) = events m ++ [Called "sample"].
Proof.
  unfold Base_HSDM.draw, bind at 1. rewrite sample_self_eq.
  destruct (fst (sample C (self m) (random m))) as [[]|e]; [|reflexivity].
  set (m1 := {| self := _; lists := _; events := _; random := _ |}).
  assert (H : preserves (fun m' => events m' = events m1)
                (let* tp := attr "traced_params" traced_params in
                 let* params := list_contents tp in
                 for_each params Base_HSDM.trace_append)).
  { apply preserves_bind; [apply preserves_attr|]. intros tp.
    apply preserves_bind; [apply preserves_list_contents|]. intros params.
    apply preserves_for_each. intros p m' H. rewrite trace_append_appended.
    destruct (appended p (self m')); exact H. }
  apply (H m1). reflexivity.
Qed.

Lemma draw_keeps_verbose (C : collaborators) (vb : option value) :
  leaves_driver_alone (sample C) ->
  preserves (fun m => _verbose (self m) = vb) (Base_HSDM.draw C).
Proof.
  intros HK. apply (preserves_draw C (fun o => _verbose o = vb)).
  - intros o rs <-. apply (HK o rs).
  - intros p o o' <- Ho.
    destruct (appended_Ok _ _ _ Ho) as (? & ? & _ & _ & _ & _ & _ & _ & E & _). exact E.
Qed.

(** A turn of the loop when the estimator is not chatty, and when it is. *)
Lemma quiet_turn (C : collaborators) (n : nat) (k : Z) (m : machine) (v : value) :
  _verbose (self m) = Some v -> py_gt v 1 = Ok false -> 0 < k ->
  Base_HSDM.while_draws C (S n) k m
  = (Base_HSDM.draw C ;;; Base_HSDM.while_draws C n (k - 1)) m.
Proof.
  intros Hv Hq Hk. simpl. destruct (Z.gtb_spec k 0) as [_|]; [|lia].
  unfold bind at 1. unfold attr. rewrite Hv.
  unfold bind at 1. unfold lift. rewrite Hq. cbn [andb].
  unfold bind at 1. reflexivity.
Qed.

Lemma loud_turn (C : collaborators) (n : nat) (k : Z) (m : machine) (v : value) :
  _verbose (self m) = Some v -> py_gt v 1 = Ok true -> 0 < k ->
  Base_HSDM.while_draws C (S n) k m
  = ((if k mod 100 =? 0 then print (pretty k +:+ " Draws to go") else ret tt) ;;;
     Base_HSDM.draw C ;;; Base_HSDM.while_draws C n (k - 1)) m.
Proof.
  intros Hv Hq Hk. simpl. destruct (Z.gtb_spec k 0) as [_|]; [|lia].
  unfold bind at 1. unfold attr. rewrite Hv.
  unfold bind at 1. unfold lift. rewrite Hq. cbn [andb]. reflexivity.
Qed.

Lemma sample_snd (C : collaborators) (n : Z) (pop : bool) (m : machine) :
  snd (Base_HSDM.sample C n pop m) = snd (Base_HSDM.while_draws C (Z.to_nat n) n m).
Proof.
  unfold Base_HSDM.sample, bind.
  destruct (Base_HSDM.while_draws C (Z.to_nat n) n m) as [[[]|e] m1]; [|reflexivity].
  destruct pop; reflexivity.
Qed.

(** ** A quiet estimator *)

Lemma while_draws_quiet (C : collaborators) (v : value) :
  leaves_driver_alone (sample C) -> py_gt v 1 = Ok false ->
  forall (n : nat) (k : Z) (m : machine),
    _verbose (self m) = Some v ->
    printed (events (snd (Base_HSDM.while_draws C n k m))) = printed (events m) /\
    _verbose (self (snd (Base_HSDM.while_draws C n k m))) = Some v.
Proof.
  intros HK Hq. induction n as [|n IH]; intros k m Hv; [split; [reflexivity | exact Hv]|].
  destruct (Z.ltb_spec 0 k) as [Hk|Hk].
  - rewrite (quiet_turn C n k m v Hv Hq Hk). unfold bind.
    pose proof (draw_events C m) as He.
    pose proof (draw_keeps_verbose C (Some v) HK m Hv) as Hv1.
    destruct (Base_HSDM.draw C m) as [[[]|e] m1]; cbn [snd] in *.
    + destruct (IH (k - 1) m1 Hv1) as [IH1 IH2]. rewrite IH1, He, printed_app.
      split; [apply app_nil_r | exact IH2].
    + rewrite He, printed_app. split; [apply app_nil_r | exact Hv1].
  - simpl. destruct (Z.gtb_spec k 0); [lia|]. split; [reflexivity | exact Hv].
Qed.

Lemma sample_keeps_quiet (C : collaborators) (v : value) (L : list string) (n : Z) :
  leaves_driver_alone (sample C) -> py_gt v 1 = Ok false ->
  preserves (beside_the_state (fun vb _ evs _ => vb = Some v /\ printed evs = L))
            (Base_HSDM.sample C n false).
Proof.
  intros HK Hq m [Hv HL]. unfold beside_the_state. rewrite sample_snd.
  destruct (while_draws_quiet C v HK Hq (Z.to_nat n) n m Hv) as [H1 H2].
  split; [exact H2 | congruence].
Qed.

Lemma Base_HSDM_init_quiet (C : collaborators) (y X W M Z Delta : value) (n : BinNums.Z)
    (cfg : NS) (v : value) (L : list string) :
  leaves_driver_alone (sample C) -> py_gt v 1 = Ok false ->
  preserves (beside_the_state (fun vb _ evs _ => vb = Some v /\ printed evs = L))
            (Base_HSDM.__init__ C y X W M Z Delta n cfg).
Proof.
  intros HK Hq. unfold Base_HSDM.__init__.
  apply preserves_bind; [apply preserves_lift|]. intros [N p].
  apply preserves_bind; [apply preserves_lift|]. intros [J c].
  apply preserves_bind; [apply preserves_lift|]. intros [_J q].
  apply preserves_bind; [intros m H; exact H|]. intros _.
  apply preserves_bind; [intros m H; exact H|]. intros _.
  apply preserves_bind; [intros m H; exact H|]. intros _.
  unfold dict_pop. cbv beta iota.
  apply preserves_bind.
  { destruct (match cfg !! "extra_tracked_params" with Some x => x | None => VNone end);
      try apply preserves_ret;
      (apply preserves_bind; [apply preserves_attr|]; intros tp;
       apply preserves_bind; [apply preserves_load_name|]; intros x;
       unfold list_extend;
       apply preserves_bind; [apply preserves_list_contents|]; intros xs;
       apply preserves_bind; [apply preserves_lift|]; intros names;
       intros m H; exact H). }
  intros _.
  apply preserves_bind; [apply preserves_attr|]. intros tp.
  apply preserves_bind; [apply preserves_list_contents|]. intros params.
  apply preserves_bind; [apply preserves_attr|]. intros tr.
  apply preserves_bind; [intros m H; exact H|]. intros _.
  apply preserves_bind; [apply preserves_beside__setup_data|]. intros leftovers.
  apply preserves_bind; [apply preserves_beside__setup_configs|]. intros _.
  apply preserves_bind.
  { apply preserves_beside__setup_truncation. intros vb ls evs rs [H1 H2].
    split; [exact H1|]. rewrite printed_app, H2. apply app_nil_r. }
  intros _.
  apply preserves_bind; [apply preserves_beside__setup_initial_values|]. intros _.
  apply preserves_bind; [intros m H; exact H|]. intros _.
  apply preserves_bind; [apply sample_keeps_quiet; assumption|].
  intros ?. apply preserves_ret.
Qed.

Lemma HSDM_init_quiet (C : collaborators)
    (y X W M Z Delta membership sparse transform : value) (n : BinNums.Z) (verbose : value)
    (options : NS) (L : list string) :
  leaves_driver_alone (sample C) -> py_gt verbose 1 = Ok false ->
  preserves (fun m => printed (events m) = L)
            (HSDM.__init__ C y X W M Z Delta membership sparse transform n verbose options).
Proof.
  intros HK Hq.
  assert (Hcall : forall (A : Type) (f : string) (r : result A),
             preserves (fun m => printed (events m) = L) (call f r)).
  { intros A f r m H. simpl. rewrite printed_app, H. apply app_nil_r. }
  unfold HSDM.__init__.
  apply preserves_bind; [apply Hcall|]. intros [W' M'].
  apply preserves_bind; [intros m H; exact H|]. intros _.
  apply preserves_bind; [intros m H; exact H|]. intros _.
  apply preserves_bind; [apply preserves_lift|]. intros N.
  apply preserves_bind; [apply preserves_lift|]. intros J.
  apply preserves_bind; [apply preserves_lift|]. intros [_N p].
  apply preserves_bind.
  { destruct (_N =? N); [apply preserves_ret | apply preserves_raise]. }
  intros _.
  apply preserves_bind; [apply preserves_lift|]. intros Wmat.
  apply preserves_bind; [apply preserves_lift|]. intros Mmat.
  apply preserves_bind; [apply Hcall|]. intros [Delta' membership'].
  apply preserves_bind; [apply Hcall|]. intros X'.
  intros m H. unfold bind at 1. cbn [with_self].
  apply (Base_HSDM_init_quiet C y X' Wmat Mmat Z Delta' n options verbose L HK Hq).
  split; [reflexivity | exact H].
Qed.

Lemma HSDM_quiet (C : collaborators) (y X W M : value) (kw : HSDM.keywords) (m : machine) :
  leaves_driver_alone (sample C) ->
  py_gt (default (VBool false) (HSDM.kw_verbose kw)) 1 = Ok false ->
  printed (events (snd (HSDM.HSDM C y X W M kw m))) = printed (events m).
Proof.
  intros HK Hq. unfold HSDM.HSDM, new.
  unfold bind at 1. cbn [with_self].
  set (m0 := {| self := new_object; lists := lists m; events := events m;
                random := random m |}).
  pose proof (HSDM_init_quiet C y X W M
                (default VNone (HSDM.kw_Z kw)) (default VNone (HSDM.kw_Delta kw))
                (default VNone (HSDM.kw_membership kw))
                (default (VBool true) (HSDM.kw_sparse kw))
                (default (VStr "r") (HSDM.kw_transform kw)) (HSDM.n_samples_of kw)
                (default (VBool false) (HSDM.kw_verbose kw)) (HSDM.kw_options kw)
                (printed (events m)) HK Hq m0 eq_refl) as H.
  unfold bind.
  destruct (HSDM.__init__ _ _ _ _ _ _ _ _ _ _ _ _ _ m0) as [[[]|e] m1]; exact H.
Qed.

(** X6: the test of line 156 is [self._verbose > 1], so a verbosity that
    is not above 1 prints nothing, True among them (True > 1 is false).
    Whatever the number of draws, whether the trace is to be ejected or
    not, and whether the run returns or raises, [sample] on such an
    estimator prints no line; neither does a construction with such a
    verbosity (False when the keyword is not given).  The sweep is any
    collaborator that leaves _verbose alone. *)
Theorem quiet_estimator_prints_nothing (C : collaborators) :
  leaves_driver_alone (sample C) ->
  (forall v n pop m,
     _verbose (self m) = Some v -> py_gt v 1 = Ok false ->
     printed (events (snd (Base_HSDM.sample C n pop m))) = printed (events m)) /\
  (forall y X W M kw m,
     py_gt (default (VBool false) (HSDM.kw_verbose kw)) 1 = Ok false ->
     printed (events (snd (HSDM.HSDM C y X W M kw m))) = printed (events m)) /\
  (forall b, py_gt (VBool b) 1 = Ok false).
Proof.
  intros HK. split; [|split].
  - intros v n pop m Hv Hq. rewrite sample_snd.
    apply (while_draws_quiet C v HK Hq _ _ _ Hv).
  - intros y X W M kw m Hq. apply HSDM_quiet; assumption.
  - intros []; reflexivity.
Qed.

(** X6: the theorem on a construction with verbose=True and 200 draws. *)
Lemma quiet_estimator_prints_nothing_witness :
  leaves_driver_alone (sample Reference.plain) /\
  printed (events (snd (HSDM.HSDM Reference.plain Reference.y4 Reference.X4 Reference.W4
                          Reference.M2 (keywords_with_verbose (VBool true) 200)
                          Reference.imported)))
  = [].
Proof.
  split; [exact redraw_Rho_leaves_driver_alone|].
  destruct (quiet_estimator_prints_nothing Reference.plain redraw_Rho_leaves_driver_alone)
    as (_ & Hbuilt & Hbool).
  apply (Hbuilt Reference.y4 Reference.X4 Reference.W4 Reference.M2
           (keywords_with_verbose (VBool true) 200) Reference.imported (Hbool true)).
Defined.

(** ** The progress lines *)

Lemma countdown_pos (k : Z) : 0 < k -> countdown k = k :: countdown (k - 1).
Proof.
  intros Hk. unfold countdown.
  replace (Z.to_nat k) with (S (Z.to_nat (k - 1))) by lia.
  rewrite seq_S, fmap_app, rev_app_distr. simpl. f_equal. lia.
Qed.

Lemma countdown_nonpos (k : Z) : k <= 0 -> countdown k = [].
Proof. intros Hk. unfold countdown. replace (Z.to_nat k) with O by lia. reflexivity. Qed.

Lemma progress_lines_pos (k : Z) :
  0 < k ->
  progress_lines k
  = (if k mod 100 =? 0 then [pretty k +:+ " Draws to go"] else []) ++ progress_lines (k - 1).
Proof.
  intros Hk. unfold progress_lines. rewrite (countdown_pos k Hk). cbn [List.filter].
  destruct (k mod 100 =? 0); reflexivity.
Qed.

Lemma while_draws_loud (C : collaborators) (v : value) :
  leaves_driver_alone (sample C) -> py_gt v 1 = Ok true ->
  forall (n : nat) (k : Z) (m m' : machine),
    (Z.to_nat k <= n)%nat -> _verbose (self m) = Some v ->
    Base_HSDM.while_draws C n k m = (Ok tt, m') ->
    printed (events m') = printed (events m) ++ progress_lines k.
Proof.
  intros HK Hq. induction n as [|n IH]; intros k m m' Hn Hv H.
  - injection H as <-. unfold progress_lines. rewrite countdown_nonpos by lia.
    symmetry. apply app_nil_r.
  - destruct (Z.ltb_spec 0 k) as [Hk|Hk].
    + rewrite (loud_turn C n k m v Hv Hq Hk) in H.
      apply bind_Ok in H as ([] & m1 & H1 & H).
      apply bind_Ok in H as ([] & m2 & H2 & H).
      assert (E1 : _verbose (self m1) = Some v /\
                   printed (events m1)
                   = printed (events m)
                     ++ (if k mod 100 =? 0 then [pretty k +:+ " Draws to go"] else [])).
      { destruct (k mod 100 =? 0); injection H1 as <-; simpl.
        - rewrite printed_app. auto.
        - rewrite app_nil_r. auto. }
      destruct E1 as [Hv1 Hp1].
      pose proof (draw_events C m1) as He.
      pose proof (draw_keeps_verbose C (Some v) HK m1 Hv1) as Hv2.
      rewrite H2 in He, Hv2. cbn [snd] in He, Hv2.
      rewrite (IH (k - 1) m2 m' ltac:(lia) Hv2 H), He, printed_app, Hp1.
      rewrite (progress_lines_pos k Hk). cbn [printed omap]. rewrite app_nil_r.
      symmetry. apply app_assoc.
    + simpl in H. destruct (Z.gtb_spec k 0); [lia|]. injection H as <-.
      unfold progress_lines. rewrite countdown_nonpos by lia.
      symmetry. apply app_nil_r.
Qed.

(** X7: on an estimator whose verbosity is above 1, a run of [sample]
    that returns has printed one line for each multiple of 100 its
    countdown passed, the largest first, and nothing else: ndraws itself
    when it is one, never 0.  The sweep is any collaborator that leaves
    _verbose alone. *)
Theorem progress_lines_are_printed (C : collaborators) (v : value) (ndraws : Z)
    (m m' : machine) (r : option (gmap string (list value))) :
  leaves_driver_alone (sample C) ->
  _verbose (self m) = Some v -> py_gt v 1 = Ok true ->
  Base_HSDM.sample C ndraws false m = (Ok r, m') ->
  printed (events m') = printed (events m) ++ progress_lines ndraws.
Proof.
  intros HK Hv Hq H. rewrite sample_keep in H.
  destruct (Base_HSDM.while_draws C (Z.to_nat ndraws) ndraws m) as [[[]|e] m1] eqn:E;
    [|discriminate].
  injection H as _ <-.
  apply (while_draws_loud C v HK Hq _ _ _ _ (Nat.le_refl _) Hv E).
Qed.

(** X7: the theorem on an estimator built with verbose=2, for 250
    draws. *)
Lemma progress_lines_are_printed_witness :
  completed (Base_HSDM.sample Reference.plain 250 false ready_chatty) = true /\
  printed (events (snd (Base_HSDM.sample Reference.plain 250 false ready_chatty)))
  = ["200 Draws to go"; "100 Draws to go"].
Proof.
  assert (Hc : completed (Base_HSDM.sample Reference.plain 250 false ready_chatty) = true)
    by (vm_compute; reflexivity).
  assert (Hv : _verbose (self ready_chatty) = Some (VInt 2)) by reflexivity.
  assert (Hq : py_gt (VInt 2) 1 = Ok true) by reflexivity.
  split; [exact Hc|].
  rewrite (progress_lines_are_printed Reference.plain (VInt 2) 250 ready_chatty _ _
             redraw_Rho_leaves_driver_alone Hv Hq (completed_returned None _ Hc)).
  vm_compute. reflexivity.
Defined.

(** ** Runs of [sample] one after the other *)

Lemma while_draws_split (C : collaborators) (v : value) :
  leaves_driver_alone (sample C) -> py_gt v 1 = Ok false ->
  forall (na nb : nat) (m : machine),
    _verbose (self m) = Some v ->
    Base_HSDM.while_draws C (na + nb) (Z.of_nat (na + nb)) m
    = (Base_HSDM.while_draws C na (Z.of_nat na) ;;;
       Base_HSDM.while_draws C nb (Z.of_nat nb)) m.
Proof.
  intros HK Hq. induction na as [|na IH]; intros nb m Hv; [reflexivity|].
  change (S na + nb)%nat with (S (na + nb)).
  rewrite (quiet_turn C (na + nb) _ m v Hv Hq) by lia.
  rewrite (bind_ext_l _ _ _ _ (quiet_turn C na (Z.of_nat (S na)) m v Hv Hq ltac:(lia))).
  rewrite bind_assoc.
  replace (Z.of_nat (S (na + nb)) - 1) with (Z.of_nat (na + nb)) by lia.
  replace (Z.of_nat (S na) - 1) with (Z.of_nat na) by lia.
  apply bind_ext. intros [] m1 E.
  pose proof (draw_keeps_verbose C (Some v) HK m Hv) as Hv1.
  rewrite E in Hv1. apply (IH nb m1 Hv1).
Qed.

(** X8: on a quiet estimator, [sample(a)] followed by [sample(b)] is
    [sample(a + b)]: the same outcome (the error of the first failing draw,
    if one fails), the same estimator with the same recorded sequences, the
    same calls of the sweep and the same random stream; and a number of
    draws that is zero or negative is not refused: the run does nothing and
    returns None.  The sweep is any collaborator that leaves _verbose
    alone. *)
Theorem sample_in_two_runs (C : collaborators) (v : value) (a b : Z) (m : machine) :
  leaves_driver_alone (sample C) ->
  _verbose (self m) = Some v -> py_gt v 1 = Ok false ->
  0 <= a -> 0 <= b ->
  (Base_HSDM.sample C a false ;;; Base_HSDM.sample C b false) m
  = Base_HSDM.sample C (a + b) false m /\
  (forall n m0, n <= 0 -> Base_HSDM.sample C n false m0 = (Ok None, m0)).
Proof.
  intros HK Hv Hq Ha Hb. split.
  - unfold bind at 1. rewrite !sample_keep.
    replace (Z.to_nat (a + b)) with (Z.to_nat a + Z.to_nat b)%nat by lia.
    pose proof (while_draws_split C v HK Hq (Z.to_nat a) (Z.to_nat b) m Hv) as H.
    rewrite Nat2Z.inj_add, !Z2Nat.id in H by assumption.
    rewrite H. unfold bind.
    destruct (Base_HSDM.while_draws C (Z.to_nat a) a m) as [[[]|e] m1]; reflexivity.
  - intros n m0 Hn. rewrite sample_keep.
    replace (Z.to_nat n) with O by lia. reflexivity.
Qed.

(** X8: the theorem on an estimator just built, for two draws and then
    three. *)
Lemma sample_in_two_runs_witness :
  leaves_driver_alone (sample Reference.plain) /\
  (Base_HSDM.sample Reference.plain 2 false ;;; Base_HSDM.sample Reference.plain 3 false)
    Reference.ready
  = Base_HSDM.sample Reference.plain 5 false Reference.ready.
Proof.
  assert (Hv : _verbose (self Reference.ready) = Some (VBool false)) by reflexivity.
  assert (Hq : py_gt (VBool false) 1 = Ok false) by reflexivity.
  assert (H2 : 0 <= 2) by lia.
  assert (H3 : 0 <= 3) by lia.
  split; [exact redraw_Rho_leaves_driver_alone|].
  destruct (sample_in_two_runs Reference.plain (VBool false) 2 3 Reference.ready
              redraw_Rho_leaves_driver_alone Hv Hq H2 H3) as [Hruns _].
  exact Hruns.
Defined.

(** ** A draw that fails on a name *)

Lemma for_each_stops (pre post : list string) (p : string) (e : exn) (o2 : estimator) :
  forall m : machine,
    appended_all pre (self m) = Ok o2 -> appended p o2 = Raise e ->
    for_each (pre ++ p :: post) Base_HSDM.trace_append m = (Raise e, with_estimator o2 m).
Proof.
  induction pre as [|q pre IH]; intros m Hpre Hp; simpl in *.
  - injection Hpre as <-. apply bind_raises. rewrite trace_append_appended, Hp.
    now rewrite with_estimator_self.
  - destruct (appended q (self m)) as [o1|] eqn:E1; [|discriminate].
    erewrite bind_then; [|rewrite trace_append_appended, E1; reflexivity].
    apply (IH (with_estimator o1 m)); assumption.
Qed.

Lemma appended_all_keeps_trace (params : list string) (o o' : estimator) :
  appended_all params o = Ok o' -> is_Some (trace o) -> is_Some (trace o').
Proof.
  revert o. induction params as [|q qs IH]; intros o; simpl.
  - intros [= <-] H. exact H.
  - destruct (appended q o) as [o1|] eqn:E1; [|discriminate].
    intros H _. apply (IH _ H). unfold appended in E1.
    destruct (trace o) as [tr|]; [|discriminate].
    destruct (tr !! q); [|discriminate].
    destruct (state o) as [st|]; [|discriminate].
    destruct (st !! q); [|discriminate].
    injection E1 as <-. simpl. eauto.
Qed.

(** X9: a draw is not all or nothing.  When the sweep has returned and
    the list of tracked names holds a name [p] that the trace or the state
    has no entry for, behind names [pre] that both have, the draw ends
    with KeyError for [p]; by then it has appended the value of every name
    of [pre] to its sequence, and nothing for [p] and the names behind it:
    the sequences are left of unequal length, and the state is the one the
    sweep left. *)
Theorem draw_stops_at_the_first_missing_name (C : collaborators) (l : loc)
    (pre post : list string) (p : string) (m : machine) (st : NS)
    (tr : gmap string (list value)) :
  fst (sample C (self m) (random m)) = Ok tt ->
  traced_params (fst (snd (sample C (self m) (random m)))) = Some l ->
  state (fst (snd (sample C (self m) (random m)))) = Some st ->
  trace (fst (snd (sample C (self m) (random m)))) = Some tr ->
  lists m !! l = Some (pre ++ p :: post) -> NoDup pre -> p ∉ pre ->
  (forall q, q ∈ pre -> is_Some (tr !! q) /\ is_Some (st !! q)) ->
  tr !! p = None \/ st !! p = None ->
  exists m',
    Base_HSDM.draw C m = (Raise (KeyError p), m') /\
    state (self m') = Some st /\
    (forall q, q ∈ pre ->
       exists l0 x, tr !! q = Some l0 /\ st !! q = Some x /\
                    recorded q (self m') = Some (l0 ++ [x])) /\
    (forall q, q ∉ pre -> recorded q (self m') = tr !! q).
Proof.
  intros Hr Htp Hst Htr Hl Hnd Hp Hpre Hmiss.
  set (o1 := fst (snd (sample C (self m) (random m)))) in *.
  destruct (appended_all_returns pre o1) as [o2 Ho2].
  { intros q Hq. unfold recorded, current. rewrite Htr, Hst.
    destruct (Hpre q Hq). split; assumption. }
  destruct (appended_all_Ok _ _ _ Ho2 Hnd) as (Hin & Hout & Hst2 & _).
  assert (Hrec1 : forall q, recorded q o1 = tr !! q).
  { intros q. unfold recorded. rewrite Htr. reflexivity. }
  assert (Hcur1 : forall q, current q o1 = st !! q).
  { intros q. unfold current. rewrite Hst. reflexivity. }
  assert (Hp2 : appended p o2 = Raise (KeyError p)).
  { unfold appended. pose proof (Hout p Hp) as Hout_p. rewrite Hrec1 in Hout_p.
    unfold recorded in Hout_p. rewrite Hst2, Hst.
    destruct (appended_all_keeps_trace _ _ _ Ho2) as [tr2 Htr2]; [rewrite Htr; eauto|].
    rewrite Htr2 in *. rewrite Hout_p. destruct (tr !! p); [|reflexivity].
    destruct Hmiss as [?| ->]; [discriminate | reflexivity]. }
  exists {| self := o2; lists := lists m; events := events m ++ [Called "sample"];
            random := snd (snd (sample C (self m) (random m))) |}.
  split; [|split; [|split]].
  - unfold Base_HSDM.draw.
    erewrite bind_then; [|rewrite sample_self_eq, Hr; reflexivity].
    erewrite bind_then; [|unfold attr; simpl; fold o1; rewrite Htp; reflexivity].
    erewrite bind_then; [|unfold list_contents; simpl; rewrite Hl; reflexivity].
    apply (for_each_stops pre post p (KeyError p) o2
             {| self := o1; lists := lists m; events := events m ++ [Called "sample"];
                random := snd (snd (sample C (self m) (random m))) |} Ho2 Hp2).
  - simpl. congruence.
  - intros q Hq. destruct (Hin q Hq) as (l0 & x & Hl0 & Hx & Hl2).
    exists l0, x. rewrite <- Hrec1, <- Hcur1. auto.
  - intros q Hq. simpl. rewrite (Hout q Hq). apply Hrec1.
Qed.

(** X9: the theorem on an estimator just built, once the list object of
    SAMPLERS (which its traced_params is) has been extended with B and
    XBetas: the trace has no sequence for B. *)
Lemma draw_stops_at_the_first_missing_name_witness :
  lists ready_with_more_names !! SAMPLERS = Some (SAMPLERS_at_import ++ "B" :: ["XBetas"]) /\
  fst (Base_HSDM.draw Reference.plain ready_with_more_names) = Raise (KeyError "B") /\
  recorded "Rho" (self (snd (Base_HSDM.draw Reference.plain ready_with_more_names)))
  = Some [VFloat 0.25] /\
  recorded "B" (self (snd (Base_HSDM.draw Reference.plain ready_with_more_names))) = None.
Proof.
  assert (Hl : lists ready_with_more_names !! SAMPLERS
               = Some (SAMPLERS_at_import ++ "B" :: ["XBetas"])) by reflexivity.
  assert (Hr : fst (sample Reference.plain (self ready_with_more_names)
                      (random ready_with_more_names)) = Ok tt) by reflexivity.
  assert (Htp : traced_params (fst (snd (sample Reference.plain (self ready_with_more_names)
                                           (random ready_with_more_names))))
                = Some SAMPLERS) by reflexivity.
  pose (st := default ∅ (state (fst (snd (sample Reference.plain (self ready_with_more_names)
                                            (random ready_with_more_names)))))).
  pose (tr := default ∅ (trace (fst (snd (sample Reference.plain (self ready_with_more_names)
                                            (random ready_with_more_names)))))).
  assert (Hst : state (fst (snd (sample Reference.plain (self ready_with_more_names)
                                   (random ready_with_more_names)))) = Some st)
    by reflexivity.
  assert (Htr : trace (fst (snd (sample Reference.plain (self ready_with_more_names)
                                   (random ready_with_more_names)))) = Some tr)
    by reflexivity.
  assert (HB : "B" ∉ SAMPLERS_at_import).
  { rewrite list_elem_of_In. simpl. intuition discriminate. }
  assert (Hpre : forall q, q ∈ SAMPLERS_at_import -> is_Some (tr !! q) /\ is_Some (st !! q)).
  { refine (among_SAMPLERS (fun q => is_Some (tr !! q) /\ is_Some (st !! q)) _ _ _ _ _ _);
      (split; match goal with |- is_Some ?x => apply (bool_decide_eq_true_1 (is_Some x)) end;
       reflexivity). }
  assert (Hmiss : tr !! "B" = None \/ st !! "B" = None) by (left; reflexivity).
  destruct (draw_stops_at_the_first_missing_name Reference.plain SAMPLERS
              SAMPLERS_at_import ["XBetas"] "B" ready_with_more_names st tr
              Hr Htp Hst Htr Hl SAMPLERS_at_import_NoDup HB Hpre Hmiss)
    as (m' & Hrun & _ & Hin & Hout).
  split; [exact Hl|]. rewrite Hrun. cbn [fst snd]. split; [reflexivity|]. split.
  - destruct (Hin "Rho") as (l0 & x & Hl0 & Hx & Hrec);
      [apply list_elem_of_In; simpl; tauto|].
    rewrite Hrec.
    assert (E0 : tr !! "Rho" = Some []) by reflexivity.
    assert (Ex : st !! "Rho" = Some (VFloat 0.25)) by reflexivity.
    rewrite E0 in Hl0. rewrite Ex in Hx. injection Hl0 as <-. injection Hx as <-.
    reflexivity.
  - rewrite (Hout "B" HB). reflexivity.
Defined.

(** ** The calls a construction makes *)






(** ** The data in the state *)

Lemma _setup_truncation_keeps_data (C : collaborators) (o0 : estimator) :
  preserves (fun m => untouched data_names o0 (self m)) (Base_HSDM._setup_truncation C).
Proof. unfold Base_HSDM._setup_truncation. keeps_names. Qed.

Lemma _setup_initial_values_keeps_data (C : collaborators) (o0 : estimator) :
  preserves (fun m => untouched data_names o0 (self m)) (Base_HSDM._setup_initial_values C).
Proof. unfold Base_HSDM._setup_initial_values. keeps_names. Qed.

Lemma sample_keeps_data (C : collaborators) (n : BinNums.Z) (o0 : estimator) :
  keeps_data (sample C) ->
  preserves (fun m => forall k, k ∈ data_names -> current k (self m) = current k o0)
            (Base_HSDM.sample C n false).
Proof.
  intros HK. apply preserves_sample_keep.
  - apply (preserves_draw C (fun o => forall k, k ∈ data_names -> current k o = current k o0)).
    + intros o rs H k Hk. rewrite (HK o rs k Hk). apply H. exact Hk.
    + intros p o o' H Ho k Hk.
      destruct (appended_Ok _ _ _ Ho) as (? & ? & _ & _ & _ & _ & E & _).
      unfold current. rewrite E. apply H. exact Hk.
  - intros e m H. exact H.
Qed.

Lemma Base_HSDM_init_data (C : collaborators) (y X W M Z Delta : value) (n : BinNums.Z)
    (cfg : NS) (m m' : machine) :
  keeps_data (sample C) ->
  Base_HSDM.__init__ C y X W M Z Delta n cfg m = (Ok tt, m') ->
  exists N p J c _J q,
    attr_shape X = Ok (N, p) /\ attr_shape M = Ok (J, c) /\ attr_shape Z = Ok (_J, q) /\
    current "y" (self m') = Some y /\ current "X" (self m') = Some X /\
    current "W" (self m') = Some W /\ current "M" (self m') = Some M /\
    current "Z" (self m') = Some Z /\ current "Delta" (self m') = Some Delta /\
    current "N" (self m') = Some (VInt N) /\ current "J" (self m') = Some (VInt J) /\
    current "p" (self m') = Some (VInt p) /\ current "q" (self m') = Some (VInt q).
Proof.
  intros HK H.
  apply Base_HSDM_init_Ok in H
    as (N & p & J & c & _J & q & ps & leftovers & m1 & m2 & m3 & m4 &
        HX & HM & HZ & _ & _ & H1 & H2 & H3 & H4 & H5).
  exists N, p, J, c, _J, q. split; [exact HX|]. split; [exact HM|]. split; [exact HZ|].
  set (m0 := after_line_36 y X W M Z Delta N J p q ps m) in *.
  pose proof (_setup_data_keeps C data_names (self m0) (delete "extra_tracked_params" cfg)
                eq_refl m0 (untouched_refl _ _)) as K.
  rewrite H1 in K. cbn [snd] in K.
  apply (_setup_configs_keeps data_names (self m0) leftovers) in K.
  rewrite H2 in K. cbn [snd] in K.
  apply (_setup_truncation_keeps_data C (self m0)) in K. rewrite H3 in K. cbn [snd] in K.
  apply (_setup_initial_values_keeps_data C (self m0)) in K. rewrite H4 in K. cbn [snd] in K.
  destruct K as [_ K].
  pose proof (sample_keeps_data C n (self m0) HK
                (with_estimator (set_cycles (VInt 0) (self m4)) m4) K) as K5.
  rewrite H5 in K5. cbn [snd] in K5.
  repeat split; (rewrite K5; [reflexivity | apply list_elem_of_In; simpl; tauto]).
Qed.

(** X11: the estimator a construction returns holds in its state what
    validation made of the input, not the input: y as given, for X what
    verify.covariates returned, for W and M the sparse matrices of the
    weights verify.weights returned (the weights themselves are the
    attributes W and M of the estimator), Z as given and for Delta what
    verify.Delta_members returned; and the dimensions are read off these:
    N and p are the shape of the validated X, J the number of rows of the
    sparse M, q the number of columns of Z.  The number of rows of Z is
    read (line 28) and checked against nothing.  The sweep is any
    collaborator that leaves these ten names of the state alone. *)
Theorem state_holds_the_validated_data (C : collaborators) (y X W M : value)
    (kw : HSDM.keywords) (m m' : machine) (o : estimator) :
  keeps_data (sample C) ->
  HSDM.HSDM C y X W M kw m = (Ok o, m') ->
  exists W' M' Wmat Mmat n_W n_M p0 Delta' membership' X' N p J c _J q,
    verify_weights C W M (default (VStr "r") (HSDM.kw_transform kw)) = Ok (W', M') /\
    attr_n W' = Ok n_W /\ attr_n M' = Ok n_M /\ attr_shape X = Ok (n_W, p0) /\
    attr_sparse W' = Ok Wmat /\ attr_sparse M' = Ok Mmat /\
    verify_Delta_members C (default VNone (HSDM.kw_Delta kw))
      (default VNone (HSDM.kw_membership kw)) (VInt n_W) (VInt n_M)
    = Ok (Delta', membership') /\
    verify_covariates C X W' = Ok X' /\
    attr_shape X' = Ok (N, p) /\ attr_shape Mmat = Ok (J, c) /\
    attr_shape (default VNone (HSDM.kw_Z kw)) = Ok (_J, q) /\
    current "y" o = Some y /\ current "X" o = Some X' /\
    current "W" o = Some Wmat /\ current "M" o = Some Mmat /\
    current "Z" o = Some (default VNone (HSDM.kw_Z kw)) /\
    current "Delta" o = Some Delta' /\
    current "N" o = Some (VInt N) /\ current "J" o = Some (VInt J) /\
    current "p" o = Some (VInt p) /\ current "q" o = Some (VInt q).
Proof.
  intros HK H. unfold HSDM.HSDM in H. apply new_Ok in H as [H ->].
  apply HSDM_init_Ok in H
    as (W' & M' & n_W & n_M & p0 & Wmat & Mmat & Delta' & membership' & X' &
        HW & HnW & HnM & HX0 & HWm & HMm & HD & HC & H).
  apply (Base_HSDM_init_data C _ _ _ _ _ _ _ _ _ _ HK) in H
    as (N & p & J & c & _J & q & HX & HM & HZ & Hcur).
  exists W', M', Wmat, Mmat, n_W, n_M, p0, Delta', membership', X', N, p, J, c, _J, q.
  repeat (split; [assumption|]). exact Hcur.
Qed.

Lemma redraw_Rho_keeps_data : keeps_data Reference.redraw_Rho.
Proof.
  intros o rs k Hk. unfold Reference.redraw_Rho, current. simpl.
  destruct (state o) as [st|] eqn:E; simpl; [|rewrite E; reflexivity].
  apply lookup_insert_ne. intros <-.
  apply list_elem_of_In in Hk. simpl in Hk. intuition discriminate.
Qed.

(** X11: the theorem on a construction with three draws of the sweep
    that only moves Rho. *)
Lemma state_holds_the_validated_data_witness :
  keeps_data (sample Reference.plain) /\
  completed (Reference.built 3) = true /\
  exists X' Wmat N p,
    verify_covariates Reference.plain Reference.X4 Reference.W4 = Ok X' /\
    attr_sparse Reference.W4 = Ok Wmat /\ attr_shape X' = Ok (N, p) /\
    current "X" (returned new_object (Reference.built 3)) = Some X' /\
    current "W" (returned new_object (Reference.built 3)) = Some Wmat /\
    current "N" (returned new_object (Reference.built 3)) = Some (VInt N).
Proof.
  assert (Hc : completed (Reference.built 3) = true) by reflexivity.
  split; [exact redraw_Rho_keeps_data|]. split; [exact Hc|].
  destruct (state_holds_the_validated_data Reference.plain Reference.y4 Reference.X4
              Reference.W4 Reference.M2 (Reference.keywords42 3 ∅) Reference.imported _ _
              redraw_Rho_keeps_data (completed_returned new_object (Reference.built 3) Hc))
    as (W' & M' & Wmat & Mmat & n_W & n_M & p0 & Delta' & membership' & X' & N & p & J & c &
        _J & q & HW & _ & _ & _ & HWm & _ & _ & HC & HX & _ & _ & _ & HcX & HcW & _ & _ &
        _ & HcN & _).
  injection HW as <- <-.
  exists X', Wmat, N, p. repeat split; assumption.
Defined.
